(** * Offload bundler: a shallow embedding of clang/lib/Driver/OffloadBundler.cpp

    The development follows the source file top to bottom: the target
    identifier ([OffloadTargetInfo]), the three file handlers
    ([BinaryFileHandler], [ObjectFileHandler], [TextFileHandler]), the
    handler dispatch ([CreateFileHandler]) and the top-level operations
    ([ListBundleIDsInFile], [BundleFiles], [UnbundleFiles],
    [UnbundleArchive]).

    Conventions.
    - A [StringRef], a [std::string] and the contents of a [MemoryBuffer] are
      byte strings, [list ascii].
    - [size_t], [uint64_t] are 64 bits wide: values are in [Z], and every
      addition or subtraction the source performs on them is wrapped with
      [wrap64].  [unsigned] is 32 bits wide ([~0u] is [2^32 - 1]).
    - A function of the source that returns [llvm::Error] or
      [llvm::Expected<T>] returns an [outcome]: [Ok], [Err], a failed
      [assert] ([AssertFail], assertions are enabled), or [Undef] where the
      C++ behaviour is undefined (a read outside a buffer, a use of an
      iterator that was never assigned).
    - Collaborators that live outside the source file (the CUDA architecture
      table, [llvm::Triple::isCompatibleWith], [clang::isCompatibleTargetID],
      the order in which an [llvm::StringMap] is iterated, the object-file
      and archive readers, the file system and [llvm-objcopy]) are Section
      variables. *)

From Stdlib Require Import List ZArith Lia Bool Ascii Permutation.
From Stdlib Require String.
Import ListNotations.
Import String.StringSyntax.
Delimit Scope string_scope with string.
Local Open Scope Z_scope.

(** ** Byte strings *)

Definition bytes : Type := list ascii.

(** A string literal as a byte string. *)
Definition B (s : String.string) : bytes := String.list_ascii_of_string s.
Arguments B s%_string.

Fixpoint bytes_eqb (a b : bytes) : bool :=
  match a, b with
  | [], [] => true
  | x :: a', y :: b' => Ascii.eqb x y && bytes_eqb a' b'
  | _, _ => false
  end.

Definition len (s : bytes) : Z := Z.of_nat (length s).

(** ** Machine integers *)

Definition wrap64 (z : Z) : Z := z mod 2 ^ 64.

(** [StringRef::npos], i.e. [~size_t(0)]. *)
Definition npos : Z := 2 ^ 64 - 1.

(** [~0u], the "no host input" value of [HostInputIndex]. *)
Definition NoHostIndex : Z := 2 ^ 32 - 1.

Definition byte_val (c : ascii) : Z := Z.of_N (N_of_ascii c).
Definition byte_of (z : Z) : ascii := ascii_of_N (Z.to_N (z mod 256)).

(** ** The [StringRef] operations the source uses *)

(** [StringRef::starts_with]. *)
Fixpoint starts_with (prefix s : bytes) : bool :=
  match prefix, s with
  | [], _ => true
  | p :: ps, c :: cs => Ascii.eqb p c && starts_with ps cs
  | _ :: _, [] => false
  end.

(** [toLower] of one byte (ASCII letters only). *)
Definition to_lower (c : ascii) : ascii :=
  let v := byte_val c in
  if (65 <=? v) && (v <=? 90) then byte_of (v + 32) else c.

(** [StringRef::starts_with_insensitive]. *)
Fixpoint starts_with_insensitive (s prefix : bytes) : bool :=
  match prefix, s with
  | [], _ => true
  | p :: ps, c :: cs =>
      Ascii.eqb (to_lower p) (to_lower c) && starts_with_insensitive cs ps
  | _ :: _, [] => false
  end.

(** First occurrence of [needle] in [hay], as an index into [hay]. *)
Fixpoint find_first (needle hay : bytes) : option nat :=
  if starts_with needle hay then Some 0%nat
  else match hay with
       | [] => None
       | _ :: tl => option_map S (find_first needle tl)
       end.

(** [StringRef::find(Str, From)]: the first index at or after [From] where
    [Str] occurs, [npos] when there is none or [From] is past the end. *)
Definition find (hay needle : bytes) (From : Z) : Z :=
  if len hay <? From then npos
  else match find_first needle (skipn (Z.to_nat From) hay) with
       | Some k => From + Z.of_nat k
       | None => npos
       end.

(** [StringRef::split(Separator)]: around the first occurrence of the
    character; the whole string and the empty string when it is absent. *)
Fixpoint split (sep : ascii) (s : bytes) : bytes * bytes :=
  match s with
  | [] => ([], [])
  | c :: tl =>
      if Ascii.eqb c sep then ([], tl)
      else let '(a, b) := split sep tl in (c :: a, b)
  end.

(** Whether [sep] occurs in [s]. *)
Definition contains_char (sep : ascii) (s : bytes) : bool :=
  existsb (Ascii.eqb sep) s.

(** [StringRef::rsplit(Separator)]: around the last occurrence. *)
Fixpoint rsplit (sep : ascii) (s : bytes) : bytes * bytes :=
  match s with
  | [] => ([], [])
  | c :: tl =>
      if contains_char sep tl then
        let '(a, b) := rsplit sep tl in (c :: a, b)
      else if Ascii.eqb c sep then ([], tl)
      else (c :: tl, [])
  end.

(** [StringRef::substr(Start)] with the default length: the tail from
    [Start], empty when [Start] is past the end. *)
Definition substr (s : bytes) (Start : Z) : bytes :=
  skipn (Z.to_nat Start) s.

(** [StringRef(Data + Start, Length)] read byte by byte: the bytes when the
    range lies inside the buffer, nothing when it does not. *)
Definition slice (s : bytes) (Start Length : Z) : option bytes :=
  if (0 <=? Start) && (0 <=? Length) && (Start + Length <=? len s)
  then Some (firstn (Z.to_nat Length) (skipn (Z.to_nat Start) s))
  else None.

(** [StringRef::contains(Other)]. *)
Definition contains (s other : bytes) : bool :=
  match find_first other s with Some _ => true | None => false end.

(** [StringRef::compare] as a strict order: bytes compared as unsigned
    chars, a proper prefix first.  It is the order of [std::set<StringRef>]. *)
Fixpoint bytes_ltb (a b : bytes) : bool :=
  match a, b with
  | [], [] => false
  | [], _ :: _ => true
  | _ :: _, [] => false
  | x :: a', y :: b' =>
      if byte_val x <? byte_val y then true
      else if byte_val y <? byte_val x then false
      else bytes_ltb a' b'
  end.

Definition dash : ascii := "-"%char.
Definition colon : ascii := ":"%char.
Definition newline : ascii := "010"%char.
Definition NL : bytes := [newline].

(** ** Outcomes *)

Inductive Error : Type :=
| FileError (path : bytes)      (* createFileError(path, EC) *)
| StringError (msg : bytes)     (* createStringError(..., msg) *)
| LibraryError.                 (* an error passed on from a library call *)

Inductive outcome (A : Type) : Type :=
| Ok (a : A)
| Err (e : Error)
| AssertFail (msg : String.string)
| Undef
| OutOfFuel.
Arguments Ok {A} a.
Arguments Err {A} e.
Arguments AssertFail {A} msg%_string.
Arguments Undef {A}.
Arguments OutOfFuel {A}.

Definition bind {A C : Type} (m : outcome A) (k : A -> outcome C) : outcome C :=
  match m with
  | Ok a => k a
  | Err e => Err e
  | AssertFail msg => AssertFail msg
  | Undef => Undef
  | OutOfFuel => OutOfFuel
  end.

Notation "x <- m ;; k" := (bind m (fun x => k))
  (at level 61, m at next level, right associativity).
Notation "' p <- m ;; k" := (bind m (fun x => let p := x in k))
  (at level 61, p pattern, m at next level, right associativity).

(** [assert(c && msg)]. *)
Definition assert (c : bool) (msg : String.string) : outcome unit :=
  if c then Ok tt else AssertFail msg.
Arguments assert c%_bool msg%_string.

(** ** Collaborators outside the source file *)

(** A section of an object file: its name and its contents. *)
Definition Section_ : Type := (bytes * bytes)%type.

(** A member of an archive: its name and its buffer. *)
Definition ArchiveMember : Type := (bytes * bytes)%type.

Class Collaborators : Type := {
  (** [clang::StringToCudaArch(S) != clang::CudaArch::UNKNOWN] *)
  StringToCudaArch_known : bytes -> bool;
  (** [llvm::Triple::isCompatibleWith], on the triples' [str()] *)
  Triple_isCompatibleWith : bytes -> bytes -> bool;
  (** [clang::isCompatibleTargetID(Provided, Requested)] *)
  isCompatibleTargetID : bytes -> bytes -> bool;
  (** The order in which an [llvm::StringMap] iterates over its keys, given
      the keys in the order they were inserted.  Erasing an entry leaves the
      order of the others as it was. *)
  StringMap_order : list bytes -> list bytes;
  (** [llvm::object::createBinary]: the sections of the buffer when it is an
      object file, nothing when it is not. *)
  createBinary : bytes -> option (list Section_);
  (** Whether [raw_fd_ostream(Path, EC, OF_None)] leaves [EC] clear. *)
  can_create : bytes -> bool;
  (** [MemoryBuffer::getFileOrSTDIN]: the contents of a file, when it can
      be read. *)
  getFileOrSTDIN : bytes -> option bytes;
  (** [sys::fs::createTemporaryFile], the name of the file when it succeeds. *)
  createTemporaryFile : option bytes;
  (** The exit code of [sys::ExecuteAndWait(Program, Args)]. *)
  ExecuteAndWait : bytes -> list bytes -> Z;
  (** [llvm::object::Archive::create] and the iteration over its children. *)
  Archive_children : bytes -> option (list ArchiveMember);
  (** Whether [llvm::writeArchive] to the path succeeds. *)
  writeArchive_ok : bytes -> bool;
  (** [sys::path::filename], [sys::path::stem], [sys::path::extension]. *)
  path_filename : bytes -> bytes;
  path_stem : bytes -> bytes;
  path_extension : bytes -> bytes
}.

(** ** Configuration *)

(** Modelled from the spec: [OffloadBundlerConfig] is declared in
    clang/Driver/OffloadBundler.h, which is not under src/; the fields are
    the ones the source reads and the spec's BundlerConfig lists. *)
Record OffloadBundlerConfig : Type := {
  AllowNoHost : bool;
  AllowMissingBundles : bool;
  PrintExternalCommands : bool;
  HipOpenmpCompatible : bool;
  BundleAlignment : Z;
  HostInputIndex : Z;
  FilesType : bytes;
  ObjcopyPath : bytes;
  TargetNames : list bytes;
  InputFileNames : list bytes;
  OutputFileNames : list bytes
}.

(** ** Triples *)

Module Triple.

(** Modelled from the spec: [llvm::Triple] is not under src/.  The triple is
    its text; the four name getters split it on ['-'] and the four-argument
    constructor joins them again, so that "an absent environment becomes a
    stable empty string". *)
Definition getArchName (Data : bytes) : bytes :=
  fst (split dash Data).

Definition getVendorName (Data : bytes) : bytes :=
  fst (split dash (snd (split dash Data))).

Definition getOSName (Data : bytes) : bytes :=
  fst (split dash (snd (split dash (snd (split dash Data))))).

Definition getEnvironmentName (Data : bytes) : bytes :=
  snd (split dash (snd (split dash (snd (split dash Data))))).

Definition make (ArchStr VendorStr OSStr EnvironmentStr : bytes) : bytes :=
  ArchStr ++ [dash] ++ VendorStr ++ [dash] ++ OSStr ++ [dash] ++ EnvironmentStr.

(** [llvm::Triple(t.getArchName(), t.getVendorName(), t.getOSName(),
    t.getEnvironmentName())] for [t = llvm::Triple(Str)]. *)
Definition standardize (Str : bytes) : bytes :=
  make (getArchName Str) (getVendorName Str) (getOSName Str)
       (getEnvironmentName Str).

End Triple.

(** ** OffloadTargetInfo *)

Record OffloadTargetInfo : Type := {
  OffloadKind : bytes;
  Triple : bytes;
  TargetID : bytes;
  BundlerConfig : OffloadBundlerConfig
}.

Section TargetInfo.
Context {C : Collaborators}.

(** The constructor [OffloadTargetInfo::OffloadTargetInfo(Target, BC)]. *)
Definition mkOffloadTargetInfo (Target : bytes) (BC : OffloadBundlerConfig)
  : OffloadTargetInfo :=
  let TargetFeatures := split colon Target in
  let TripleOrGPU := rsplit dash (fst TargetFeatures) in
  if StringToCudaArch_known (snd TripleOrGPU) then
    let KindTriple := split dash (fst TripleOrGPU) in
    {| OffloadKind := fst KindTriple;
       Triple := Triple.standardize (snd KindTriple);
       TargetID := substr Target (find Target (snd TripleOrGPU) 0);
       BundlerConfig := BC |}
  else
    let KindTriple := split dash (fst TargetFeatures) in
    {| OffloadKind := fst KindTriple;
       Triple := Triple.standardize (snd KindTriple);
       TargetID := [];
       BundlerConfig := BC |}.

Definition hasHostKind (I : OffloadTargetInfo) : bool :=
  bytes_eqb (OffloadKind I) (B "host").

Definition isOffloadKindValid (I : OffloadTargetInfo) : bool :=
  bytes_eqb (OffloadKind I) (B "host") || bytes_eqb (OffloadKind I) (B "openmp")
  || bytes_eqb (OffloadKind I) (B "hip") || bytes_eqb (OffloadKind I) (B "hipv4").

Definition isOffloadKindCompatible (I : OffloadTargetInfo)
  (TargetOffloadKind : bytes) : bool :=
  if bytes_eqb (OffloadKind I) TargetOffloadKind then true
  else if HipOpenmpCompatible (BundlerConfig I) then
    let HIPCompatibleWithOpenMP :=
      starts_with_insensitive (OffloadKind I) (B "hip")
      && bytes_eqb TargetOffloadKind (B "openmp") in
    let OpenMPCompatibleWithHIP :=
      bytes_eqb (OffloadKind I) (B "openmp")
      && starts_with_insensitive TargetOffloadKind (B "hip") in
    HIPCompatibleWithOpenMP || OpenMPCompatibleWithHIP
  else false.

(** [OffloadTargetInfo::operator==]. *)
Definition OffloadTargetInfo_eq (I Target : OffloadTargetInfo) : bool :=
  bytes_eqb (OffloadKind I) (OffloadKind Target)
  && Triple_isCompatibleWith (Triple I) (Triple Target)
  && bytes_eqb (TargetID I) (TargetID Target).

(** [OffloadTargetInfo::str]. *)
Definition OffloadTargetInfo_str (I : OffloadTargetInfo) : bytes :=
  OffloadKind I ++ B "-" ++ Triple I ++ B "-" ++ TargetID I.

Definition isCodeObjectCompatible (CodeObjectInfo TargetInfo : OffloadTargetInfo)
  : bool :=
  (* Compatible in case of exact match. *)
  if OffloadTargetInfo_eq CodeObjectInfo TargetInfo then true
  (* Incompatible if Kinds or Triples mismatch. *)
  else if negb (isOffloadKindCompatible CodeObjectInfo (OffloadKind TargetInfo))
          || negb (Triple_isCompatibleWith (Triple CodeObjectInfo)
                                           (Triple TargetInfo))
  then false
  (* Incompatible if target IDs are incompatible. *)
  else if negb (isCompatibleTargetID (TargetID CodeObjectInfo)
                                     (TargetID TargetInfo))
  then false
  else true.

Definition getDeviceFileExtension (Device BundleFileName : bytes) : bytes :=
  if contains Device (B "gfx") then B ".bc"
  else if contains Device (B "sm_") then B ".cubin"
  else path_extension BundleFileName.

Definition getDeviceLibraryFileName (BundleFileName Device : bytes) : bytes :=
  let LibName := path_stem BundleFileName in
  let Extension := getDeviceFileExtension Device BundleFileName in
  LibName ++ Extension.

End TargetInfo.

(** ** [llvm::StringMap] *)

(** The entries in the order they were inserted. *)
Definition StringMap (V : Type) : Type := list (bytes * V).

Fixpoint sm_lookup {V : Type} (m : StringMap V) (k : bytes) : option V :=
  match m with
  | [] => None
  | (k', v) :: m' => if bytes_eqb k' k then Some v else sm_lookup m' k
  end.

Definition sm_contains {V : Type} (m : StringMap V) (k : bytes) : bool :=
  match sm_lookup m k with Some _ => true | None => false end.

(** [M[k] = v]: the entry is overwritten when the key is there, added when it
    is not. *)
Fixpoint sm_set {V : Type} (m : StringMap V) (k : bytes) (v : V) : StringMap V :=
  match m with
  | [] => [(k, v)]
  | (k', v') :: m' =>
      if bytes_eqb k' k then (k', v) :: m' else (k', v') :: sm_set m' k v
  end.

(** The entries in the order [begin() .. end()] visits them. *)
Definition sm_entries {C : Collaborators} {V : Type} (m : StringMap V)
  : list (bytes * V) :=
  flat_map (fun k => match sm_lookup m k with
                     | Some v => [(k, v)]
                     | None => []
                     end)
           (StringMap_order (map fst m)).

(** A [StringMap] iterator is a pointer into the bucket table.  A
    default-constructed iterator holds the null pointer, and so do [begin()]
    and [end()] of a map that never held an entry (it has no table yet). *)
Inductive StringMapIterator : Type :=
| IterNull
| IterAt (i : nat).

Definition sm_begin {C : Collaborators} {V : Type} (m : StringMap V)
  : StringMapIterator :=
  match m with [] => IterNull | _ :: _ => IterAt 0 end.

Definition sm_end {C : Collaborators} {V : Type} (m : StringMap V)
  : StringMapIterator :=
  match m with [] => IterNull | _ :: _ => IterAt (length (sm_entries m)) end.

Definition iter_eqb (a b : StringMapIterator) : bool :=
  match a, b with
  | IterNull, IterNull => true
  | IterAt i, IterAt j => Nat.eqb i j
  | _, _ => false
  end.

(** ** [raw_fd_ostream] *)

(** Modelled from the spec: [raw_fd_ostream] is not under src/; the output is
    "a seekable sink".  The stream is the file's bytes and the position of
    the next write.  Writing no bytes leaves the file as it is; writing past
    the end fills the gap with zero bytes. *)
Record raw_fd_ostream : Type := {
  os_data : bytes;
  os_pos : Z
}.

Definition os_new : raw_fd_ostream := {| os_data := []; os_pos := 0 |}.

Definition NUL : ascii := Ascii.zero.

Definition os_write (OS : raw_fd_ostream) (s : bytes) : raw_fd_ostream :=
  match s with
  | [] => OS
  | _ :: _ =>
      let p := Z.to_nat (os_pos OS) in
      let d := os_data OS ++ repeat NUL (p - length (os_data OS)) in
      {| os_data := firstn p d ++ s ++ skipn (p + length s) d;
         os_pos := os_pos OS + len s |}
  end.

Definition os_seek (OS : raw_fd_ostream) (off : Z) : raw_fd_ostream :=
  {| os_data := os_data OS; os_pos := off |}.

(** ** Little-endian 8-byte integers *)

Fixpoint le_encode (n : nat) (v : Z) : bytes :=
  match n with
  | O => []
  | S n' => byte_of v :: le_encode n' (v / 256)
  end.

Fixpoint le_decode (s : bytes) : Z :=
  match s with
  | [] => 0
  | c :: tl => byte_val c + 256 * le_decode tl
  end.

(** Read 8-byte integers from a buffer in little-endian format. *)
Definition Read8byteIntegerFromBuffer (Buffer : bytes) (pos : Z) : Z :=
  le_decode (firstn 8 (skipn (Z.to_nat pos) Buffer)).

(** Write 8-byte integers to a buffer in little-endian format. *)
Definition Write8byteIntegerToBuffer (OS : raw_fd_ostream) (Val : Z)
  : raw_fd_ostream :=
  os_write OS (le_encode 8 (wrap64 Val)).

(** Magic string that marks the existence of offloading data. *)
Definition OFFLOAD_BUNDLER_MAGIC_STR : bytes := B "__CLANG_OFFLOAD_BUNDLE__".

(** [llvm::alignTo(Value, Align)].  Modelled from the spec: the function is
    not under src/ (it asserts that [Align] is not zero); the write algorithm
    "rounds up to bundle_alignment". *)
Definition alignTo (Value Align : Z) : outcome Z :=
  _ <- assert (negb (Align =? 0)) "Align can't be 0.";;
  Ok (wrap64 (wrap64 (Value + Align - 1) / Align * Align)).

(** ** Handler for binary files *)

Module BinaryFileHandler.

(** Information about the bundles extracted from the header. *)
Record BinaryBundleInfo : Type := {
  Size : Z;      (* Size of the bundle. *)
  Offset : Z     (* Offset at which the bundle starts in the bundled file. *)
}.

Record t : Type := {
  (* Map between a triple and the corresponding bundle information. *)
  BundlesInfo : StringMap BinaryBundleInfo;
  (* Iterator for the bundle information that is being read. *)
  CurBundleInfo : StringMapIterator;
  NextBundleInfo : StringMapIterator;
  (* Current bundle target to be written. *)
  CurWriteBundleTarget : bytes;
  (* Configuration options and arrays for this bundler job *)
  BundlerConfig : OffloadBundlerConfig
}.

Definition new (BC : OffloadBundlerConfig) : t :=
  {| BundlesInfo := []; CurBundleInfo := IterNull; NextBundleInfo := IterNull;
     CurWriteBundleTarget := []; BundlerConfig := BC |}.

Definition with_BundlesInfo (H : t) (BI : StringMap BinaryBundleInfo) : t :=
  {| BundlesInfo := BI; CurBundleInfo := CurBundleInfo H;
     NextBundleInfo := NextBundleInfo H;
     CurWriteBundleTarget := CurWriteBundleTarget H;
     BundlerConfig := BundlerConfig H |}.

Definition with_iterators (H : t) (Cur Next : StringMapIterator) : t :=
  {| BundlesInfo := BundlesInfo H; CurBundleInfo := Cur; NextBundleInfo := Next;
     CurWriteBundleTarget := CurWriteBundleTarget H;
     BundlerConfig := BundlerConfig H |}.

Definition with_CurWriteBundleTarget (H : t) (T : bytes) : t :=
  {| BundlesInfo := BundlesInfo H; CurBundleInfo := CurBundleInfo H;
     NextBundleInfo := NextBundleInfo H; CurWriteBundleTarget := T;
     BundlerConfig := BundlerConfig H |}.

Section Ops.
Context {C : Collaborators}.

(** The body of [for (uint64_t i = 0; i < NumberOfBundles; ++i)] in
    [ReadHeader].  An early [return Error::success()] leaves the handler as
    it is at that point: the bundles read so far are in [BundlesInfo], and
    the iterators are not touched. *)
Fixpoint ReadHeader_loop (fuel : nat) (FC : bytes) (i NumberOfBundles : Z)
  (ReadChars : Z) (H : t) : outcome t :=
  if NumberOfBundles <=? i then
    (* Set the iterator to where we will start to read. *)
    Ok (with_iterators H (sm_end (BundlesInfo H)) (sm_begin (BundlesInfo H)))
  else
  (* Read offset. *)
  if len FC <? wrap64 (ReadChars + 8) then Ok H else
  let Offset := Read8byteIntegerFromBuffer FC ReadChars in
  let ReadChars := wrap64 (ReadChars + 8) in
  (* Read size. *)
  if len FC <? wrap64 (ReadChars + 8) then Ok H else
  let Size := Read8byteIntegerFromBuffer FC ReadChars in
  let ReadChars := wrap64 (ReadChars + 8) in
  (* Read triple size. *)
  if len FC <? wrap64 (ReadChars + 8) then Ok H else
  let TripleSize := Read8byteIntegerFromBuffer FC ReadChars in
  let ReadChars := wrap64 (ReadChars + 8) in
  (* Read triple. *)
  if len FC <? wrap64 (ReadChars + TripleSize) then Ok H else
  let Triple := slice FC ReadChars TripleSize in
  let ReadChars := wrap64 (ReadChars + TripleSize) in
  (* Check if the offset and size make sense. *)
  if (Offset =? 0) || (len FC <? wrap64 (Offset + Size)) then Ok H else
  match Triple with
  | None => Undef   (* the bytes of the triple are read outside the buffer *)
  | Some Triple =>
      _ <- assert (negb (sm_contains (BundlesInfo H) Triple))
                  "Triple is duplicated??";;
      let H := with_BundlesInfo H
                 (sm_set (BundlesInfo H) Triple
                         {| Size := Size; Offset := Offset |}) in
      match fuel with
      | O => OutOfFuel
      | S fuel' => ReadHeader_loop fuel' FC (i + 1) NumberOfBundles ReadChars H
      end
  end.

Definition ReadHeader (H : t) (Input : bytes) : outcome t :=
  let FC := Input in
  (* Initialize the current bundle with the end of the container. *)
  let H := with_iterators H (sm_end (BundlesInfo H)) (NextBundleInfo H) in
  (* Check if buffer is smaller than magic string. *)
  let ReadChars := len OFFLOAD_BUNDLER_MAGIC_STR in
  if len FC <? ReadChars then Ok H else
  (* Check if no magic was found. *)
  let Magic := firstn (length OFFLOAD_BUNDLER_MAGIC_STR) FC in
  if negb (bytes_eqb Magic OFFLOAD_BUNDLER_MAGIC_STR) then Ok H else
  (* Read number of bundles. *)
  if len FC <? wrap64 (ReadChars + 8) then Ok H else
  let NumberOfBundles := Read8byteIntegerFromBuffer FC ReadChars in
  let ReadChars := wrap64 (ReadChars + 8) in
  (* Read bundle offsets, sizes and triples. *)
  ReadHeader_loop (length FC) FC 0 NumberOfBundles ReadChars H.

Definition ReadBundleStart (H : t) (Input : bytes)
  : outcome (option bytes * t) :=
  if iter_eqb (NextBundleInfo H) (sm_end (BundlesInfo H)) then Ok (None, H)
  else
    match NextBundleInfo H with
    | IterNull => Undef   (* a null iterator is incremented and dereferenced *)
    | IterAt i =>
        match nth_error (sm_entries (BundlesInfo H)) i with
        | None => Undef
        | Some (k, _) => Ok (Some k, with_iterators H (IterAt i) (IterAt (S i)))
        end
    end.

(** The entry [CurBundleInfo] points at. *)
Definition current (H : t) : option (bytes * BinaryBundleInfo) :=
  match CurBundleInfo H with
  | IterNull => None
  | IterAt i => nth_error (sm_entries (BundlesInfo H)) i
  end.

Definition ReadBundleEnd (H : t) (Input : bytes) : outcome t :=
  _ <- assert (negb (iter_eqb (CurBundleInfo H) (sm_end (BundlesInfo H))))
              "Invalid reader info!";;
  Ok H.

(** The bytes [ReadBundle] writes to [OS]. *)
Definition ReadBundle (H : t) (Input : bytes) : outcome (bytes * t) :=
  _ <- assert (negb (iter_eqb (CurBundleInfo H) (sm_end (BundlesInfo H))))
              "Invalid reader info!";;
  let FC := Input in
  match current H with
  | None => Undef
  | Some (_, BI) =>
      match slice FC (Offset BI) (Size BI) with
      | None => Undef   (* the bundle is read outside the buffer *)
      | Some s => Ok (s, H)
      end
  end.

(** [for (auto &T : BundlerConfig.TargetNames)] in [WriteHeader], with
    [Inputs] advanced in step ([*Inputs[Idx++]]); running out of inputs is an
    access past the end of the array. *)
Fixpoint WriteHeader_loop (Targets Inputs : list bytes) (HeaderSize : Z)
  (OS : raw_fd_ostream) (H : t) : outcome (raw_fd_ostream * t) :=
  match Targets with
  | [] => Ok (OS, H)
  | T :: Targets' =>
      match Inputs with
      | [] => Undef
      | MB :: Inputs' =>
          HeaderSize <- alignTo HeaderSize (BundleAlignment (BundlerConfig H));;
          (* Bundle offset. *)
          let OS := Write8byteIntegerToBuffer OS HeaderSize in
          (* Size of the bundle (adds to the next bundle's offset) *)
          let OS := Write8byteIntegerToBuffer OS (len MB) in
          let H := with_BundlesInfo H
                     (sm_set (BundlesInfo H) T
                             {| Size := len MB; Offset := HeaderSize |}) in
          let HeaderSize := wrap64 (HeaderSize + len MB) in
          (* Size of the triple *)
          let OS := Write8byteIntegerToBuffer OS (len T) in
          (* Triple *)
          let OS := os_write OS T in
          WriteHeader_loop Targets' Inputs' HeaderSize OS H
      end
  end.

Definition WriteHeader (H : t) (OS : raw_fd_ostream) (Inputs : list bytes)
  : outcome (raw_fd_ostream * t) :=
  let TargetNames := TargetNames (BundlerConfig H) in
  (* Compute size of the header. *)
  let HeaderSize := wrap64 (len OFFLOAD_BUNDLER_MAGIC_STR) in
  let HeaderSize := wrap64 (HeaderSize + 8) in
  let HeaderSize :=
    fold_left (fun hs T => wrap64 (wrap64 (hs + 3 * 8) + len T))
              TargetNames HeaderSize in
  (* Write to the buffer the header. *)
  let OS := os_write OS OFFLOAD_BUNDLER_MAGIC_STR in
  let OS := Write8byteIntegerToBuffer OS (Z.of_nat (length TargetNames)) in
  WriteHeader_loop TargetNames Inputs HeaderSize OS H.

Definition WriteBundleStart (H : t) (OS : raw_fd_ostream) (TargetTriple : bytes)
  : outcome (raw_fd_ostream * t) :=
  Ok (OS, with_CurWriteBundleTarget H TargetTriple).

Definition WriteBundleEnd (H : t) (OS : raw_fd_ostream) (TargetTriple : bytes)
  : outcome (raw_fd_ostream * t) :=
  Ok (OS, H).

(** [BundlesInfo[CurWriteBundleTarget]] adds a default entry when the key is
    not there. *)
Definition WriteBundle (H : t) (OS : raw_fd_ostream) (Input : bytes)
  : outcome (raw_fd_ostream * t) :=
  let '(BI, H) :=
    match sm_lookup (BundlesInfo H) (CurWriteBundleTarget H) with
    | Some BI => (BI, H)
    | None =>
        let BI := {| Size := 0; Offset := 0 |} in
        (BI, with_BundlesInfo H
               (sm_set (BundlesInfo H) (CurWriteBundleTarget H) BI))
    end in
  let OS := os_seek OS (Offset BI) in
  let OS := os_write OS Input in
  Ok (OS, H).

End Ops.
End BinaryFileHandler.

(** ** Handler for text files *)

Module TextFileHandler.

Record t : Type := {
  (* String that begins a line comment. *)
  Comment : bytes;
  (* String that initiates a bundle. *)
  BundleStartString : bytes;
  (* String that closes a bundle. *)
  BundleEndString : bytes;
  (* Number of chars read from input. *)
  ReadChars : Z
}.

(** The constructor [TextFileHandler(Comment)].  The adjacent literals
    [" " OFFLOAD_BUNDLER_MAGIC_STR "__START__ "] are one literal. *)
Definition new (Comment : bytes) : t :=
  {| Comment := Comment;
     BundleStartString :=
       NL ++ Comment ++ (B " " ++ OFFLOAD_BUNDLER_MAGIC_STR ++ B "__START__ ");
     BundleEndString :=
       NL ++ Comment ++ (B " " ++ OFFLOAD_BUNDLER_MAGIC_STR ++ B "__END__ ");
     ReadChars := 0 |}.

Definition with_ReadChars (H : t) (n : Z) : t :=
  {| Comment := Comment H; BundleStartString := BundleStartString H;
     BundleEndString := BundleEndString H; ReadChars := n |}.

Definition ReadHeader (H : t) (Input : bytes) : outcome t := Ok H.

Definition ReadBundleStart (H : t) (Input : bytes)
  : outcome (option bytes * t) :=
  let FC := Input in
  (* Find start of the bundle. *)
  let ReadChars := find FC (BundleStartString H) (ReadChars H) in
  if ReadChars =? npos then Ok (None, with_ReadChars H ReadChars) else
  (* Get position of the triple. *)
  let ReadChars := wrap64 (ReadChars + len (BundleStartString H)) in
  let TripleStart := ReadChars in
  (* Get position that closes the triple. *)
  let ReadChars := find FC NL ReadChars in
  let TripleEnd := ReadChars in
  if TripleEnd =? npos then Ok (None, with_ReadChars H ReadChars) else
  (* Next time we read after the new line. *)
  let ReadChars := wrap64 (ReadChars + 1) in
  match slice FC TripleStart (wrap64 (TripleEnd - TripleStart)) with
  | None => Undef
  | Some Triple => Ok (Some Triple, with_ReadChars H ReadChars)
  end.

(** [FC[ReadChars]]: [StringRef::operator[]] asserts that the index is
    inside the string. *)
Definition ReadBundleEnd (H : t) (Input : bytes) : outcome t :=
  let FC := Input in
  (* Read up to the next new line. *)
  _ <- assert (ReadChars H <? len FC) "Invalid index!";;
  _ <- assert (match nth_error FC (Z.to_nat (ReadChars H)) with
               | Some c => Ascii.eqb c newline
               | None => false
               end) "The bundle should end with a new line.";;
  let ReadChars := find FC NL (wrap64 (ReadChars H + 1)) in
  let TripleEnd := ReadChars in
  let ReadChars :=
    if negb (TripleEnd =? npos)
    then (* Next time we read after the new line. *) wrap64 (ReadChars + 1)
    else ReadChars in
  Ok (with_ReadChars H ReadChars).

(** The bytes [ReadBundle] writes to [OS]: [StringRef Bundle(&FC.data()
    [BundleStart], BundleEnd - BundleStart)], read byte by byte. *)
Definition ReadBundle (H : t) (Input : bytes) : outcome (bytes * t) :=
  let FC := Input in
  let BundleStart := ReadChars H in
  (* Find end of the bundle. *)
  let ReadChars := find FC (BundleEndString H) (ReadChars H) in
  let BundleEnd := ReadChars in
  match slice FC BundleStart (wrap64 (BundleEnd - BundleStart)) with
  | None => Undef   (* the bundle is read outside the buffer *)
  | Some Bundle => Ok (Bundle, with_ReadChars H ReadChars)
  end.

Definition WriteHeader (H : t) (OS : raw_fd_ostream) (Inputs : list bytes)
  : outcome (raw_fd_ostream * t) :=
  Ok (OS, H).

Definition WriteBundleStart (H : t) (OS : raw_fd_ostream) (TargetTriple : bytes)
  : outcome (raw_fd_ostream * t) :=
  let OS := os_write OS (BundleStartString H) in
  let OS := os_write OS TargetTriple in
  let OS := os_write OS NL in
  Ok (OS, H).

Definition WriteBundleEnd (H : t) (OS : raw_fd_ostream) (TargetTriple : bytes)
  : outcome (raw_fd_ostream * t) :=
  let OS := os_write OS (BundleEndString H) in
  let OS := os_write OS TargetTriple in
  let OS := os_write OS NL in
  Ok (OS, H).

Definition WriteBundle (H : t) (OS : raw_fd_ostream) (Input : bytes)
  : outcome (raw_fd_ostream * t) :=
  Ok (os_write OS Input, H).

Definition listBundleIDsCallback (H : t) (Input : bytes) : outcome t :=
  let H := with_ReadChars H (find Input (BundleEndString H) (ReadChars H)) in
  ReadBundleEnd H Input.

End TextFileHandler.

(** ** Handler for object files *)

Module ObjectFileHandler.

Record t : Type := {
  (* The object file we are currently dealing with: its sections. *)
  Obj : list Section_;
  (* Total number of inputs. *)
  NumberOfInputs : nat;
  (* Total number of processed inputs. *)
  NumberOfProcessedInputs : nat;
  (* Iterator of the current and next section: indices into [Obj]. *)
  CurrentSection : nat;
  NextSection : nat;
  (* Configuration options and arrays for this bundler job *)
  BundlerConfig : OffloadBundlerConfig
}.

Definition new (ObjIn : list Section_) (BC : OffloadBundlerConfig) : t :=
  {| Obj := ObjIn; NumberOfInputs := 0; NumberOfProcessedInputs := 0;
     CurrentSection := 0; NextSection := 0; BundlerConfig := BC |}.

Definition with_sections (H : t) (Cur Next : nat) : t :=
  {| Obj := Obj H; NumberOfInputs := NumberOfInputs H;
     NumberOfProcessedInputs := NumberOfProcessedInputs H;
     CurrentSection := Cur; NextSection := Next;
     BundlerConfig := BundlerConfig H |}.

Definition with_counts (H : t) (Inputs Processed : nat) : t :=
  {| Obj := Obj H; NumberOfInputs := Inputs;
     NumberOfProcessedInputs := Processed;
     CurrentSection := CurrentSection H; NextSection := NextSection H;
     BundlerConfig := BundlerConfig H |}.

(** Return bundle name (<kind>-<triple>) if the provided section is an
    offload section. *)
Definition IsOffloadSection (CurSection : Section_) : option bytes :=
  let Name := fst CurSection in
  (* If it does not start with the reserved suffix, just skip this section. *)
  if negb (starts_with OFFLOAD_BUNDLER_MAGIC_STR Name) then None
  (* Return the triple that is right after the reserved prefix. *)
  else Some (substr Name (len OFFLOAD_BUNDLER_MAGIC_STR)).

(** [while (NextSection != Obj->section_end())] over the sections from
    index [idx] on: the first offload section, with its index. *)
Fixpoint next_offload_section (secs : list Section_) (idx : nat)
  : option (nat * bytes) :=
  match secs with
  | [] => None
  | s :: tl =>
      match IsOffloadSection s with
      | Some Triple => Some (idx, Triple)
      | None => next_offload_section tl (S idx)
      end
  end.

Section Ops.
Context {C : Collaborators}.

Definition ReadHeader (H : t) (Input : bytes) : outcome t := Ok H.

Definition ReadBundleStart (H : t) (Input : bytes)
  : outcome (option bytes * t) :=
  match next_offload_section (skipn (NextSection H) (Obj H)) (NextSection H) with
  | Some (i, Triple) => Ok (Some Triple, with_sections H i (S i))
  | None =>
      let Cur := if (NextSection H <? length (Obj H))%nat
                 then (length (Obj H) - 1)%nat else CurrentSection H in
      Ok (None, with_sections H Cur (Nat.max (NextSection H) (length (Obj H))))
  end.

Definition ReadBundleEnd (H : t) (Input : bytes) : outcome t := Ok H.

Definition ReadBundle (H : t) (Input : bytes) : outcome (bytes * t) :=
  match nth_error (Obj H) (CurrentSection H) with
  | None => Undef
  | Some (_, Content) =>
      (* Copy fat object contents to the output when extracting host bundle. *)
      let Content :=
        match Content with
        | [c] => if Ascii.eqb c NUL then Input else Content
        | _ => Content
        end in
      Ok (Content, H)
  end.

Definition WriteHeader (H : t) (OS : raw_fd_ostream) (Inputs : list bytes)
  : outcome (raw_fd_ostream * t) :=
  _ <- assert (negb (HostInputIndex (BundlerConfig H) =? NoHostIndex))
              "Host input index not defined.";;
  (* Record number of inputs. *)
  Ok (OS, with_counts H (length Inputs) (NumberOfProcessedInputs H)).

Definition WriteBundleStart (H : t) (OS : raw_fd_ostream) (TargetTriple : bytes)
  : outcome (raw_fd_ostream * t) :=
  Ok (OS, with_counts H (NumberOfInputs H) (S (NumberOfProcessedInputs H))).

Definition executeObjcopy (H : t) (Objcopy : bytes) (Args : list bytes)
  : outcome unit :=
  if PrintExternalCommands (BundlerConfig H) then Ok tt
  else if negb (ExecuteAndWait Objcopy Args =? 0)
  then Err (StringError (B "'llvm-objcopy' tool failed"))
  else Ok tt.

(** [for (unsigned I = 0; I < NumberOfInputs; ++I)]: [n] inputs are left. *)
Fixpoint ObjcopyArgs_loop (n I : nat) (BC : OffloadBundlerConfig)
  (ObjcopyArgs : list bytes) : outcome (list bytes) :=
  match n with
  | O => Ok ObjcopyArgs
  | S n' =>
      match nth_error (InputFileNames BC) I, nth_error (TargetNames BC) I with
      | Some InputFile, Some Target =>
          InputFile <-
            (if Z.of_nat I =? HostInputIndex BC then
               (* dummy contents (one zero byte) for the host bundle *)
               match createTemporaryFile with
               | None => Err (FileError [])
               | Some File =>
                   if can_create File then Ok File else Err (FileError File)
               end
             else Ok InputFile);;
          ObjcopyArgs_loop n' (S I) BC
            (ObjcopyArgs ++
             [B "--add-section=" ++ OFFLOAD_BUNDLER_MAGIC_STR ++ Target
                ++ B "=" ++ InputFile;
              B "--set-section-flags=" ++ OFFLOAD_BUNDLER_MAGIC_STR ++ Target
                ++ B "=readonly,exclude"])
      | _, _ => Undef
      end
  end.

(** The output file is closed and left to [llvm-objcopy]; what the tool
    writes there is outside the model. *)
Definition WriteBundleEnd (H : t) (OS : raw_fd_ostream) (TargetTriple : bytes)
  : outcome (raw_fd_ostream * t) :=
  let BC := BundlerConfig H in
  _ <- assert (NumberOfProcessedInputs H <=? NumberOfInputs H)%nat
              "Processing more inputs that actually exist!";;
  _ <- assert (negb (HostInputIndex BC =? NoHostIndex))
              "Host input index not defined.";;
  (* If this is not the last output, we don't have to do anything. *)
  if negb (NumberOfProcessedInputs H =? NumberOfInputs H)%nat then Ok (OS, H)
  else
  _ <- assert (negb (bytes_eqb (ObjcopyPath BC) []))
              "llvm-objcopy path not specified";;
  ObjcopyArgs <- ObjcopyArgs_loop (NumberOfInputs H) 0 BC [B "llvm-objcopy"];;
  match nth_error (InputFileNames BC) (Z.to_nat (HostInputIndex BC)),
        OutputFileNames BC with
  | Some HostInput, Output :: _ =>
      let ObjcopyArgs := ObjcopyArgs ++ [B "--"; HostInput; Output] in
      _ <- executeObjcopy H (ObjcopyPath BC) ObjcopyArgs;;
      Ok (OS, H)
  | _, _ => Undef
  end.

Definition WriteBundle (H : t) (OS : raw_fd_ostream) (Input : bytes)
  : outcome (raw_fd_ostream * t) :=
  Ok (OS, H).

End Ops.
End ObjectFileHandler.

(** ** The generic file handler interface *)

(** The three implementations of [class FileHandler]; a call through the
    interface dispatches on the constructor. *)
Inductive FileHandler : Type :=
| Binary (h : BinaryFileHandler.t)
| Object (h : ObjectFileHandler.t)
| Text (h : TextFileHandler.t).

Definition lift {A H : Type} (inj : H -> FileHandler) (m : outcome (A * H))
  : outcome (A * FileHandler) :=
  '(a, h) <- m;; Ok (a, inj h).

Definition lift1 {H : Type} (inj : H -> FileHandler) (m : outcome H)
  : outcome FileHandler :=
  h <- m;; Ok (inj h).

(** Output files.  The operations that write several files thread the list
    of the files written so far, each with what was written to it, in the
    order they were opened; the list also comes with an outcome that is not
    [Ok].  [E] is what is recorded of one file. *)
Definition Eff (E A : Type) : Type := list E -> list E * outcome A.

Definition io_ret {E A : Type} (a : A) : Eff E A := fun w => (w, Ok a).

Definition io_lift {E A : Type} (m : outcome A) : Eff E A := fun w => (w, m).

Definition io_bind {E A R : Type} (m : Eff E A) (k : A -> Eff E R) : Eff E R :=
  fun w =>
    match m w with
    | (w', Ok a) => k a w'
    | (w', Err e) => (w', Err e)
    | (w', AssertFail msg) => (w', AssertFail msg)
    | (w', Undef) => (w', Undef)
    | (w', OutOfFuel) => (w', OutOfFuel)
    end.

Notation "x <~ m ;; k" := (io_bind m (fun x => k))
  (at level 61, m at next level, right associativity).
Notation "' p <~ m ;; k" := (io_bind m (fun x => let p := x in k))
  (at level 61, p pattern, m at next level, right associativity).

(** A file with the bytes written to it before it is closed. *)
Definition Written : Type := list (bytes * bytes).
Definition IO (A : Type) : Type := Eff (bytes * bytes) A.

Definition io_write (path contents : bytes) : IO unit :=
  fun w => (w ++ [(path, contents)], Ok tt).

Section Interface.
Context {C : Collaborators}.

(** [raw_fd_ostream OutputFile(path, EC, sys::fs::OF_None); if (EC) return
    createFileError(path, EC);] *)
Definition io_open (path : bytes) : IO unit :=
  fun w => if can_create path then (w, Ok tt) else (w, Err (FileError path)).

Definition ReadHeader (FH : FileHandler) (Input : bytes) : outcome FileHandler :=
  match FH with
  | Binary h => lift1 Binary (BinaryFileHandler.ReadHeader h Input)
  | Object h => lift1 Object (ObjectFileHandler.ReadHeader h Input)
  | Text h => lift1 Text (TextFileHandler.ReadHeader h Input)
  end.

Definition ReadBundleStart (FH : FileHandler) (Input : bytes)
  : outcome (option bytes * FileHandler) :=
  match FH with
  | Binary h => lift Binary (BinaryFileHandler.ReadBundleStart h Input)
  | Object h => lift Object (ObjectFileHandler.ReadBundleStart h Input)
  | Text h => lift Text (TextFileHandler.ReadBundleStart h Input)
  end.

Definition ReadBundleEnd (FH : FileHandler) (Input : bytes)
  : outcome FileHandler :=
  match FH with
  | Binary h => lift1 Binary (BinaryFileHandler.ReadBundleEnd h Input)
  | Object h => lift1 Object (ObjectFileHandler.ReadBundleEnd h Input)
  | Text h => lift1 Text (TextFileHandler.ReadBundleEnd h Input)
  end.

Definition ReadBundle (FH : FileHandler) (Input : bytes)
  : outcome (bytes * FileHandler) :=
  match FH with
  | Binary h => lift Binary (BinaryFileHandler.ReadBundle h Input)
  | Object h => lift Object (ObjectFileHandler.ReadBundle h Input)
  | Text h => lift Text (TextFileHandler.ReadBundle h Input)
  end.

Definition WriteHeader (FH : FileHandler) (OS : raw_fd_ostream)
  (Inputs : list bytes) : outcome (raw_fd_ostream * FileHandler) :=
  match FH with
  | Binary h => lift Binary (BinaryFileHandler.WriteHeader h OS Inputs)
  | Object h => lift Object (ObjectFileHandler.WriteHeader h OS Inputs)
  | Text h => lift Text (TextFileHandler.WriteHeader h OS Inputs)
  end.

Definition WriteBundleStart (FH : FileHandler) (OS : raw_fd_ostream)
  (TargetTriple : bytes) : outcome (raw_fd_ostream * FileHandler) :=
  match FH with
  | Binary h => lift Binary (BinaryFileHandler.WriteBundleStart h OS TargetTriple)
  | Object h => lift Object (ObjectFileHandler.WriteBundleStart h OS TargetTriple)
  | Text h => lift Text (TextFileHandler.WriteBundleStart h OS TargetTriple)
  end.

Definition WriteBundleEnd (FH : FileHandler) (OS : raw_fd_ostream)
  (TargetTriple : bytes) : outcome (raw_fd_ostream * FileHandler) :=
  match FH with
  | Binary h => lift Binary (BinaryFileHandler.WriteBundleEnd h OS TargetTriple)
  | Object h => lift Object (ObjectFileHandler.WriteBundleEnd h OS TargetTriple)
  | Text h => lift Text (TextFileHandler.WriteBundleEnd h OS TargetTriple)
  end.

Definition WriteBundle (FH : FileHandler) (OS : raw_fd_ostream)
  (Input : bytes) : outcome (raw_fd_ostream * FileHandler) :=
  match FH with
  | Binary h => lift Binary (BinaryFileHandler.WriteBundle h OS Input)
  | Object h => lift Object (ObjectFileHandler.WriteBundle h OS Input)
  | Text h => lift Text (TextFileHandler.WriteBundle h OS Input)
  end.

(** The base class does nothing; only the text handler overrides it. *)
Definition listBundleIDsCallback (FH : FileHandler) (Input : bytes)
  (BundleID : bytes) : outcome FileHandler :=
  match FH with
  | Text h => lift1 Text (TextFileHandler.listBundleIDsCallback h Input)
  | _ => Ok FH
  end.

(** For each bundle in [Input], do [Func].  [Func] may use the handler and
    carries a state of its own, [S]. *)
Fixpoint forEachBundle {S : Type} (fuel : nat) (FH : FileHandler)
  (Input : bytes)
  (Func : bytes -> FileHandler -> S -> outcome (FileHandler * S)) (s : S)
  : outcome (FileHandler * S) :=
  match fuel with
  | O => OutOfFuel
  | Datatypes.S fuel' =>
      '(CurTripleOrErr, FH) <- ReadBundleStart FH Input;;
      match CurTripleOrErr with
      | None => (* No more bundles. *) Ok (FH, s)
      | Some CurTriple =>
          _ <- assert (negb (bytes_eqb CurTriple [])) "!CurTriple.empty()";;
          '(FH, s) <- Func CurTriple FH s;;
          forEachBundle fuel' FH Input Func s
      end
  end.

(** A bound on the number of bundles a handler can find in [Input]: a
    section each in an object file, at least one byte each in the other
    containers.  The [while (true)] loops over the bundles run on one more
    unit of fuel than this. *)
Definition bundle_bound (FH : FileHandler) (Input : bytes) : nat :=
  match FH with
  | Object h => length (ObjectFileHandler.Obj h)
  | _ => length Input
  end.

(** The function that [listBundleIDs] does for each bundle: print the
    identifier and a newline to [llvm::outs()], then call the callback. *)
Definition listBundleIDs_Func (Input BundleID : bytes) (FH : FileHandler)
  (outs : bytes) : outcome (FileHandler * bytes) :=
  let outs := outs ++ BundleID ++ NL in
  FH <- listBundleIDsCallback FH Input BundleID;;
  Ok (FH, outs).

(** List bundle IDs in [Input]: what is printed to [llvm::outs()]. *)
Definition listBundleIDs (FH : FileHandler) (Input : bytes) : outcome bytes :=
  FH <- ReadHeader FH Input;;
  '(_, outs) <-
    forEachBundle (S (bundle_bound FH Input)) FH Input
                  (listBundleIDs_Func Input) [];;
  Ok outs.

(** Return an appropriate object file handler. *)
Definition CreateObjectFileHandler (FirstInput : bytes)
  (BundlerConfig : OffloadBundlerConfig) : FileHandler :=
  match createBinary FirstInput with
  | None => Binary (BinaryFileHandler.new BundlerConfig)
  | Some Obj => Object (ObjectFileHandler.new Obj BundlerConfig)
  end.

(** Return an appropriate handler given the input files and options.
    ([ENABLE_CLASSIC_FLANG] is taken as not defined.) *)
Definition CreateFileHandler (FirstInput : bytes)
  (BundlerConfig : OffloadBundlerConfig) : outcome FileHandler :=
  let FilesType := FilesType BundlerConfig in
  if bytes_eqb FilesType (B "i") then Ok (Text (TextFileHandler.new (B "//")))
  else if bytes_eqb FilesType (B "ii") then Ok (Text (TextFileHandler.new (B "//")))
  else if bytes_eqb FilesType (B "cui") then Ok (Text (TextFileHandler.new (B "//")))
  else if bytes_eqb FilesType (B "hipi") then Ok (Text (TextFileHandler.new (B "//")))
  else if bytes_eqb FilesType (B "d") then Ok (Text (TextFileHandler.new (B "#")))
  else if bytes_eqb FilesType (B "ll") then Ok (Text (TextFileHandler.new (B ";")))
  else if bytes_eqb FilesType (B "bc") then Ok (Binary (BinaryFileHandler.new BundlerConfig))
  else if bytes_eqb FilesType (B "s") then Ok (Text (TextFileHandler.new (B "#")))
  else if bytes_eqb FilesType (B "o") then Ok (CreateObjectFileHandler FirstInput BundlerConfig)
  else if bytes_eqb FilesType (B "a") then Ok (CreateObjectFileHandler FirstInput BundlerConfig)
  else if bytes_eqb FilesType (B "gch") then Ok (Binary (BinaryFileHandler.new BundlerConfig))
  else if bytes_eqb FilesType (B "ast") then Ok (Binary (BinaryFileHandler.new BundlerConfig))
  else Err (StringError (B "'" ++ FilesType ++ B "': invalid file type specified")).

(** For each target with its input: the start marker, the bundle, the end
    marker ([for (auto &Triple : BundlerConfig.TargetNames)] in
    [BundleFiles], with [Input] advanced in step). *)
Fixpoint BundleFiles_loop (Targets Inputs : list bytes) (FH : FileHandler)
  (OutputFile : raw_fd_ostream) : outcome (raw_fd_ostream * FileHandler) :=
  match Targets with
  | [] => Ok (OutputFile, FH)
  | Triple :: Targets' =>
      match Inputs with
      | [] => Undef
      | Input :: Inputs' =>
          '(OutputFile, FH) <- WriteBundleStart FH OutputFile Triple;;
          '(OutputFile, FH) <- WriteBundle FH OutputFile Input;;
          '(OutputFile, FH) <- WriteBundleEnd FH OutputFile Triple;;
          BundleFiles_loop Targets' Inputs' FH OutputFile
      end
  end.

(** Open input files: the buffers, or the first name that cannot be read. *)
Fixpoint open_inputs (Names : list bytes) : outcome (list bytes) :=
  match Names with
  | [] => Ok []
  | Name :: Names' =>
      match getFileOrSTDIN Name with
      | None => Err (FileError Name)
      | Some Code => Buffers <- open_inputs Names';; Ok (Code :: Buffers)
      end
  end.

(** Bundle the files: the bytes written to the output file. *)
Definition BundleFiles (BundlerConfig : OffloadBundlerConfig) : outcome bytes :=
  (* Create output file. *)
  match OutputFileNames BundlerConfig with
  | [] => Undef
  | Output :: _ =>
      if negb (can_create Output) then Err (FileError Output) else
      let OutputFile := os_new in
      (* Open input files. *)
      InputBuffers <- open_inputs (InputFileNames BundlerConfig);;
      (* Get the file handler. We use the host buffer as reference. *)
      _ <- assert (negb (HostInputIndex BundlerConfig =? NoHostIndex)
                   || AllowNoHost BundlerConfig)
                  "Host input index undefined??";;
      match nth_error InputBuffers
              (if AllowNoHost BundlerConfig then 0%nat
               else Z.to_nat (HostInputIndex BundlerConfig)) with
      | None => Undef
      | Some FirstInput =>
          FH <- CreateFileHandler FirstInput BundlerConfig;;
          (* Write header. *)
          '(OutputFile, FH) <- WriteHeader FH OutputFile InputBuffers;;
          (* Write all bundles along with the start/end markers. *)
          '(OutputFile, _) <-
            BundleFiles_loop (TargetNames BundlerConfig) InputBuffers FH
                             OutputFile;;
          Ok (os_data OutputFile)
      end
  end.

(** List bundle IDs. *)
Definition ListBundleIDsInFile (InputFileName : bytes)
  (BundlerConfig : OffloadBundlerConfig) : outcome bytes :=
  (* Open Input file. *)
  match getFileOrSTDIN InputFileName with
  | None => Err (FileError InputFileName)
  | Some Input =>
      (* Select the right files handler. *)
      FH <- CreateFileHandler Input BundlerConfig;;
      listBundleIDs FH Input
  end.

(** *** Unbundling *)

(** [std::set<StringRef>::insert]. *)
Fixpoint set_insert (x : bytes) (l : list bytes) : list bytes :=
  match l with
  | [] => [x]
  | y :: tl =>
      if bytes_ltb x y then x :: l
      else if bytes_ltb y x then y :: set_insert x tl
      else l
  end.

(** [for (auto &E : Sorted)] composing the message of the missing bundles. *)
Fixpoint missing_bundles_msg (Sorted : list bytes) (I Last : Z) (ErrMsg : bytes)
  : bytes :=
  match Sorted with
  | [] => ErrMsg
  | E :: Sorted' =>
      let ErrMsg :=
        if negb (I =? 0) && (1 <? Last) then ErrMsg ++ B "," else ErrMsg in
      let ErrMsg := ErrMsg ++ B " " in
      let ErrMsg :=
        if (I =? Last) && negb (I =? 0) then ErrMsg ++ B "and " else ErrMsg in
      missing_bundles_msg Sorted' (I + 1) Last (ErrMsg ++ E)
  end.

Definition CantFindBundles (Worklist : list (bytes * bytes)) : Error :=
  let Sorted := fold_left (fun acc E => set_insert (fst E) acc) Worklist [] in
  let Last := (Z.of_nat (length Sorted) - 1) mod 2 ^ 32 in
  StringError (missing_bundles_msg Sorted 0 Last (B "Can't find bundles for")).

(** Create a work list that consist of the map triple/output file
    ([Worklist[Triple] = *Output; ++Output]). *)
Fixpoint Worklist_init (Targets Outputs : list bytes) (W : StringMap bytes)
  : outcome (StringMap bytes) :=
  match Targets with
  | [] => Ok W
  | Triple :: Targets' =>
      match Outputs with
      | [] => Undef
      | Output :: Outputs' => Worklist_init Targets' Outputs' (sm_set W Triple Output)
      end
  end.

(** [Worklist.erase(Output)], on the entries in iteration order. *)
Fixpoint Worklist_erase (W : list (bytes * bytes)) (k : bytes)
  : list (bytes * bytes) :=
  match W with
  | [] => []
  | E :: W' => if bytes_eqb (fst E) k then W' else E :: Worklist_erase W' k
  end.

(** The first entry of the work list that the bundle is compatible with. *)
Definition find_compatible (BC : OffloadBundlerConfig) (CurTriple : bytes)
  (W : list (bytes * bytes)) : option (bytes * bytes) :=
  List.find (fun E => isCodeObjectCompatible (mkOffloadTargetInfo CurTriple BC)
                                             (mkOffloadTargetInfo (fst E) BC)) W.

(** [while (!Worklist.empty())]: read all the bundles that are in the work
    list.  It ends with what is left of the work list and with
    [FoundHostBundle]. *)
Fixpoint Unbundle_loop (fuel : nat) (BC : OffloadBundlerConfig) (Input : bytes)
  (FH : FileHandler) (Worklist : list (bytes * bytes)) (FoundHostBundle : bool)
  : IO (list (bytes * bytes) * bool) :=
  match Worklist with
  | [] => io_ret (Worklist, FoundHostBundle)
  | _ :: _ =>
  match fuel with
  | O => io_lift OutOfFuel
  | S fuel' =>
      '(CurTripleOrErr, FH) <~ io_lift (ReadBundleStart FH Input);;
      match CurTripleOrErr with
      | None => (* We don't have more bundles. *)
          io_ret (Worklist, FoundHostBundle)
      | Some CurTriple =>
          _ <~ io_lift (assert (negb (bytes_eqb CurTriple []))
                               "!CurTriple.empty()");;
          match find_compatible BC CurTriple Worklist with
          | None => Unbundle_loop fuel' BC Input FH Worklist FoundHostBundle
          | Some Output =>
              (* Check if the output file can be opened and copy the bundle
                 to it. *)
              _ <~ io_open (snd Output);;
              '(Bundle, FH) <~ io_lift (ReadBundle FH Input);;
              _ <~ io_write (snd Output) Bundle;;
              FH <~ io_lift (ReadBundleEnd FH Input);;
              let Worklist := Worklist_erase Worklist (fst Output) in
              (* Record if we found the host bundle. *)
              let FoundHostBundle :=
                if hasHostKind (mkOffloadTargetInfo CurTriple BC)
                then true else FoundHostBundle in
              Unbundle_loop fuel' BC Input FH Worklist FoundHostBundle
          end
      end
  end
  end.

(** [for (auto &E : Worklist)] of the "no bundles were found" case: an empty
    file for each entry, the input copied to it when the entry has a host
    kind. *)
Fixpoint write_host_or_empty (BC : OffloadBundlerConfig) (Input : bytes)
  (Worklist : list (bytes * bytes)) : IO unit :=
  match Worklist with
  | [] => io_ret tt
  | E :: Worklist' =>
      _ <~ io_open (snd E);;
      (* If this entry has a host kind, copy the input file to the output
         file. *)
      _ <~ io_write (snd E)
             (if hasHostKind (mkOffloadTargetInfo (fst E) BC) then Input else []);;
      write_host_or_empty BC Input Worklist'
  end.

(** [for (auto &E : Worklist)] at the end: an empty file for each entry. *)
Fixpoint write_empty (Worklist : list (bytes * bytes)) : IO unit :=
  match Worklist with
  | [] => io_ret tt
  | E :: Worklist' =>
      _ <~ io_open (snd E);;
      _ <~ io_write (snd E) [];;
      write_empty Worklist'
  end.

Definition UnbundleFiles_io (BundlerConfig : OffloadBundlerConfig) : IO unit :=
  (* Open Input file. *)
  match InputFileNames BundlerConfig with
  | [] => io_lift Undef
  | InputFileName :: _ =>
  match getFileOrSTDIN InputFileName with
  | None => io_lift (Err (FileError InputFileName))
  | Some Input =>
      (* Select the right files handler. *)
      FH <~ io_lift (CreateFileHandler Input BundlerConfig);;
      (* Read the header of the bundled file. *)
      FH <~ io_lift (ReadHeader FH Input);;
      (* Create a work list that consist of the map triple/output file. *)
      W <~ io_lift (Worklist_init (TargetNames BundlerConfig)
                                  (OutputFileNames BundlerConfig) []);;
      let Worklist := sm_entries W in
      (* Read all the bundles that are in the work list. If we find no
         bundles we assume the file is meant for the host target. *)
      '(Worklist, FoundHostBundle) <~
        Unbundle_loop (S (bundle_bound FH Input)) BundlerConfig Input FH
                      Worklist false;;
      if negb (AllowMissingBundles BundlerConfig)
         && negb (Nat.eqb (length Worklist) 0)
      then io_lift (Err (CantFindBundles Worklist))
      (* If no bundles were found, assume the input file is the host bundle
         and create empty files for the remaining targets. *)
      else if Nat.eqb (length Worklist) (length (TargetNames BundlerConfig))
      then write_host_or_empty BundlerConfig Input Worklist
      (* If we found elements, we emit an error if none of those were for the
         host in case host bundle name was provided in command line. *)
      else if negb (FoundHostBundle
                    || (HostInputIndex BundlerConfig =? NoHostIndex)
                    || AllowMissingBundles BundlerConfig)
      then io_lift (Err (StringError (B "Can't find bundle for the host target")))
      (* If we still have any elements in the worklist, create empty files
         for them. *)
      else write_empty Worklist
  end
  end.

(** Unbundle the files: the files written, in the order they were opened and
    each with its contents, and how the operation ends. *)
Definition UnbundleFiles (BundlerConfig : OffloadBundlerConfig)
  : Written * outcome unit :=
  UnbundleFiles_io BundlerConfig [].

(** *** Unbundling an archive *)

(** Computes a list of targets among all given targets which are compatible
    with this code object. *)
Definition getCompatibleOffloadTargets (CodeObjectInfo : OffloadTargetInfo)
  (CompatibleTargets : list bytes) (BundlerConfig : OffloadBundlerConfig)
  : bool * list bytes :=
  match CompatibleTargets with
  | _ :: _ => (false, CompatibleTargets)
  | [] =>
      let CompatibleTargets :=
        filter (fun Target =>
                  isCodeObjectCompatible CodeObjectInfo
                    (mkOffloadTargetInfo Target BundlerConfig))
               (TargetNames BundlerConfig) in
      (negb (Nat.eqb (length CompatibleTargets) 0), CompatibleTargets)
  end.

(** [std::replace(Name.begin(), Name.end(), ':', '_')]. *)
Definition replace_colons (Name : bytes) : bytes :=
  map (fun c => if Ascii.eqb c colon then "_"%char else c) Name.

(** Map of target names with list of object files that will form the device
    specific archive for that target. *)
Definition ArchivesMap : Type := StringMap (list ArchiveMember).

(** [for (auto &CompatibleTarget : CompatibleTargets)]: the member is added
    to the list of each compatible target. *)
Fixpoint add_members (CompatibleTargets : list bytes) (Member : ArchiveMember)
  (OutputArchivesMap : ArchivesMap) : ArchivesMap :=
  match CompatibleTargets with
  | [] => OutputArchivesMap
  | CompatibleTarget :: rest =>
      let Map' :=
        match sm_lookup OutputArchivesMap CompatibleTarget with
        | None => sm_set OutputArchivesMap CompatibleTarget [Member]
        | Some ArchiveMembers =>
            sm_set OutputArchivesMap CompatibleTarget (ArchiveMembers ++ [Member])
        end in
      add_members rest Member Map'
  end.

(** [while (!CodeObject.empty())]: process all bundle entries found in one
    child of the input archive. *)
Fixpoint UnbundleArchive_entries (fuel : nat) (BC : OffloadBundlerConfig)
  (BundledObjectFile CodeObjectBuffer : bytes) (FH : FileHandler)
  (CodeObject : bytes) (OutputArchivesMap : ArchivesMap) : outcome ArchivesMap :=
  if bytes_eqb CodeObject [] then Ok OutputArchivesMap else
  match fuel with
  | O => OutOfFuel
  | S fuel' =>
      let CodeObjectInfo := mkOffloadTargetInfo CodeObject BC in
      '(OutputArchivesMap, FH) <-
        (if hasHostKind CodeObjectInfo then
           (* Do nothing, we don't extract host code yet. *)
           Ok (OutputArchivesMap, FH)
         else
           let '(found, CompatibleTargets) :=
             getCompatibleOffloadTargets CodeObjectInfo [] BC in
           if found then
             '(BundleData, FH) <- ReadBundle FH CodeObjectBuffer;;
             let OutputBundleName :=
               replace_colons
                 (path_stem BundledObjectFile ++ B "-" ++ CodeObject ++
                  getDeviceLibraryFileName BundledObjectFile
                                           (TargetID CodeObjectInfo)) in
             Ok (add_members CompatibleTargets (OutputBundleName, BundleData)
                             OutputArchivesMap, FH)
           else Ok (OutputArchivesMap, FH));;
      FH <- ReadBundleEnd FH CodeObjectBuffer;;
      '(NextTripleOrErr, FH) <- ReadBundleStart FH CodeObjectBuffer;;
      let CodeObject :=
        match NextTripleOrErr with Some T => T | None => [] end in
      UnbundleArchive_entries fuel' BC BundledObjectFile CodeObjectBuffer FH
                              CodeObject OutputArchivesMap
  end.

(** Iterate over all bundled code object files in the input archive. *)
Fixpoint UnbundleArchive_children (BC : OffloadBundlerConfig)
  (Children : list ArchiveMember) (OutputArchivesMap : ArchivesMap)
  : outcome ArchivesMap :=
  match Children with
  | [] => Ok OutputArchivesMap
  | (ArchiveChildName, CodeObjectBuffer) :: Children' =>
      let BundledObjectFile := path_filename ArchiveChildName in
      FH <- CreateFileHandler CodeObjectBuffer BC;;
      FH <- ReadHeader FH CodeObjectBuffer;;
      '(CurBundleIDOrErr, FH) <- ReadBundleStart FH CodeObjectBuffer;;
      match CurBundleIDOrErr with
      | None => (* No device code in this child, skip. *)
          UnbundleArchive_children BC Children' OutputArchivesMap
      | Some CodeObject =>
          OutputArchivesMap <-
            UnbundleArchive_entries (S (bundle_bound FH CodeObjectBuffer)) BC
              BundledObjectFile CodeObjectBuffer FH CodeObject
              OutputArchivesMap;;
          UnbundleArchive_children BC Children' OutputArchivesMap
      end
  end.

(** An archive written to a path, with its members. *)
Definition ArchiveIO (A : Type) : Type := Eff (bytes * list ArchiveMember) A.

(** [writeArchive(FileName, Members, ...)]. *)
Definition io_writeArchive (FileName : bytes) (Members : list ArchiveMember)
  : ArchiveIO unit :=
  fun w =>
    if writeArchive_ok FileName then (w ++ [(FileName, Members)], Ok tt)
    else (w, Err LibraryError).

Definition NoCompatibleCodeObject (Target IFName : bytes) : Error :=
  StringError (B "no compatible code object found for the target '" ++ Target
               ++ B "' in heterogeneous archive library: " ++ IFName).

(** Write out an archive for each target. *)
Fixpoint writeArchives (BC : OffloadBundlerConfig) (IFName : bytes)
  (Targets : list bytes) (TargetOutputFileNameMap : StringMap bytes)
  (OutputArchivesMap : ArchivesMap) : ArchiveIO unit :=
  match Targets with
  | [] => io_ret tt
  | Target :: Targets' =>
      let FileName :=
        match sm_lookup TargetOutputFileNameMap Target with
        | Some Name => Name
        | None => []
        end in
      match sm_lookup OutputArchivesMap Target with
      | Some CurArchiveMembers =>
          _ <~ io_writeArchive FileName CurArchiveMembers;;
          writeArchives BC IFName Targets' TargetOutputFileNameMap
                        OutputArchivesMap
      | None =>
          if negb (AllowMissingBundles BC) then
            io_lift (Err (NoCompatibleCodeObject Target IFName))
          else
            (* Create an empty archive file if no compatible code object is
               found and "allow-missing-bundles" is enabled. *)
            _ <~ io_writeArchive FileName [];;
            writeArchives BC IFName Targets' TargetOutputFileNameMap
                          OutputArchivesMap
      end
  end.

Definition UnbundleArchive_io (BundlerConfig : OffloadBundlerConfig)
  : ArchiveIO unit :=
  (* Map of target names and output archive filenames *)
  TargetOutputFileNameMap <~
    io_lift (Worklist_init (TargetNames BundlerConfig)
                           (OutputFileNames BundlerConfig) []);;
  match InputFileNames BundlerConfig with
  | [] => io_lift Undef
  | IFName :: _ =>
      match getFileOrSTDIN IFName with
      | None => io_lift (Err (FileError IFName))
      | Some Buf =>
          match Archive_children Buf with
          | None => io_lift (Err LibraryError)
          | Some Children =>
              OutputArchivesMap <~
                io_lift (UnbundleArchive_children BundlerConfig Children []);;
              writeArchives BundlerConfig IFName (TargetNames BundlerConfig)
                            TargetOutputFileNameMap OutputArchivesMap
          end
      end
  end.

(** Unbundle the archive: the archives written, each with its members, and
    how the operation ends. *)
Definition UnbundleArchive (BundlerConfig : OffloadBundlerConfig)
  : list (bytes * list ArchiveMember) * outcome unit :=
  UnbundleArchive_io BundlerConfig [].

End Interface.

(** ** A concrete set of collaborators *)

Module Sample.

(** A few names of the CUDA architecture table. *)
Definition arch_names : list bytes :=
  [B "sm_70"; B "sm_80"; B "gfx906"; B "gfx908"; B "gfx90a"].

(** Look a file up by name. *)
Fixpoint lookup (fs : list (bytes * bytes)) (name : bytes) : option bytes :=
  match fs with
  | [] => None
  | (n, data) :: fs' => if bytes_eqb n name then Some data else lookup fs' name
  end.

(** Collaborators over the files [fs]: identical triples are compatible,
    identical target IDs are compatible, a [StringMap] is iterated in the
    order of insertion, no buffer is an object file or an archive, every
    output can be created and every tool run succeeds. *)
Definition env (fs : list (bytes * bytes)) : Collaborators :=
  {| StringToCudaArch_known := fun S => existsb (bytes_eqb S) arch_names;
     Triple_isCompatibleWith := bytes_eqb;
     isCompatibleTargetID := bytes_eqb;
     StringMap_order := fun keys => keys;
     createBinary := fun _ => None;
     can_create := fun _ => true;
     getFileOrSTDIN := lookup fs;
     createTemporaryFile := Some (B "/tmp/clang-offload-bundler.tmp");
     ExecuteAndWait := fun _ _ => 0;
     Archive_children := fun _ => None;
     writeArchive_ok := fun _ => true;
     path_filename := fun p => p;
     path_stem := fun p => fst (rsplit "."%char p);
     path_extension := fun p => if contains_char "."%char p
                                then "."%char :: snd (rsplit "."%char p) else [] |}.

(** A configuration with the defaults of [OffloadBundlerConfig]. *)
Definition config (FilesType : bytes) (Targets Inputs Outputs : list bytes)
  : OffloadBundlerConfig :=
  {| AllowNoHost := false; AllowMissingBundles := false;
     PrintExternalCommands := false; HipOpenmpCompatible := false;
     BundleAlignment := 1; HostInputIndex := 0;
     FilesType := FilesType; ObjcopyPath := [];
     TargetNames := Targets; InputFileNames := Inputs;
     OutputFileNames := Outputs |}.

(** The same configuration with [AllowMissingBundles] set. *)
Definition allowing_missing_bundles (BC : OffloadBundlerConfig)
  : OffloadBundlerConfig :=
  {| AllowNoHost := AllowNoHost BC; AllowMissingBundles := true;
     PrintExternalCommands := PrintExternalCommands BC;
     HipOpenmpCompatible := HipOpenmpCompatible BC;
     BundleAlignment := BundleAlignment BC;
     HostInputIndex := HostInputIndex BC;
     FilesType := FilesType BC; ObjcopyPath := ObjcopyPath BC;
     TargetNames := TargetNames BC; InputFileNames := InputFileNames BC;
     OutputFileNames := OutputFileNames BC |}.



(** Unbundling the plain text file [plain.ll], "hello", for a host and a GPU
    target. *)
Definition plain_env : Collaborators := env [(B "plain.ll", B "hello")].

Definition plain_config : OffloadBundlerConfig :=
  config (B "ll")
         [B "host-x86_64-unknown-linux-gnu"; B "hip-amdgcn-amd-amdhsa--gfx906"]
         [B "plain.ll"] [B "host.ll"; B "gfx906.ll"].

(** The same collaborators, except that every buffer is an archive with the
    given children. *)
Definition with_archive (E : Collaborators) (Children : list ArchiveMember)
  : Collaborators :=
  {| StringToCudaArch_known := @StringToCudaArch_known E;
     Triple_isCompatibleWith := @Triple_isCompatibleWith E;
     isCompatibleTargetID := @isCompatibleTargetID E;
     StringMap_order := @StringMap_order E;
     createBinary := @createBinary E;
     can_create := @can_create E;
     getFileOrSTDIN := @getFileOrSTDIN E;
     createTemporaryFile := @createTemporaryFile E;
     ExecuteAndWait := @ExecuteAndWait E;
     Archive_children := fun _ => Some Children;
     writeArchive_ok := @writeArchive_ok E;
     path_filename := @path_filename E;
     path_stem := @path_stem E;
     path_extension := @path_extension E |}.

(** The value of an outcome that is [Ok], the empty string otherwise. *)
Definition value (m : outcome bytes) : bytes :=
  match m with Ok v => v | _ => [] end.

(** A binary container ([.o] that is no object file) with one bundle,
    "code", for an NVPTX target. *)
Definition sm_70_bundle : bytes :=
  value (@BundleFiles (env [(B "dev.o", B "code")])
           (config (B "o") [B "openmp-nvptx64-nvidia-cuda--sm_70"]
                   [B "dev.o"] [B "foo.o"])).

(** An archive [lib.a] whose one member, [foo.o], is that container. *)
Definition archive_env : Collaborators :=
  with_archive (env [(B "lib.a", B "!<arch>")]) [(B "foo.o", sm_70_bundle)].

(** Unbundling [lib.a] for an AMD GPU target and the NVPTX target. *)
Definition archive_config (allow_missing_bundles : bool) : OffloadBundlerConfig :=
  {| AllowNoHost := false; AllowMissingBundles := allow_missing_bundles;
     PrintExternalCommands := false; HipOpenmpCompatible := false;
     BundleAlignment := 1; HostInputIndex := NoHostIndex;
     FilesType := B "a"; ObjcopyPath := [];
     TargetNames := [B "hip-amdgcn-amd-amdhsa--gfx906";
                     B "openmp-nvptx64-nvidia-cuda--sm_70"];
     InputFileNames := [B "lib.a"];
     OutputFileNames := [B "o1.a"; B "o2.a"] |}.

(** A host and a GPU target. *)
Definition targets : list bytes :=
  [B "host-x86_64-unknown-linux-gnu"; B "hip-amdgcn-amd-amdhsa--gfx906"].

(** Bundling the files [Names] of the given type for the two targets into
    [Stored]. *)
Definition bundling (FilesType : bytes) (Names : list bytes) (Stored : bytes)
  : OffloadBundlerConfig :=
  config FilesType targets Names [Stored].

(** Unbundling [Stored] for the two targets into [Outputs]. *)
Definition unbundling (FilesType Stored : bytes) (Outputs : list bytes)
  : OffloadBundlerConfig :=
  config FilesType targets [Stored] Outputs.

(** The files [fs] and, as [Stored], what bundling writes over them. *)
Definition stored_env (fs : list (bytes * bytes)) (FilesType Stored : bytes)
  : Collaborators :=
  env (fs ++ [(Stored,
               value (@BundleFiles (env fs)
                        (bundling FilesType (map fst fs) Stored)))]).

(** Two [.ll] inputs and their container [bundle.ll]. *)
Definition ll_env : Collaborators :=
  stored_env [(B "a.ll", B "define1" ++ NL); (B "b.ll", B "define2" ++ NL)]
             (B "ll") (B "bundle.ll").

(** Two [.bc] inputs and their container [bundle.bc]. *)
Definition bc_env : Collaborators :=
  stored_env [(B "a.bc", B "BC1"); (B "b.bc", B "BC22")]
             (B "bc") (B "bundle.bc").

(** A line that looks like the end marker of a bundle, and a line that looks
    like the start marker of a bundle for "fake". *)
Definition marker_lines : bytes :=
  NL ++ B "; __CLANG_OFFLOAD_BUNDLE____END__ x" ++ NL
  ++ NL ++ B "; __CLANG_OFFLOAD_BUNDLE____START__ fake" ++ NL.

(** Two [.ll] inputs, the first of which holds the marker lines after
    "abc", and their container [bundle.ll]. *)
Definition marked_env : Collaborators :=
  stored_env [(B "a.ll", B "abc" ++ marker_lines); (B "b.ll", B "define2" ++ NL)]
             (B "ll") (B "bundle.ll").

(** The same collaborators, except that every buffer is an object file with
    the given sections. *)
Definition with_object (E : Collaborators) (Obj : list Section_)
  : Collaborators :=
  {| StringToCudaArch_known := @StringToCudaArch_known E;
     Triple_isCompatibleWith := @Triple_isCompatibleWith E;
     isCompatibleTargetID := @isCompatibleTargetID E;
     StringMap_order := @StringMap_order E;
     createBinary := fun _ => Some Obj;
     can_create := @can_create E;
     getFileOrSTDIN := @getFileOrSTDIN E;
     createTemporaryFile := @createTemporaryFile E;
     ExecuteAndWait := @ExecuteAndWait E;
     Archive_children := @Archive_children E;
     writeArchive_ok := @writeArchive_ok E;
     path_filename := @path_filename E;
     path_stem := @path_stem E;
     path_extension := @path_extension E |}.

(** The sections of a fat object: the host code, the section of the host
    bundle (one zero byte) and the section of a device bundle. *)
Definition fat_sections : list Section_ :=
  [(B ".text", B "host code");
   (OFFLOAD_BUNDLER_MAGIC_STR ++ B "host-x86_64-unknown-linux-gnu", [NUL]);
   (OFFLOAD_BUNDLER_MAGIC_STR ++ B "hip-amdgcn-amd-amdhsa--gfx906",
    B "device code")].

(** The fat object [fat.o]. *)
Definition fat_env : Collaborators :=
  with_object (env [(B "fat.o", B "fat object")]) fat_sections.

(** Bundling the object files [host.o] and [dev.o] into [fat.o] with the
    tool at [/usr/bin/llvm-objcopy]. *)
Definition object_bundling : OffloadBundlerConfig :=
  {| AllowNoHost := false; AllowMissingBundles := false;
     PrintExternalCommands := false; HipOpenmpCompatible := false;
     BundleAlignment := 1; HostInputIndex := 0;
     FilesType := B "o"; ObjcopyPath := B "/usr/bin/llvm-objcopy";
     TargetNames := targets; InputFileNames := [B "host.o"; B "dev.o"];
     OutputFileNames := [B "fat.o"] |}.

(** The two object files. *)
Definition objects_env : Collaborators :=
  with_object (env [(B "host.o", B "host object"); (B "dev.o", B "device object")])
              [(B ".text", B "host code")].

(** A binary container with one bundle, "code", for an AMD GPU target with a
    target feature, and the archive [lib.a] whose one member, [foo.o], is
    that container. *)
Definition xnack_target : bytes := B "hip-amdgcn-amd-amdhsa--gfx906:xnack+".

Definition xnack_bundle : bytes :=
  value (@BundleFiles (env [(B "dev.o", B "code")])
           (config (B "o") [xnack_target] [B "dev.o"] [B "foo.o"])).

Definition xnack_env : Collaborators :=
  with_archive (env [(B "lib.a", B "!<arch>")]) [(B "foo.o", xnack_bundle)].

(** Unbundling [lib.a] for that target. *)
Definition xnack_config : OffloadBundlerConfig :=
  {| AllowNoHost := false; AllowMissingBundles := false;
     PrintExternalCommands := false; HipOpenmpCompatible := false;
     BundleAlignment := 1; HostInputIndex := NoHostIndex;
     FilesType := B "a"; ObjcopyPath := [];
     TargetNames := [xnack_target];
     InputFileNames := [B "lib.a"];
     OutputFileNames := [B "out.a"] |}.




End Sample.

(** * Vocabulary of the statements *)

(** The position of the next write is the end of the file. *)
Definition os_at_end (OS : raw_fd_ostream) : Prop :=
  os_pos OS = len (os_data OS).

(** One entry of a text container: the start marker line, the bundle, the
    end marker line. *)
Definition text_entry (H : TextFileHandler.t) (E : bytes * bytes) : bytes :=
  TextFileHandler.BundleStartString H ++ fst E ++ NL ++ snd E
  ++ TextFileHandler.BundleEndString H ++ fst E ++ NL.

(** A text container with the given (target, payload) entries. *)
Definition text_container (H : TextFileHandler.t) (Entries : list (bytes * bytes))
  : bytes :=
  flat_map (text_entry H) Entries.

(** The input that [BundleFiles] hands to [CreateFileHandler] exists among
    [n] inputs, and the assertion on the host index holds. *)
Definition valid_host_input (BC : OffloadBundlerConfig) (n : nat) : Prop :=
  if AllowNoHost BC then (0 < n)%nat
  else HostInputIndex BC <> NoHostIndex
       /\ (Z.to_nat (HostInputIndex BC) < n)%nat.

(** A binary header with one record whose triple length is [2^64 - 1]: the
    magic string, the number of bundles (1), the offset (1), the size (0)
    and the triple length, 56 bytes in all. *)
Definition header_with_huge_triple_size : bytes :=
  OFFLOAD_BUNDLER_MAGIC_STR ++ le_encode 8 1
  ++ le_encode 8 1 ++ le_encode 8 0 ++ le_encode 8 (2 ^ 64 - 1).

(** A binary container that announces two bundles: the record of "A"
    (offset 82, size 1), a record of "B" with offset 0, and the byte of the
    bundle of "A".  83 bytes in all. *)
Definition header_with_zero_offset_second : bytes :=
  OFFLOAD_BUNDLER_MAGIC_STR ++ le_encode 8 2
  ++ (le_encode 8 82 ++ le_encode 8 1 ++ le_encode 8 1 ++ B "A")
  ++ (le_encode 8 0 ++ le_encode 8 0 ++ le_encode 8 1 ++ B "B")
  ++ B "a".

(** A text container ([.ll]) whose only bundle has a start marker and no end
    marker. *)
Definition text_without_end_marker : bytes :=
  NL ++ B "; __CLANG_OFFLOAD_BUNDLE____START__ T" ++ NL ++ B "abc".

(** The archive that [UnbundleArchive] writes for a target: the output path
    paired with the target, and the members accumulated for it (none when
    the target has no entry). *)
Definition archive_of (TargetOutputFileNameMap : StringMap bytes)
  (OutputArchivesMap : ArchivesMap) (Target : bytes)
  : bytes * list ArchiveMember :=
  (match sm_lookup TargetOutputFileNameMap Target with
   | Some Name => Name
   | None => []
   end,
   match sm_lookup OutputArchivesMap Target with
   | Some Members => Members
   | None => []
   end).

(** What the "no bundles were found" case of [UnbundleFiles] writes for a
    target and its output: the input when the target has a host kind, an
    empty file when it has not. *)
Definition host_copy_or_empty {C : Collaborators} (BC : OffloadBundlerConfig)
  (Input : bytes) (E : bytes * bytes) : bytes * bytes :=
  (snd E, if hasHostKind (mkOffloadTargetInfo (fst E) BC) then Input else []).

(** *** The layout of a binary container *)

(** The least multiple of [Align] that is not below [Value]. *)
Definition round_up (Value Align : Z) : Z :=
  (Value + Align - 1) / Align * Align.

(** A bundle of a binary container: its target, its payload and the offset
    recorded for it in the header. *)
Record PlacedBundle : Type := {
  placed_target : bytes;
  placed_payload : bytes;
  placed_offset : Z
}.

(** The offsets [WriteHeader] gives to the (target, payload) entries, from
    the cursor on, when nothing overflows. *)
Fixpoint place (Align cursor : Z) (Entries : list (bytes * bytes))
  : list PlacedBundle :=
  match Entries with
  | [] => []
  | E :: rest =>
      let off := round_up cursor Align in
      {| placed_target := fst E; placed_payload := snd E; placed_offset := off |}
      :: place Align (off + len (snd E)) rest
  end.

(** Where the cursor ends up. *)
Fixpoint place_end (Align cursor : Z) (Entries : list (bytes * bytes)) : Z :=
  match Entries with
  | [] => cursor
  | E :: rest => place_end Align (round_up cursor Align + len (snd E)) rest
  end.

(** The size of the header: the magic string, the number of bundles, and for
    each target three integers and the target's name. *)
Definition header_size (Targets : list bytes) : Z :=
  fold_left (fun hs T => hs + 3 * 8 + len T) Targets
            (len OFFLOAD_BUNDLER_MAGIC_STR + 8).

(** One record of the header. *)
Definition encode_record (R : PlacedBundle) : bytes :=
  le_encode 8 (placed_offset R) ++ le_encode 8 (len (placed_payload R))
  ++ le_encode 8 (len (placed_target R)) ++ placed_target R.

(** The header of a binary container with the given records. *)
Definition binary_header (Recs : list PlacedBundle) : bytes :=
  OFFLOAD_BUNDLER_MAGIC_STR ++ le_encode 8 (Z.of_nat (length Recs))
  ++ flat_map encode_record Recs.

(** The file after the payloads have been written at their offsets, one
    after the other: an empty payload leaves the file as it is, another
    one is appended after a gap of zero bytes. *)
Fixpoint write_payloads (data : bytes) (Recs : list PlacedBundle) : bytes :=
  match Recs with
  | [] => data
  | R :: rest =>
      write_payloads
        (match placed_payload R with
         | [] => data
         | _ :: _ =>
             data ++ repeat NUL (Z.to_nat (placed_offset R) - length data)
             ++ placed_payload R
         end)
        rest
  end.

(** The records of the container that [BundleFiles] writes for the
    configuration and the inputs. *)
Definition placed_bundles (BC : OffloadBundlerConfig) (Inputs : list bytes)
  : list PlacedBundle :=
  place (BundleAlignment BC) (header_size (TargetNames BC))
        (combine (TargetNames BC) Inputs).

(** The binary container of the configuration and the inputs. *)
Definition binary_container (BC : OffloadBundlerConfig) (Inputs : list bytes)
  : bytes :=
  write_payloads (binary_header (placed_bundles BC Inputs))
                 (placed_bundles BC Inputs).

(** The container, with one more alignment unit, fits in 64 bits: no
    computation of [WriteHeader] wraps around. *)
Definition fits_64_bits (BC : OffloadBundlerConfig) (Inputs : list bytes)
  : Prop :=
  place_end (BundleAlignment BC) (header_size (TargetNames BC))
            (combine (TargetNames BC) Inputs)
  + BundleAlignment BC <= 2 ^ 64.

(** The last payload is not empty (or there is no payload). *)
Fixpoint last_not_empty (Inputs : list bytes) : Prop :=
  match Inputs with
  | [] => True
  | P :: rest =>
      match rest with
      | [] => P <> []
      | _ :: _ => last_not_empty rest
      end
  end.

(** Each record starts at or after [start], and at or after the end of the
    bundle before it. *)
Fixpoint chained (start : Z) (Recs : list PlacedBundle) : Prop :=
  match Recs with
  | [] => True
  | R :: rest =>
      start <= placed_offset R
      /\ chained (placed_offset R + len (placed_payload R)) rest
  end.

(** The entry of [BundlesInfo] for a record. *)
Definition info_of (R : PlacedBundle)
  : bytes * BinaryFileHandler.BinaryBundleInfo :=
  (placed_target R,
   {| BinaryFileHandler.Size := len (placed_payload R);
      BinaryFileHandler.Offset := placed_offset R |}).

(** *** What a handler reads from an input *)

(** From the state [FH] on, the handler finds in [Input] the bundles [Bs],
    each with its identifier and its payload, and then no more:
    [ReadBundleStart] returns the identifier, [ReadBundle] writes the
    payload and [ReadBundleEnd] moves on to the next bundle. *)
Inductive Reads {C : Collaborators} (Input : bytes)
  : FileHandler -> list (bytes * bytes) -> Prop :=
| Reads_done (FH FH' : FileHandler) :
    ReadBundleStart FH Input = Ok (None, FH') ->
    Reads Input FH []
| Reads_bundle (FH FH1 FH2 FH3 : FileHandler) (T P : bytes)
               (Bs : list (bytes * bytes)) :
    ReadBundleStart FH Input = Ok (Some T, FH1) ->
    ReadBundle FH1 Input = Ok (P, FH2) ->
    ReadBundleEnd FH2 Input = Ok FH3 ->
    Reads Input FH3 Bs ->
    Reads Input FH ((T, P) :: Bs).

(** The same for the listing, which skips a bundle with
    [listBundleIDsCallback]. *)
Inductive Lists {C : Collaborators} (Input : bytes)
  : FileHandler -> list bytes -> Prop :=
| Lists_done (FH FH' : FileHandler) :
    ReadBundleStart FH Input = Ok (None, FH') ->
    Lists Input FH []
| Lists_bundle (FH FH1 FH2 : FileHandler) (T : bytes) (Ts : list bytes) :
    ReadBundleStart FH Input = Ok (Some T, FH1) ->
    listBundleIDsCallback FH1 Input T = Ok FH2 ->
    Lists Input FH2 Ts ->
    Lists Input FH (T :: Ts).

(** The listing of the identifiers, one per line. *)
Definition listing (Ts : list bytes) : bytes :=
  flat_map (fun T => T ++ NL) Ts.

(** The output paired with a target. *)
Definition output_of (W : list (bytes * bytes)) (T : bytes) : bytes :=
  match sm_lookup W T with Some Output => Output | None => [] end.

(** The bundle is compatible with exactly one of the targets, the one of
    its own name. *)
Definition only_self_compatible {C : Collaborators} (BC : OffloadBundlerConfig)
  (Targets : list bytes) : Prop :=
  forall T T', In T Targets -> In T' Targets ->
    (isCodeObjectCompatible (mkOffloadTargetInfo T BC)
                            (mkOffloadTargetInfo T' BC) = true
     <-> T = T').

(** What the unbundling writes for a bundle that was read: the payload, to
    the output paired with the identifier. *)
Definition extracted (W : list (bytes * bytes)) (E : bytes * bytes)
  : bytes * bytes :=
  (output_of W (fst E), snd E).

(** Whether a bundle of host kind is among the bundles. *)
Definition has_host_bundle {C : Collaborators} (BC : OffloadBundlerConfig)
  (Bs : list (bytes * bytes)) : bool :=
  existsb (fun E => hasHostKind (mkOffloadTargetInfo (fst E) BC)) Bs.

(** The byte string holds no newline. *)
Definition newline_free (s : bytes) : Prop := ~ In newline s.

(** An entry that the text container can hold: the target has no newline,
    and the payload does not contain the end marker of the handler. *)
Definition text_safe (H : TextFileHandler.t) (E : bytes * bytes) : Prop :=
  newline_free (fst E)
  /\ contains (snd E) (TextFileHandler.BundleEndString H) = false.

(** The first record of a target. *)
Fixpoint find_record (Recs : list PlacedBundle) (T : bytes)
  : option PlacedBundle :=
  match Recs with
  | [] => None
  | R :: rest =>
      if bytes_eqb (placed_target R) T then Some R else find_record rest T
  end.

(** The records in the order in which the [StringMap] that holds them by
    target is iterated. *)
Definition in_iteration_order {C : Collaborators} (Recs : list PlacedBundle)
  : list PlacedBundle :=
  flat_map (fun k => match find_record Recs k with
                     | Some R => [R]
                     | None => []
                     end)
           (StringMap_order (map placed_target Recs)).

(** The target and the payload of a record. *)
Definition entry_of (R : PlacedBundle) : bytes * bytes :=
  (placed_target R, placed_payload R).

(** *** Vocabulary of the further properties *)

(** The outcome is an [llvm::Error]. *)
Definition is_Err {A : Type} (m : outcome A) : bool :=
  match m with Err _ => true | _ => false end.

(** Every file of the log is at one of the paths, and so is every output of
    the work list that the loop of [UnbundleFiles] returns. *)
Definition log_within (Paths : list bytes)
  (res : Written * outcome (list (bytes * bytes) * bool)) : Prop :=
  (forall F, In F (fst res) -> In (fst F) Paths)
  /\ match snd res with
     | Ok (W, _) => forall E, In E W -> In (snd E) Paths
     | _ => True
     end.

(** When the loop of [UnbundleFiles] returns, the paths of the files of the
    log and the outputs left in the work list are, together, the paths, each
    once; the work list holds each target once. *)
Definition each_once (Paths : list bytes)
  (res : Written * outcome (list (bytes * bytes) * bool)) : Prop :=
  match snd res with
  | Ok (W, _) =>
      NoDup (map fst W)
      /\ Permutation (map fst (fst res) ++ map snd W) Paths
  | _ => True
  end.

(** From the state [FH] on, the handler finds in [Input] the bundles [Bs]
    and then no more, whether each bundle is read ([ReadBundle],
    [ReadBundleEnd]) or passed over before the next [ReadBundleStart]. *)
Inductive Scans {C : Collaborators} (Input : bytes)
  : FileHandler -> list (bytes * bytes) -> Prop :=
| Scans_done (FH FH' : FileHandler) :
    ReadBundleStart FH Input = Ok (None, FH') ->
    Scans Input FH []
| Scans_bundle (FH FH1 FH2 FH3 : FileHandler) (T P : bytes)
               (Bs : list (bytes * bytes)) :
    ReadBundleStart FH Input = Ok (Some T, FH1) ->
    ReadBundle FH1 Input = Ok (P, FH2) ->
    ReadBundleEnd FH2 Input = Ok FH3 ->
    Scans Input FH3 Bs ->
    Scans Input FH1 Bs ->
    Scans Input FH ((T, P) :: Bs).

(** The bundle is one of the requested targets. *)
Definition requested (Targets : list bytes) (E : bytes * bytes) : bool :=
  existsb (bytes_eqb (fst E)) Targets.

(** A bundle is compatible with a requested target exactly when it is that
    target's. *)
Definition compatible_with_own_only {C : Collaborators}
  (BC : OffloadBundlerConfig) (Bundles Targets : list bytes) : Prop :=
  forall T T', In T Bundles -> In T' Targets ->
    (isCodeObjectCompatible (mkOffloadTargetInfo T BC)
                            (mkOffloadTargetInfo T' BC) = true
     <-> T = T').

(** The handler is not the text handler. *)
Definition keeps_position (FH : FileHandler) : bool :=
  match FH with Text _ => false | _ => true end.

(** The bundle IDs of the offload sections among the sections, in the order
    of the sections. *)
Definition offload_ids (secs : list Section_) : list bytes :=
  flat_map (fun s => match ObjectFileHandler.IsOffloadSection s with
                     | Some T => [T]
                     | None => []
                     end) secs.

(** What [ReadBundle] of the object handler writes for a section: the whole
    input when the contents are one zero byte, the contents otherwise. *)
Definition section_bundle (Input : bytes) (s : Section_) : bytes :=
  match snd s with
  | [c] => if Ascii.eqb c NUL then Input else snd s
  | _ => snd s
  end.

(** The bundles of the offload sections among the sections. *)
Definition offload_bundles (Input : bytes) (secs : list Section_)
  : list (bytes * bytes) :=
  flat_map (fun s => match ObjectFileHandler.IsOffloadSection s with
                     | Some T => [(T, section_bundle Input s)]
                     | None => []
                     end) secs.

(** The two arguments of the [llvm-objcopy] command line for the input of
    index [I]: the section of the target is added from the input file, or
    from the temporary file for the host input, and flagged. *)
Definition section_args (BC : OffloadBundlerConfig) (TempFile : bytes)
  (I : nat) : list bytes :=
  let Target := nth I (TargetNames BC) [] in
  let InputFile :=
    if Z.of_nat I =? HostInputIndex BC then TempFile
    else nth I (InputFileNames BC) [] in
  [B "--add-section=" ++ OFFLOAD_BUNDLER_MAGIC_STR ++ Target ++ B "="
     ++ InputFile;
   B "--set-section-flags=" ++ OFFLOAD_BUNDLER_MAGIC_STR ++ Target
     ++ B "=readonly,exclude"].

(** The [llvm-objcopy] command line of the configuration. *)
Definition objcopy_command (BC : OffloadBundlerConfig) (TempFile : bytes)
  : list bytes :=
  [B "llvm-objcopy"]
  ++ flat_map (section_args BC TempFile)
              (seq 0 (length (InputFileNames BC)))
  ++ [B "--";
      nth (Z.to_nat (HostInputIndex BC)) (InputFileNames BC) [];
      hd [] (OutputFileNames BC)].

(** Every member of every list of the map has a name without [':']. *)
Definition colon_free_members (M : ArchivesMap) : Prop :=
  forall E, In E M ->
    Forall (fun Member => contains_char colon (fst Member) = false) (snd E).

(** An entry that the text container can hold and that can be passed over:
    the target has no newline, and the payload contains neither the end
    marker nor the start marker of the handler. *)
Definition text_skip_safe (H : TextFileHandler.t) (E : bytes * bytes) : Prop :=
  newline_free (fst E)
  /\ contains (snd E) (TextFileHandler.BundleEndString H) = false
  /\ contains (snd E) (TextFileHandler.BundleStartString H) = false.

(** The bundle passed the check of [ReadHeader] on its offset and size: the
    offset is not zero, and offset plus size, as a 64-bit sum, is at most
    the size of the file. *)
Definition bundle_checked (FC : bytes)
  (BI : BinaryFileHandler.BinaryBundleInfo) : Prop :=
  BinaryFileHandler.Offset BI <> 0
  /\ wrap64 (BinaryFileHandler.Offset BI + BinaryFileHandler.Size BI) <= len FC.

(** No bundle of the identifiers is for the target of the entry. *)
Definition missing (Ids : list bytes) (E : bytes * bytes) : bool :=
  negb (requested Ids E).

(** The empty file at the output of an entry of the work list. *)
Definition empty_output (E : bytes * bytes) : bytes * bytes := (snd E, []).

(** * Properties *)

(** ** Byte strings *)

Lemma bytes_eqb_refl (a : bytes) : bytes_eqb a a = true.
Proof.
  induction a as [|x a IH]; simpl; [reflexivity|].
  now rewrite Ascii.eqb_refl, IH.
Qed.

Lemma bytes_eqb_eq (a b : bytes) : bytes_eqb a b = true <-> a = b.
Proof.
  split; [|intros ->; apply bytes_eqb_refl].
  revert b; induction a as [|x a IH]; intros [|y b]; simpl; try discriminate;
    [reflexivity|].
  intros H. apply andb_true_iff in H as [Hx Hab].
  apply Ascii.eqb_eq in Hx. apply IH in Hab. now subst.
Qed.

Lemma bytes_eqb_neq (a b : bytes) : bytes_eqb a b = false <-> a <> b.
Proof.
  rewrite <- bytes_eqb_eq. destruct (bytes_eqb a b); split; congruence.
Qed.

Lemma len_app (a b : bytes) : len (a ++ b) = len a + len b.
Proof. unfold len. rewrite length_app. lia. Qed.

Lemma len_nonneg (a : bytes) : 0 <= len a.
Proof. unfold len. lia. Qed.

Lemma len_cons (c : ascii) (a : bytes) : len (c :: a) = 1 + len a.
Proof. unfold len. simpl length. lia. Qed.

(** ** The output stream *)

Lemma os_write_at_end (OS : raw_fd_ostream) (s : bytes) :
  os_at_end OS ->
  os_write OS s = {| os_data := os_data OS ++ s; os_pos := os_pos OS + len s |}.
Proof.
  unfold os_at_end, os_write. destruct OS as [d p]; simpl. intros ->.
  destruct s as [|c s]; [now rewrite app_nil_r, Z.add_0_r|].
  unfold len. rewrite Nat2Z.id, Nat.sub_diag. simpl repeat.
  rewrite app_nil_r, firstn_all, skipn_all2 by lia.
  now rewrite app_nil_r.
Qed.

Lemma os_write_keeps_end (OS : raw_fd_ostream) (s : bytes) :
  os_at_end OS -> os_at_end (os_write OS s).
Proof.
  intros H. rewrite os_write_at_end by assumption.
  unfold os_at_end in *. simpl. rewrite len_app. lia.
Qed.

Lemma os_new_at_end : os_at_end os_new.
Proof. reflexivity. Qed.

(** ** Writing a text container *)

Lemma Text_BundleFiles_loop {C : Collaborators} (H : TextFileHandler.t) :
  forall (Targets Inputs : list bytes) (OS : raw_fd_ostream),
    length Targets = length Inputs ->
    os_at_end OS ->
    BundleFiles_loop Targets Inputs (Text H) OS
    = Ok ({| os_data := os_data OS ++ text_container H (combine Targets Inputs);
             os_pos := os_pos OS
                       + len (text_container H (combine Targets Inputs)) |},
          Text H).
Proof.
  induction Targets as [|T Ts IH]; intros [|P Ps] OS Hlen Hend;
    simpl in Hlen; try discriminate.
  - simpl. rewrite app_nil_r. unfold len. simpl. rewrite Z.add_0_r.
    now destruct OS.
  - injection Hlen as Hlen.
    cbn [BundleFiles_loop WriteBundleStart WriteBundle WriteBundleEnd
         TextFileHandler.WriteBundleStart TextFileHandler.WriteBundle
         TextFileHandler.WriteBundleEnd lift bind].
    set (OS3 := os_write (os_write (os_write (os_write _ P) _) T) NL).
    assert (E3 : os_at_end OS3) by (repeat apply os_write_keeps_end; exact Hend).
    rewrite (IH Ps OS3 Hlen E3). f_equal. f_equal.
    subst OS3.
    repeat (rewrite os_write_at_end;
            [|repeat apply os_write_keeps_end; exact Hend]).
    cbn [os_data os_pos combine].
    change (text_container H ((T, P) :: combine Ts Ps))
      with (text_entry H (T, P) ++ text_container H (combine Ts Ps)).
    generalize (text_container H (combine Ts Ps)) as rest; intro rest.
    unfold text_entry; cbn [fst snd].
    f_equal; [now rewrite <- !app_assoc | rewrite !len_app; lia].
Qed.

Lemma BundleFiles_Text {C : Collaborators} (BC : OffloadBundlerConfig)
  (Comment Output : bytes) (Outputs Inputs : list bytes) :
  OutputFileNames BC = Output :: Outputs ->
  can_create Output = true ->
  open_inputs (InputFileNames BC) = Ok Inputs ->
  length (TargetNames BC) = length Inputs ->
  valid_host_input BC (length Inputs) ->
  (forall FirstInput,
     CreateFileHandler FirstInput BC = Ok (Text (TextFileHandler.new Comment))) ->
  BundleFiles BC
  = Ok (text_container (TextFileHandler.new Comment)
                       (combine (TargetNames BC) Inputs)).
Proof.
  intros HOut Hcan Hopen Hlen Hhost Hfh.
  unfold BundleFiles. rewrite HOut, Hcan, Hopen. cbn [negb bind].
  unfold valid_host_input in Hhost.
  assert (Hassert : negb (HostInputIndex BC =? NoHostIndex) || AllowNoHost BC
                    = true).
  { destruct (AllowNoHost BC); [apply orb_true_r|].
    destruct Hhost as [Hne _]. apply Z.eqb_neq in Hne. now rewrite Hne. }
  rewrite Hassert. cbn [assert bind].
  destruct (nth_error Inputs _) as [FirstInput|] eqn:Hnth.
  - rewrite Hfh. cbn [bind WriteHeader TextFileHandler.WriteHeader lift].
    rewrite Text_BundleFiles_loop by (assumption || apply os_new_at_end).
    reflexivity.
  - exfalso. apply nth_error_None in Hnth.
    destruct (AllowNoHost BC); [lia|]. destruct Hhost as [_ Hlt]. lia.
Qed.

(** ** C6: the text container of two [.ll] inputs *)

(** C6 (amended).  Bundling the two [.ll] inputs "x\n" and "y\n" for the
    targets [T1] and [T2] writes, in this order: a newline and the start
    marker line of [T1], "x\n", a newline and the end marker line of [T1],
    a newline and the start marker line of [T2], "y\n", a newline and the
    end marker line of [T2].  A start marker line is
    "; __CLANG_OFFLOAD_BUNDLE____START__ " followed by the target, an end
    marker line is "; __CLANG_OFFLOAD_BUNDLE____END__ " followed by the
    target: one space after the comment prefix, none between the magic
    string and [__START__] or [__END__]. *)
Theorem C6_text_container_of_two_ll_inputs :
  forall (C : Collaborators) (BC : OffloadBundlerConfig)
         (T1 T2 Output : bytes) (Outputs : list bytes),
    FilesType BC = B "ll" ->
    TargetNames BC = [T1; T2] ->
    open_inputs (InputFileNames BC) = Ok [B "x" ++ NL; B "y" ++ NL] ->
    OutputFileNames BC = Output :: Outputs ->
    can_create Output = true ->
    valid_host_input BC 2 ->
    BundleFiles BC
    = Ok (NL ++ B "; __CLANG_OFFLOAD_BUNDLE____START__ " ++ T1 ++ NL
          ++ (B "x" ++ NL)
          ++ NL ++ B "; __CLANG_OFFLOAD_BUNDLE____END__ " ++ T1 ++ NL
          ++ NL ++ B "; __CLANG_OFFLOAD_BUNDLE____START__ " ++ T2 ++ NL
          ++ (B "y" ++ NL)
          ++ NL ++ B "; __CLANG_OFFLOAD_BUNDLE____END__ " ++ T2 ++ NL).
Proof.
  intros C BC T1 T2 Output Outputs Hty HT Hopen HOut Hcan Hhost.
  rewrite (BundleFiles_Text BC (B ";") Output Outputs _ HOut Hcan Hopen).
  - rewrite HT. unfold text_container, text_entry, TextFileHandler.new.
    cbn [combine flat_map fst snd TextFileHandler.BundleStartString
         TextFileHandler.BundleEndString].
    rewrite app_nil_r. f_equal. unfold NL. simpl.
    repeat (rewrite <- app_assoc; simpl). reflexivity.
  - now rewrite HT.
  - exact Hhost.
  - intros FirstInput. unfold CreateFileHandler. rewrite Hty. reflexivity.
Qed.

(** The theorem at the targets of a host and a GPU bundle. *)
Lemma C6_witness :
  @BundleFiles
    (Sample.env [(B "a.ll", B "x" ++ NL); (B "b.ll", B "y" ++ NL)])
    (Sample.config (B "ll")
       [B "host-x86_64-unknown-linux-gnu"; B "hip-amdgcn-amd-amdhsa--gfx906"]
       [B "a.ll"; B "b.ll"] [B "out.ll"])
  = Ok (NL ++ B "; __CLANG_OFFLOAD_BUNDLE____START__ "
        ++ B "host-x86_64-unknown-linux-gnu" ++ NL
        ++ (B "x" ++ NL)
        ++ NL ++ B "; __CLANG_OFFLOAD_BUNDLE____END__ "
        ++ B "host-x86_64-unknown-linux-gnu" ++ NL
        ++ NL ++ B "; __CLANG_OFFLOAD_BUNDLE____START__ "
        ++ B "hip-amdgcn-amd-amdhsa--gfx906" ++ NL
        ++ (B "y" ++ NL)
        ++ NL ++ B "; __CLANG_OFFLOAD_BUNDLE____END__ "
        ++ B "hip-amdgcn-amd-amdhsa--gfx906" ++ NL).
Proof.
  apply (C6_text_container_of_two_ll_inputs
           (Sample.env [(B "a.ll", B "x" ++ NL); (B "b.ll", B "y" ++ NL)])
           _ _ _ (B "out.ll") []);
    try reflexivity.
  unfold valid_host_input; simpl. split; [discriminate | lia].
Defined.

(** C6 as the specification words it: the marker bytes it names,
    ";  __CLANG_OFFLOAD_BUNDLE__ __START__ " and
    ";  __CLANG_OFFLOAD_BUNDLE__ __END__ ", occur nowhere in the file that
    bundling the two inputs produces. *)
Lemma C6_counterexample :
  exists file : bytes,
    @BundleFiles
      (Sample.env [(B "a.ll", B "x" ++ NL); (B "b.ll", B "y" ++ NL)])
      (Sample.config (B "ll")
         [B "host-x86_64-unknown-linux-gnu"; B "hip-amdgcn-amd-amdhsa--gfx906"]
         [B "a.ll"; B "b.ll"] [B "out.ll"])
    = Ok file
    /\ contains file (B ";  __CLANG_OFFLOAD_BUNDLE__ __START__ ") = false
    /\ contains file (B ";  __CLANG_OFFLOAD_BUNDLE__ __END__ ") = false.
Proof.
  eexists. split; [vm_compute; reflexivity|].
  split; vm_compute; reflexivity.
Qed.

(** ** C5: HIP and OpenMP kinds *)

Lemma mkOffloadTargetInfo_BundlerConfig {C : Collaborators} (Target : bytes)
  (BC : OffloadBundlerConfig) :
  BundlerConfig (mkOffloadTargetInfo Target BC) = BC.
Proof.
  unfold mkOffloadTargetInfo. now destruct (StringToCudaArch_known _).
Qed.




(** ** C10: what the binary header reader returns *)

(** No input makes the header reader return an error value. *)
Lemma ReadHeader_loop_never_Err {C : Collaborators} (FC : bytes) :
  forall (fuel : nat) (i N ReadChars : Z) (H : BinaryFileHandler.t) (e : Error),
    BinaryFileHandler.ReadHeader_loop fuel FC i N ReadChars H <> Err e.
Proof.
  induction fuel as [|fuel IH]; intros i N ReadChars H e;
    cbn [BinaryFileHandler.ReadHeader_loop];
    repeat match goal with
           | |- (if ?c then _ else _) <> _ => destruct c; try discriminate
           | |- match ?x with Some _ => _ | None => _ end <> _ =>
               destruct x; try discriminate
           end;
    unfold assert;
    match goal with
    | |- context [negb ?c] => destruct c; cbn [negb bind]; try discriminate
    end.
  apply IH.
Qed.

Lemma ReadHeader_never_Err {C : Collaborators} (H : BinaryFileHandler.t)
  (Input : bytes) (e : Error) :
  BinaryFileHandler.ReadHeader H Input <> Err e.
Proof.
  unfold BinaryFileHandler.ReadHeader.
  repeat match goal with
         | |- (if ?c then _ else _) <> _ => destruct c; try discriminate
         end.
  apply ReadHeader_loop_never_Err.
Qed.

(** C10, at the failing input.  On the 56-byte header whose triple length is
    [2^64 - 1], the bounds check [ReadChars + TripleSize > FC.size()] wraps
    around and passes, and the header reader goes on to read the bytes of
    the triple outside the buffer: it neither returns success nor stops at
    the assertion on a duplicate triple. *)
Theorem C10_ReadHeader_reads_outside_the_buffer :
  forall (C : Collaborators) (BC : OffloadBundlerConfig),
    len header_with_huge_triple_size = 56
    /\ BinaryFileHandler.ReadHeader (BinaryFileHandler.new BC)
         header_with_huge_triple_size
       = Undef.
Proof.
  intros C BC. split; vm_compute; reflexivity.
Qed.

(** ** C4: a header that stops being valid after its first record *)

(** C4, at the failing input.  The second record has offset zero.  The
    header reader returns success, with the first bundle registered and
    [NextBundleInfo] never assigned; [ReadBundleStart] then finds that this
    null iterator is not [end()] of the map, and advances and dereferences
    it, instead of reporting that there is no bundle. *)
Theorem C4_ReadBundleStart_after_partial_header :
  forall (C : Collaborators) (BC : OffloadBundlerConfig),
  exists H : BinaryFileHandler.t,
    BinaryFileHandler.ReadHeader (BinaryFileHandler.new BC)
      header_with_zero_offset_second
    = Ok H
    /\ BinaryFileHandler.BundlesInfo H
       = [(B "A", {| BinaryFileHandler.Size := 1;
                     BinaryFileHandler.Offset := 82 |})]
    /\ BinaryFileHandler.NextBundleInfo H = IterNull
    /\ BinaryFileHandler.ReadBundleStart H header_with_zero_offset_second
       = Undef.
Proof.
  intros C BC. eexists. split; [vm_compute; reflexivity|].
  repeat split.
Qed.

(** ** C7: a text bundle without its end marker *)

(** Without an end marker after the read position, [ReadBundle] asks for
    [npos - BundleStart] bytes, which no buffer holds. *)
Lemma Text_ReadBundle_without_end_marker (H : TextFileHandler.t) (FC : bytes) :
  0 <= TextFileHandler.ReadChars H <= len FC ->
  len FC < npos ->
  find FC (TextFileHandler.BundleEndString H) (TextFileHandler.ReadChars H)
  = npos ->
  TextFileHandler.ReadBundle H FC = Undef.
Proof.
  intros Hpos Hlen Hfind. unfold TextFileHandler.ReadBundle. rewrite Hfind.
  unfold slice, wrap64.
  rewrite Z.mod_small by (unfold npos in *; lia).
  replace (TextFileHandler.ReadChars H + (npos - TextFileHandler.ReadChars H))
    with npos by lia.
  destruct (npos <=? len FC) eqn:E; [apply Z.leb_le in E; lia|].
  now rewrite andb_false_r.
Qed.

(** C7, at the failing input.  The start marker of the bundle "T" is found
    and the read position is left at the first byte of the bundle (offset
    39 of 42); [ReadBundle] then reads outside the buffer. *)
Theorem C7_ReadBundle_without_end_marker :
  TextFileHandler.ReadBundleStart (TextFileHandler.new (B ";"))
    text_without_end_marker
  = Ok (Some (B "T"),
        TextFileHandler.with_ReadChars (TextFileHandler.new (B ";")) 39)
  /\ len text_without_end_marker = 42
  /\ TextFileHandler.ReadBundle
       (TextFileHandler.with_ReadChars (TextFileHandler.new (B ";")) 39)
       text_without_end_marker
     = Undef.
Proof.
  split; [vm_compute; reflexivity|].
  split; [vm_compute; reflexivity|].
  apply Text_ReadBundle_without_end_marker; vm_compute; try reflexivity.
  split; discriminate.
Qed.

(** ** C9: the archives written at the end of [UnbundleArchive] *)

Lemma writeArchives_all {C : Collaborators} (BC : OffloadBundlerConfig)
  (IFName : bytes) (NameMap : StringMap bytes) (ArMap : ArchivesMap) :
  forall (Targets : list bytes) (w : list (bytes * list ArchiveMember)),
    (forall T, In T Targets ->
               writeArchive_ok (fst (archive_of NameMap ArMap T)) = true) ->
    AllowMissingBundles BC = true
    \/ (forall T, In T Targets -> sm_lookup ArMap T <> None) ->
    writeArchives BC IFName Targets NameMap ArMap w
    = (w ++ map (archive_of NameMap ArMap) Targets, Ok tt).
Proof.
  induction Targets as [|T Ts IH]; intros w Hok Hall.
  - simpl. now rewrite app_nil_r.
  - assert (HokT := Hok T (or_introl eq_refl)).
    assert (Hok' : forall T', In T' Ts ->
              writeArchive_ok (fst (archive_of NameMap ArMap T')) = true)
      by (intros; apply Hok; now right).
    assert (Hall' : AllowMissingBundles BC = true
                    \/ (forall T', In T' Ts -> sm_lookup ArMap T' <> None))
      by (destruct Hall as [?|Hall]; [now left | right; intros; apply Hall;
                                                  now right]).
    unfold archive_of in HokT. cbn [fst] in HokT.
    assert (HT' : archive_of NameMap ArMap T
                  = (match sm_lookup NameMap T with
                     | Some Name => Name
                     | None => []
                     end,
                     match sm_lookup ArMap T with
                     | Some Members => Members
                     | None => []
                     end)) by reflexivity.
    cbn [writeArchives map]. rewrite HT'.
    destruct (sm_lookup ArMap T) as [Members|] eqn:HT.
    + unfold io_bind, io_writeArchive. rewrite HokT.
      rewrite (IH _ Hok' Hall'). now rewrite <- app_assoc.
    + destruct Hall as [Hallow|Hall];
        [|exfalso; apply (Hall T); [now left | exact HT]].
      rewrite Hallow. cbn [negb].
      unfold io_bind, io_writeArchive. rewrite HokT.
      rewrite (IH _ Hok' Hall'). now rewrite <- app_assoc.
Qed.

Lemma writeArchives_first_missing {C : Collaborators} (BC : OffloadBundlerConfig)
  (IFName : bytes) (NameMap : StringMap bytes) (ArMap : ArchivesMap) :
  forall (pre : list bytes) (T : bytes) (post : list bytes)
         (w : list (bytes * list ArchiveMember)),
    AllowMissingBundles BC = false ->
    (forall T', In T' pre ->
                writeArchive_ok (fst (archive_of NameMap ArMap T')) = true) ->
    (forall T', In T' pre -> sm_lookup ArMap T' <> None) ->
    sm_lookup ArMap T = None ->
    writeArchives BC IFName (pre ++ T :: post) NameMap ArMap w
    = (w ++ map (archive_of NameMap ArMap) pre,
       Err (NoCompatibleCodeObject T IFName)).
Proof.
  induction pre as [|P pre IH]; intros T post w Hallow Hok Hpre HT.
  - cbn [app writeArchives map]. rewrite HT, Hallow. cbn [negb].
    unfold io_lift. now rewrite app_nil_r.
  - assert (HokP := Hok P (or_introl eq_refl)).
    assert (HP := Hpre P (or_introl eq_refl)).
    unfold archive_of in HokP. cbn [fst] in HokP.
    assert (HP' : archive_of NameMap ArMap P
                  = (match sm_lookup NameMap P with
                     | Some Name => Name
                     | None => []
                     end,
                     match sm_lookup ArMap P with
                     | Some Members => Members
                     | None => []
                     end)) by reflexivity.
    cbn [app writeArchives map]. rewrite HP'.
    destruct (sm_lookup ArMap P) as [Members|]; [|congruence].
    unfold io_bind, io_writeArchive. rewrite HokP.
    rewrite IH; try assumption.
    + now rewrite <- app_assoc.
    + intros; apply Hok; now right.
    + intros; apply Hpre; now right.
Qed.

(** C9 (amended).  Once all archive members are processed, with [ArMap] the
    members accumulated per target, the targets are visited in the order
    they were requested.  When [allow_missing_bundles] is set, or every
    target has accumulated members, every target gets an archive at its
    output path that holds exactly its accumulated members (none for a
    target without an entry).  When [allow_missing_bundles] is not set, the
    operation stops at the first target without accumulated members and
    returns the error that names it; the targets before it have got their
    archives, the targets after it get none. *)
Theorem C9_archives_written_per_target :
  forall (C : Collaborators) (BC : OffloadBundlerConfig)
         (IFName Buf : bytes) (rest : list bytes)
         (Children : list ArchiveMember)
         (NameMap : StringMap bytes) (ArMap : ArchivesMap),
    InputFileNames BC = IFName :: rest ->
    getFileOrSTDIN IFName = Some Buf ->
    Archive_children Buf = Some Children ->
    Worklist_init (TargetNames BC) (OutputFileNames BC) [] = Ok NameMap ->
    UnbundleArchive_children BC Children [] = Ok ArMap ->
    (forall T, In T (TargetNames BC) ->
               writeArchive_ok (fst (archive_of NameMap ArMap T)) = true) ->
    (AllowMissingBundles BC = true
     \/ (forall T, In T (TargetNames BC) -> sm_lookup ArMap T <> None) ->
     UnbundleArchive BC
     = (map (archive_of NameMap ArMap) (TargetNames BC), Ok tt))
    /\ (AllowMissingBundles BC = false ->
        forall (pre : list bytes) (T : bytes) (post : list bytes),
          TargetNames BC = pre ++ T :: post ->
          (forall T', In T' pre -> sm_lookup ArMap T' <> None) ->
          sm_lookup ArMap T = None ->
          UnbundleArchive BC
          = (map (archive_of NameMap ArMap) pre,
             Err (NoCompatibleCodeObject T IFName))).
Proof.
  intros C BC IFName Buf rest Children NameMap ArMap HIn Hfile Har Hnames Hch
         Hok.
  assert (Hunfold : UnbundleArchive BC
                    = writeArchives BC IFName (TargetNames BC) NameMap ArMap []).
  { unfold UnbundleArchive, UnbundleArchive_io, io_bind, io_lift.
    now rewrite Hnames, HIn, Hfile, Har, Hch. }
  rewrite Hunfold. split.
  - intros Hall. now rewrite writeArchives_all.
  - intros Hallow pre T post HT Hpre Hmiss. rewrite HT.
    rewrite writeArchives_first_missing; try assumption; [reflexivity|].
    intros T' HT'. apply Hok. rewrite HT. apply in_or_app. now left.
Qed.

(** The theorem at the sample archive, with [allow_missing_bundles] set: the
    AMD target gets an empty archive, the NVPTX target an archive with the
    one member extracted for it. *)
Lemma C9_witness :
  @UnbundleArchive Sample.archive_env (Sample.archive_config true)
  = ([(B "o1.a", []);
      (B "o2.a", [(B "foo-openmp-nvptx64-nvidia-cuda--sm_70foo.cubin",
                   B "code")])],
     Ok tt).
Proof.
  refine (proj1 (C9_archives_written_per_target
                   Sample.archive_env (Sample.archive_config true)
                   (B "lib.a") (B "!<arch>") [] [(B "foo.o", Sample.sm_70_bundle)]
                   [(B "hip-amdgcn-amd-amdhsa--gfx906", B "o1.a");
                    (B "openmp-nvptx64-nvidia-cuda--sm_70", B "o2.a")]
                   [(B "openmp-nvptx64-nvidia-cuda--sm_70",
                     [(B "foo-openmp-nvptx64-nvidia-cuda--sm_70foo.cubin",
                       B "code")])]
                   eq_refl eq_refl eq_refl _ _ _) (or_introl eq_refl)).
  - vm_compute; reflexivity.
  - vm_compute; reflexivity.
  - intros T HT. reflexivity.
Defined.

(** C9 as the specification words it.  The archive member holds a bundle
    that is compatible with the second requested target only, and
    [allow_missing_bundles] is not set: the operation returns the error that
    names the first target, and the second target, which has an accumulated
    member, gets no archive. *)
Lemma C9_counterexample :
  @UnbundleArchive_children Sample.archive_env (Sample.archive_config false)
     [(B "foo.o", Sample.sm_70_bundle)] []
  = Ok [(B "openmp-nvptx64-nvidia-cuda--sm_70",
         [(B "foo-openmp-nvptx64-nvidia-cuda--sm_70foo.cubin", B "code")])]
  /\ @UnbundleArchive Sample.archive_env (Sample.archive_config false)
     = ([], Err (NoCompatibleCodeObject (B "hip-amdgcn-amd-amdhsa--gfx906")
                                        (B "lib.a"))).
Proof.
  split; vm_compute; reflexivity.
Qed.

(** ** String maps *)

Lemma sm_lookup_None {V : Type} (m : StringMap V) (k : bytes) :
  sm_lookup m k = None <-> ~ In k (map fst m).
Proof.
  induction m as [|[k' v] m IH]; simpl; [tauto|].
  destruct (bytes_eqb k' k) eqn:E.
  - apply bytes_eqb_eq in E. split; [discriminate | tauto].
  - apply bytes_eqb_neq in E. rewrite IH. tauto.
Qed.

Lemma sm_lookup_In {V : Type} (m : StringMap V) (k : bytes) (v : V) :
  NoDup (map fst m) -> In (k, v) m -> sm_lookup m k = Some v.
Proof.
  induction m as [|[k' v'] m IH]; simpl; [tauto|].
  intros Hnd [Heq|Hin].
  - injection Heq as -> ->. now rewrite bytes_eqb_refl.
  - inversion Hnd as [|? ? Hnotin Hnd']; subst.
    destruct (bytes_eqb k' k) eqn:E; [|now apply IH].
    apply bytes_eqb_eq in E; subst. exfalso. apply Hnotin.
    now apply (in_map fst) in Hin.
Qed.

Lemma sm_set_absent {V : Type} (m : StringMap V) (k : bytes) (v : V) :
  sm_lookup m k = None -> sm_set m k v = m ++ [(k, v)].
Proof.
  induction m as [|[k' v'] m IH]; simpl; [reflexivity|].
  destruct (bytes_eqb k' k); [discriminate|]. intros H. now rewrite IH.
Qed.

Lemma map_fst_combine (A D : Type) (l : list A) (l' : list D) :
  (length l <= length l')%nat -> map fst (combine l l') = l.
Proof.
  revert l'; induction l as [|a l IH]; intros [|b l'] H; simpl in *;
    try reflexivity; try lia.
  f_equal. apply IH. lia.
Qed.

Lemma Worklist_init_NoDup (Targets : list bytes) :
  forall (Outputs : list bytes) (W : StringMap bytes),
    NoDup (map fst W ++ Targets) ->
    (length Targets <= length Outputs)%nat ->
    Worklist_init Targets Outputs W = Ok (W ++ combine Targets Outputs).
Proof.
  induction Targets as [|T Ts IH]; intros Outputs W Hnd Hlen.
  - simpl. now rewrite app_nil_r.
  - destruct Outputs as [|O Os]; simpl in Hlen; [lia|].
    cbn [Worklist_init combine].
    assert (Habs : sm_lookup W T = None).
    { apply sm_lookup_None. apply NoDup_remove_2 in Hnd.
      intros Hin. apply Hnd. apply in_or_app. now left. }
    rewrite (sm_set_absent _ _ _ Habs).
    rewrite IH.
    + now rewrite <- app_assoc.
    + rewrite map_app. cbn [map fst]. now rewrite <- app_assoc.
    + lia.
Qed.

Lemma flat_map_lookup_keys {V : Type} (m0 : StringMap V) :
  forall m : StringMap V,
    (forall k v, In (k, v) m -> sm_lookup m0 k = Some v) ->
    flat_map (fun k => match sm_lookup m0 k with
                       | Some v => [(k, v)]
                       | None => []
                       end) (map fst m)
    = m.
Proof.
  induction m as [|[k v] m IH]; intros H; [reflexivity|].
  cbn [map fst flat_map]. rewrite (H k v (or_introl eq_refl)).
  cbn [app]. f_equal. apply IH. intros; apply H; now right.
Qed.

Lemma sm_entries_Permutation {C : Collaborators} {V : Type} (m : StringMap V) :
  NoDup (map fst m) ->
  Permutation (StringMap_order (map fst m)) (map fst m) ->
  Permutation (sm_entries m) m.
Proof.
  intros Hnd Hperm. unfold sm_entries.
  eapply Permutation_trans;
    [apply Permutation_flat_map; exact Hperm|].
  rewrite (flat_map_lookup_keys m m) by (intros k v; now apply sm_lookup_In).
  apply Permutation_refl.
Qed.

(** ** C3: unbundling an input without bundles *)

Lemma write_host_or_empty_all {C : Collaborators} (BC : OffloadBundlerConfig)
  (Input : bytes) :
  forall (W : list (bytes * bytes)) (w : Written),
    (forall E, In E W -> can_create (snd E) = true) ->
    write_host_or_empty BC Input W w
    = (w ++ map (host_copy_or_empty BC Input) W, Ok tt).
Proof.
  induction W as [|E W IH]; intros w Hcan.
  - simpl. unfold io_ret. now rewrite app_nil_r.
  - cbn [write_host_or_empty map]. unfold io_bind, io_open, io_write.
    rewrite (Hcan E (or_introl eq_refl)).
    rewrite IH by (intros; apply Hcan; now right).
    now rewrite <- app_assoc.
Qed.

Lemma Unbundle_loop_no_bundles {C : Collaborators} (BC : OffloadBundlerConfig)
  (Input : bytes) (FH FH' : FileHandler) (W : list (bytes * bytes))
  (found : bool) (fuel : nat) (w : Written) :
  ReadBundleStart FH Input = Ok (None, FH') ->
  Unbundle_loop (S fuel) BC Input FH W found w = (w, Ok (W, found)).
Proof.
  intros Hstart. destruct W as [|E W]; [reflexivity|].
  cbn [Unbundle_loop]. unfold io_bind, io_lift. now rewrite Hstart.
Qed.

(** C3 (amended).  Let the input hold no recognized bundle, the requested
    targets be pairwise distinct with an output each, every output be
    creatable, and the work list visit each target once.  When
    [allow_missing_bundles] is set, the operation returns success after
    creating, for every requested target, its output file: a copy of the
    input for a target of host kind, an empty file for any other target.
    When [allow_missing_bundles] is not set and a target is requested, the
    operation writes no file and returns the error "Can't find bundles
    for ...". *)
Theorem C3_unbundle_input_without_bundles :
  forall (C : Collaborators) (BC : OffloadBundlerConfig)
         (InputFileName Input : bytes) (rest : list bytes)
         (FH0 FH FH' : FileHandler),
    InputFileNames BC = InputFileName :: rest ->
    getFileOrSTDIN InputFileName = Some Input ->
    CreateFileHandler Input BC = Ok FH0 ->
    ReadHeader FH0 Input = Ok FH ->
    ReadBundleStart FH Input = Ok (None, FH') ->
    NoDup (TargetNames BC) ->
    length (TargetNames BC) = length (OutputFileNames BC) ->
    Permutation (StringMap_order (TargetNames BC)) (TargetNames BC) ->
    (forall O, In O (OutputFileNames BC) -> can_create O = true) ->
    (AllowMissingBundles BC = true ->
     exists Files : Written,
       UnbundleFiles BC = (Files, Ok tt)
       /\ Permutation Files
            (map (host_copy_or_empty BC Input)
                 (combine (TargetNames BC) (OutputFileNames BC))))
    /\ (AllowMissingBundles BC = false ->
        TargetNames BC <> [] ->
        UnbundleFiles BC
        = ([], Err (CantFindBundles
                      (sm_entries (combine (TargetNames BC)
                                           (OutputFileNames BC)))))).
Proof.
  intros C BC InputFileName Input rest FH0 FH FH' HIn Hfile Hfh Hhdr Hstart
         Hnd Hlen Hord Hcan.
  set (W := combine (TargetNames BC) (OutputFileNames BC)).
  assert (Hkeys : map fst W = TargetNames BC)
    by (apply map_fst_combine; lia).
  assert (Hperm : Permutation (sm_entries W) W).
  { apply sm_entries_Permutation; rewrite Hkeys; assumption. }
  assert (Hrun : UnbundleFiles BC
                 = (if negb (AllowMissingBundles BC)
                       && negb (Nat.eqb (length (sm_entries W)) 0)
                    then io_lift (Err (CantFindBundles (sm_entries W)))
                    else write_host_or_empty BC Input (sm_entries W)) []).
  { unfold UnbundleFiles, UnbundleFiles_io. rewrite HIn, Hfile.
    unfold io_bind at 1. unfold io_lift at 1. rewrite Hfh.
    unfold io_bind at 1. unfold io_lift at 1. rewrite Hhdr.
    unfold io_bind at 1. unfold io_lift at 1.
    rewrite Worklist_init_NoDup by (simpl; assumption || lia).
    cbn [app]. fold W.
    unfold io_bind at 1.
    rewrite (Unbundle_loop_no_bundles _ _ _ FH') by assumption.
    destruct (negb (AllowMissingBundles BC)
              && negb (Nat.eqb (length (sm_entries W)) 0)); [reflexivity|].
    rewrite (Permutation_length Hperm).
    replace (length W) with (length (TargetNames BC))
      by (rewrite <- Hkeys; now rewrite length_map).
    now rewrite Nat.eqb_refl. }
  rewrite Hrun. split.
  - intros Hallow. rewrite Hallow. cbn [negb andb].
    rewrite write_host_or_empty_all.
    + eexists. split; [reflexivity|]. cbn [app].
      now apply Permutation_map.
    + intros E HE. apply Hcan.
      apply (Permutation_in _ Hperm) in HE. destruct E as [T O].
      now apply in_combine_r in HE.
  - intros Hallow Hne. rewrite Hallow. cbn [negb andb].
    rewrite (Permutation_length Hperm).
    replace (length W) with (length (TargetNames BC))
      by (rewrite <- Hkeys; now rewrite length_map).
    destruct (TargetNames BC); [congruence | reflexivity].
Qed.

(** The theorem at the plain text file "hello", with [allow_missing_bundles]
    set. *)
Lemma C3_witness :
  exists Files : Written,
    @UnbundleFiles Sample.plain_env
      (Sample.allowing_missing_bundles Sample.plain_config)
    = (Files, Ok tt)
    /\ Permutation Files
         [(B "host.ll", B "hello"); (B "gfx906.ll", [])].
Proof.
  refine (proj1 (C3_unbundle_input_without_bundles Sample.plain_env
                   (Sample.allowing_missing_bundles Sample.plain_config)
                   (B "plain.ll") (B "hello") []
                   (Text (TextFileHandler.new (B ";")))
                   (Text (TextFileHandler.new (B ";")))
                   (Text (TextFileHandler.with_ReadChars
                            (TextFileHandler.new (B ";")) npos))
                   eq_refl eq_refl eq_refl eq_refl _ _ eq_refl _ _) eq_refl).
  - vm_compute; reflexivity.
  - repeat constructor; simpl; intuition discriminate.
  - apply Permutation_refl.
  - intros O HO. reflexivity.
Defined.

(** C3 as the specification words it.  The plain text file holds no bundle;
    with [allow_missing_bundles] not set (the default) the operation does
    not return success: it writes no file and returns the error that lists
    the targets. *)
Lemma C3_counterexample :
  @ReadBundleStart Sample.plain_env (Text (TextFileHandler.new (B ";")))
     (B "hello")
  = Ok (None, Text (TextFileHandler.with_ReadChars
                      (TextFileHandler.new (B ";")) npos))
  /\ @UnbundleFiles Sample.plain_env Sample.plain_config
     = ([], Err (StringError
                   (B "Can't find bundles for hip-amdgcn-amd-amdhsa--gfx906 and host-x86_64-unknown-linux-gnu"))).
Proof.
  split; vm_compute; reflexivity.
Qed.

(** ** Arithmetic of the binary layout *)

Lemma wrap64_small (z : Z) : 0 <= z < 2 ^ 64 -> wrap64 z = z.
Proof. intros H. unfold wrap64. now apply Z.mod_small. Qed.

Lemma round_up_ge (v a : Z) : 0 < a -> v <= round_up v a.
Proof.
  intros Ha. unfold round_up.
  pose proof (Z.div_mod (v + a - 1) a ltac:(lia)) as Hdm.
  pose proof (Z.mod_pos_bound (v + a - 1) a Ha) as Hm.
  nia.
Qed.

Lemma round_up_lt (v a : Z) : 0 < a -> round_up v a < v + a.
Proof.
  intros Ha. unfold round_up.
  pose proof (Z.div_mod (v + a - 1) a ltac:(lia)) as Hdm.
  pose proof (Z.mod_pos_bound (v + a - 1) a Ha) as Hm.
  nia.
Qed.


Lemma alignTo_round_up (v a : Z) :
  0 < a -> 0 <= v -> v + a <= 2 ^ 64 -> alignTo v a = Ok (round_up v a).
Proof.
  intros Ha Hv Hb. unfold alignTo.
  replace (a =? 0) with false by (symmetry; apply Z.eqb_neq; lia).
  cbn [negb assert bind]. f_equal.
  rewrite (wrap64_small (v + a - 1)) by lia.
  apply wrap64_small. fold (round_up v a).
  pose proof (round_up_ge v a Ha). pose proof (round_up_lt v a Ha). lia.
Qed.

Lemma place_end_ge (Align : Z) (Entries : list (bytes * bytes)) :
  0 < Align -> forall cursor, cursor <= place_end Align cursor Entries.
Proof.
  intros Ha. induction Entries as [|E rest IH]; intros cursor; simpl; [lia|].
  specialize (IH (round_up cursor Align + len (snd E))).
  pose proof (round_up_ge cursor Align Ha). pose proof (len_nonneg (snd E)).
  lia.
Qed.

Lemma header_size_ge (Targets : list bytes) :
  forall acc, acc <= fold_left (fun hs T => hs + 3 * 8 + len T) Targets acc.
Proof.
  induction Targets as [|T Ts IH]; intros acc; cbn [fold_left]; [lia|].
  specialize (IH (acc + 3 * 8 + len T)). pose proof (len_nonneg T). lia.
Qed.

Lemma header_size_wrapped (Targets : list bytes) :
  forall acc,
    0 <= acc ->
    fold_left (fun hs T => hs + 3 * 8 + len T) Targets acc < 2 ^ 64 ->
    fold_left (fun hs T => wrap64 (wrap64 (hs + 3 * 8) + len T)) Targets acc
    = fold_left (fun hs T => hs + 3 * 8 + len T) Targets acc.
Proof.
  induction Targets as [|T Ts IH]; intros acc Hacc Hb; cbn [fold_left] in *;
    [reflexivity|].
  pose proof (header_size_ge Ts (acc + 3 * 8 + len T)).
  pose proof (len_nonneg T).
  rewrite (wrap64_small (acc + 3 * 8)) by lia.
  rewrite (wrap64_small (acc + 3 * 8 + len T)) by lia.
  apply IH; lia.
Qed.

Lemma le_encode_length (n : nat) (v : Z) : length (le_encode n v) = n.
Proof. revert v; induction n; intros v; simpl; [reflexivity|]. now rewrite IHn. Qed.

Lemma byte_val_of (z : Z) : byte_val (byte_of z) = z mod 256.
Proof.
  unfold byte_val, byte_of.
  pose proof (Z.mod_pos_bound z 256 ltac:(lia)).
  rewrite N_ascii_embedding by lia. lia.
Qed.

Lemma le_decode_encode (n : nat) :
  forall v, 0 <= v < 256 ^ Z.of_nat n -> le_decode (le_encode n v) = v.
Proof.
  induction n as [|n IH]; intros v Hv.
  - simpl in *. lia.
  - cbn [le_encode le_decode]. rewrite byte_val_of.
    rewrite IH.
    + pose proof (Z.div_mod v 256 ltac:(lia)). lia.
    + rewrite Nat2Z.inj_succ, Z.pow_succ_r in Hv by lia.
      split; [apply Z.div_pos; lia|].
      apply Z.div_lt_upper_bound; lia.
Qed.

(** ** Writing a binary container *)

Lemma place_targets (Align : Z) :
  forall (Ts Ps : list bytes) (cursor : Z),
    length Ts = length Ps ->
    map placed_target (place Align cursor (combine Ts Ps)) = Ts.
Proof.
  induction Ts as [|T Ts IH]; intros [|P Ps] cursor Hlen; simpl in *;
    try reflexivity; try discriminate.
  f_equal. apply IH. lia.
Qed.

Lemma place_payloads (Align : Z) :
  forall (Ts Ps : list bytes) (cursor : Z),
    length Ts = length Ps ->
    map placed_payload (place Align cursor (combine Ts Ps)) = Ps.
Proof.
  induction Ts as [|T Ts IH]; intros [|P Ps] cursor Hlen; simpl in *;
    try reflexivity; try discriminate.
  f_equal. apply IH. lia.
Qed.

Lemma Binary_WriteHeader_loop {C : Collaborators} :
  forall (Ts Ps : list bytes) (cursor : Z) (OS : raw_fd_ostream)
         (H : BinaryFileHandler.t),
    let Align := BundleAlignment (BinaryFileHandler.BundlerConfig H) in
    length Ts = length Ps ->
    0 < Align ->
    0 <= cursor ->
    place_end Align cursor (combine Ts Ps) + Align <= 2 ^ 64 ->
    (forall T, In T Ts -> len T < 2 ^ 64) ->
    os_at_end OS ->
    NoDup (map fst (BinaryFileHandler.BundlesInfo H) ++ Ts) ->
    BinaryFileHandler.WriteHeader_loop Ts Ps cursor OS H
    = Ok ({| os_data := os_data OS
                        ++ flat_map encode_record
                             (place Align cursor (combine Ts Ps));
             os_pos := os_pos OS
                       + len (flat_map encode_record
                                (place Align cursor (combine Ts Ps))) |},
          BinaryFileHandler.with_BundlesInfo H
            (BinaryFileHandler.BundlesInfo H
             ++ map info_of (place Align cursor (combine Ts Ps)))).
Proof.
  induction Ts as [|T Ts IH]; intros [|P Ps] cursor OS H Align Hlen Ha Hc Hb
    HT Hend Hnd; simpl in Hlen; try discriminate.
  - cbn [BinaryFileHandler.WriteHeader_loop combine place flat_map map].
    rewrite !app_nil_r. unfold len at 1. cbn [length Z.of_nat].
    rewrite Z.add_0_r. destruct OS, H; reflexivity.
  - injection Hlen as Hlen.
    cbn [combine place_end snd] in Hb.
    pose proof (round_up_ge cursor Align Ha) as Hge.
    pose proof (round_up_lt cursor Align Ha) as Hlt.
    pose proof (place_end_ge Align (combine Ts Ps) Ha
                  (round_up cursor Align + len P)) as Hpe.
    pose proof (len_nonneg P) as HP. pose proof (len_nonneg T) as HlT.
    pose proof (HT T (or_introl eq_refl)) as HTb.
    cbn [BinaryFileHandler.WriteHeader_loop].
    fold Align. rewrite alignTo_round_up by lia. cbn [bind].
    unfold Write8byteIntegerToBuffer.
    rewrite (wrap64_small (round_up cursor Align)) by lia.
    rewrite (wrap64_small (len P)) by lia.
    rewrite (wrap64_small (len T)) by lia.
    rewrite (wrap64_small (round_up cursor Align + len P)) by lia.
    assert (Habs : sm_lookup (BinaryFileHandler.BundlesInfo H) T = None).
    { apply sm_lookup_None. apply NoDup_remove_2 in Hnd.
      intros Hin. apply Hnd. apply in_or_app. now left. }
    rewrite (sm_set_absent _ _ _ Habs).
    set (H1 := BinaryFileHandler.with_BundlesInfo H _).
    set (OS1 := os_write (os_write (os_write (os_write OS _) _) _) T).
    assert (E1 : os_at_end OS1) by (repeat apply os_write_keeps_end; exact Hend).
    assert (HA1 : BundleAlignment (BinaryFileHandler.BundlerConfig H1) = Align)
      by reflexivity.
    specialize (IH Ps (round_up cursor Align + len P) OS1 H1 Hlen).
    cbv zeta in IH. rewrite HA1 in IH.
    rewrite IH; try assumption; try lia.
    + f_equal. f_equal.
      * subst OS1.
        repeat (rewrite os_write_at_end;
                [|repeat apply os_write_keeps_end; exact Hend]).
        cbn [os_data os_pos combine place flat_map fst snd].
        set (rest := flat_map encode_record _).
        unfold encode_record at 2.
        cbn [placed_offset placed_payload placed_target].
        f_equal; [now rewrite <- !app_assoc | rewrite !len_app; lia].
      * subst H1. unfold BinaryFileHandler.with_BundlesInfo.
        cbn [BinaryFileHandler.BundlesInfo BinaryFileHandler.CurBundleInfo
             BinaryFileHandler.NextBundleInfo
             BinaryFileHandler.CurWriteBundleTarget
             BinaryFileHandler.BundlerConfig combine place map fst snd].
        now rewrite <- app_assoc.
    + intros T' HT'. apply HT. now right.
    + subst H1. cbn [BinaryFileHandler.with_BundlesInfo
                     BinaryFileHandler.BundlesInfo].
      rewrite map_app. cbn [map fst]. now rewrite <- app_assoc.
Qed.

Lemma header_size_bounds (Targets : list bytes) :
  forall acc,
    0 <= acc ->
    (forall T, In T Targets ->
               len T <= fold_left (fun hs T => hs + 3 * 8 + len T) Targets acc)
    /\ acc + Z.of_nat (length Targets)
       <= fold_left (fun hs T => hs + 3 * 8 + len T) Targets acc.
Proof.
  induction Targets as [|T Ts IH]; intros acc Hacc; cbn [fold_left length].
  - split; [intros T []|lia].
  - pose proof (len_nonneg T) as HT.
    destruct (IH (acc + 3 * 8 + len T) ltac:(lia)) as [IH1 IH2].
    pose proof (header_size_ge Ts (acc + 3 * 8 + len T)) as Hge.
    split; [|lia].
    intros T' [<-|Hin]; [lia | now apply IH1].
Qed.

Lemma place_length (Align : Z) :
  forall (Entries : list (bytes * bytes)) (cursor : Z),
    length (place Align cursor Entries) = length Entries.
Proof.
  induction Entries as [|E rest IH]; intros cursor; simpl; [reflexivity|].
  now rewrite IH.
Qed.

Lemma Binary_WriteHeader {C : Collaborators} (BC : OffloadBundlerConfig)
  (Inputs : list bytes) :
  length (TargetNames BC) = length Inputs ->
  0 < BundleAlignment BC ->
  fits_64_bits BC Inputs ->
  NoDup (TargetNames BC) ->
  BinaryFileHandler.WriteHeader (BinaryFileHandler.new BC) os_new Inputs
  = Ok ({| os_data := binary_header (placed_bundles BC Inputs);
           os_pos := len (binary_header (placed_bundles BC Inputs)) |},
        BinaryFileHandler.with_BundlesInfo (BinaryFileHandler.new BC)
          (map info_of (placed_bundles BC Inputs))).
Proof.
  intros Hlen Ha Hfit Hnd. unfold fits_64_bits in Hfit.
  pose proof (place_end_ge (BundleAlignment BC)
                (combine (TargetNames BC) Inputs) Ha
                (header_size (TargetNames BC))) as Hpe.
  destruct (header_size_bounds (TargetNames BC)
              (len OFFLOAD_BUNDLER_MAGIC_STR + 8) ltac:(vm_compute; discriminate))
    as [HlenT Hcount].
  fold (header_size (TargetNames BC)) in HlenT, Hcount.
  assert (Hmagic : len OFFLOAD_BUNDLER_MAGIC_STR = 24) by reflexivity.
  unfold BinaryFileHandler.WriteHeader.
  cbn [BinaryFileHandler.new BinaryFileHandler.BundlerConfig].
  rewrite Hmagic. rewrite (wrap64_small 24) by (vm_compute; split; congruence).
  rewrite (wrap64_small (24 + 8)) by (vm_compute; split; congruence).
  rewrite header_size_wrapped
    by (try lia; rewrite <- Hmagic; fold (header_size (TargetNames BC)); lia).
  rewrite <- Hmagic. fold (header_size (TargetNames BC)).
  unfold Write8byteIntegerToBuffer.
  rewrite (wrap64_small (Z.of_nat (length (TargetNames BC)))) by lia.
  set (OS1 := os_write (os_write os_new _) _).
  assert (E1 : os_at_end OS1)
    by (repeat apply os_write_keeps_end; exact os_new_at_end).
  rewrite (Binary_WriteHeader_loop (TargetNames BC) Inputs
             (header_size (TargetNames BC)) OS1
             (BinaryFileHandler.new BC));
    cbn [BinaryFileHandler.new BinaryFileHandler.BundlerConfig
         BinaryFileHandler.BundlesInfo map app];
    try assumption; try lia.
  - f_equal. f_equal.
    subst OS1.
    repeat (rewrite os_write_at_end;
            [|repeat apply os_write_keeps_end; exact os_new_at_end]).
    cbn [os_data os_pos os_new app].
    fold (placed_bundles BC Inputs). unfold binary_header.
    unfold placed_bundles at 3 5. rewrite place_length, length_combine.
    rewrite <- Hlen, Nat.min_id.
    f_equal. rewrite !len_app. lia.
  - intros T HT. specialize (HlenT T HT). lia.
Qed.

Lemma os_write_past_end (OS : raw_fd_ostream) (s : bytes) :
  len (os_data OS) <= os_pos OS ->
  s <> [] ->
  os_write OS s
  = {| os_data := os_data OS
                  ++ repeat NUL (Z.to_nat (os_pos OS) - length (os_data OS))
                  ++ s;
       os_pos := os_pos OS + len s |}.
Proof.
  intros Hpos Hs. destruct s as [|c s]; [congruence|].
  unfold os_write. f_equal.
  set (d := os_data OS ++ repeat NUL _).
  assert (Hd : length d = Z.to_nat (os_pos OS)).
  { subst d. rewrite length_app, repeat_length. unfold len in Hpos. lia. }
  rewrite <- Hd, firstn_all, skipn_all2 by lia.
  rewrite Hd. subst d. now rewrite app_nil_r, <- app_assoc.
Qed.

Lemma place_chained (Align : Z) (Entries : list (bytes * bytes)) :
  0 < Align -> forall cursor, chained cursor (place Align cursor Entries).
Proof.
  intros Ha. induction Entries as [|E rest IH]; intros cursor; simpl;
    [exact I|].
  split; [now apply round_up_ge | apply IH].
Qed.

Lemma write_payloads_prefix (Recs : list PlacedBundle) :
  forall data, exists body, write_payloads data Recs = data ++ body.
Proof.
  induction Recs as [|R rest IH]; intros data; cbn [write_payloads].
  - exists []. now rewrite app_nil_r.
  - destruct (placed_payload R) as [|c P].
    + apply IH.
    + destruct (IH (data ++ repeat NUL (Z.to_nat (placed_offset R) - length data)
                     ++ c :: P)) as [body Hbody].
      rewrite Hbody, <- app_assoc. eexists. reflexivity.
Qed.

Lemma write_payloads_len (Recs : list PlacedBundle) (data : bytes) :
  len data <= len (write_payloads data Recs).
Proof.
  destruct (write_payloads_prefix Recs data) as [body ->].
  rewrite len_app. pose proof (len_nonneg body). lia.
Qed.

(** The length of the file after one payload was written at its offset. *)
Lemma written_len (data : bytes) (R : PlacedBundle) :
  len data <= placed_offset R ->
  placed_payload R <> [] ->
  len (data ++ repeat NUL (Z.to_nat (placed_offset R) - length data)
       ++ placed_payload R)
  = placed_offset R + len (placed_payload R).
Proof.
  intros Hoff _. rewrite !len_app. unfold len in *. rewrite repeat_length. lia.
Qed.

Lemma Binary_BundleFiles_loop {C : Collaborators} :
  forall (Recs : list PlacedBundle) (start : Z) (OS : raw_fd_ostream)
         (H : BinaryFileHandler.t),
    (forall R, In R Recs ->
               sm_lookup (BinaryFileHandler.BundlesInfo H) (placed_target R)
               = Some (snd (info_of R))) ->
    chained start Recs ->
    len (os_data OS) <= start ->
    exists (OS' : raw_fd_ostream) (H' : BinaryFileHandler.t),
      BundleFiles_loop (map placed_target Recs) (map placed_payload Recs)
                       (Binary H) OS
      = Ok (OS', Binary H')
      /\ os_data OS' = write_payloads (os_data OS) Recs.
Proof.
  induction Recs as [|R rest IH]; intros start OS H Hinfo Hch Hdata.
  - exists OS, H. split; reflexivity.
  - destruct Hch as [Hoff Hch].
    cbn [map BundleFiles_loop WriteBundleStart WriteBundle WriteBundleEnd
         BinaryFileHandler.WriteBundleStart BinaryFileHandler.WriteBundleEnd
         lift bind].
    unfold BinaryFileHandler.WriteBundle.
    cbn [BinaryFileHandler.with_CurWriteBundleTarget
         BinaryFileHandler.BundlesInfo BinaryFileHandler.CurWriteBundleTarget].
    rewrite (Hinfo R (or_introl eq_refl)).
    cbn [info_of snd BinaryFileHandler.Offset lift bind].
    set (H1 := BinaryFileHandler.with_CurWriteBundleTarget H (placed_target R)).
    set (OS1 := os_write (os_seek OS (placed_offset R)) (placed_payload R)).
    assert (Hdata1 : os_data OS1
                     = match placed_payload R with
                       | [] => os_data OS
                       | _ :: _ =>
                           os_data OS
                           ++ repeat NUL (Z.to_nat (placed_offset R)
                                          - length (os_data OS))
                           ++ placed_payload R
                       end).
    { subst OS1. destruct (placed_payload R) as [|c P] eqn:HP; [reflexivity|].
      rewrite os_write_past_end; [reflexivity | cbn [os_seek os_data os_pos]; lia
                                  | discriminate]. }
    destruct (IH (placed_offset R + len (placed_payload R)) OS1 H1)
      as (OS' & H' & Hloop & Hwritten).
    + intros R' HR'. apply Hinfo. now right.
    + exact Hch.
    + rewrite Hdata1. destruct (placed_payload R) as [|c P] eqn:HP.
      * unfold len at 2. simpl. lia.
      * rewrite <- HP. rewrite written_len; [lia | lia | congruence].
    + exists OS', H'. split; [exact Hloop|].
      rewrite Hwritten, Hdata1. reflexivity.
Qed.

Lemma len_le_encode (n : nat) (v : Z) : len (le_encode n v) = Z.of_nat n.
Proof. unfold len. now rewrite le_encode_length. Qed.

Lemma records_len (Align : Z) :
  forall (Ts Ps : list bytes) (cursor acc : Z),
    length Ts = length Ps ->
    fold_left (fun hs T => hs + 3 * 8 + len T) Ts acc
    = acc + len (flat_map encode_record (place Align cursor (combine Ts Ps))).
Proof.
  induction Ts as [|T Ts IH]; intros [|P Ps] cursor acc Hlen; simpl in Hlen;
    try discriminate.
  - cbn [fold_left combine place flat_map]. unfold len. simpl. lia.
  - injection Hlen as Hlen.
    cbn [fold_left combine place flat_map fst snd].
    rewrite (IH Ps (round_up cursor Align + len P) _ Hlen).
    rewrite len_app. unfold encode_record at 2.
    cbn [placed_offset placed_payload placed_target].
    rewrite !len_app, !len_le_encode. lia.
Qed.

Lemma binary_header_len (BC : OffloadBundlerConfig) (Inputs : list bytes) :
  length (TargetNames BC) = length Inputs ->
  len (binary_header (placed_bundles BC Inputs)) = header_size (TargetNames BC).
Proof.
  intros Hlen. unfold binary_header, header_size, placed_bundles.
  rewrite (records_len (BundleAlignment BC) _ Inputs
             (header_size (TargetNames BC)) _ Hlen).
  rewrite !len_app, len_le_encode. lia.
Qed.

Lemma placed_lookup (Recs : list PlacedBundle) (R : PlacedBundle) :
  NoDup (map placed_target Recs) ->
  In R Recs ->
  sm_lookup (map info_of Recs) (placed_target R) = Some (snd (info_of R)).
Proof.
  intros Hnd Hin. apply sm_lookup_In.
  - rewrite map_map. exact Hnd.
  - apply (in_map info_of) in Hin. exact Hin.
Qed.

Lemma BundleFiles_Binary {C : Collaborators} (BC : OffloadBundlerConfig)
  (Output : bytes) (Outputs Inputs : list bytes) :
  OutputFileNames BC = Output :: Outputs ->
  can_create Output = true ->
  open_inputs (InputFileNames BC) = Ok Inputs ->
  length (TargetNames BC) = length Inputs ->
  valid_host_input BC (length Inputs) ->
  (forall FirstInput,
     CreateFileHandler FirstInput BC = Ok (Binary (BinaryFileHandler.new BC))) ->
  0 < BundleAlignment BC ->
  fits_64_bits BC Inputs ->
  NoDup (TargetNames BC) ->
  BundleFiles BC = Ok (binary_container BC Inputs).
Proof.
  intros HOut Hcan Hopen Hlen Hhost Hfh Ha Hfit Hnd.
  unfold BundleFiles. rewrite HOut, Hcan, Hopen. cbn [negb bind].
  unfold valid_host_input in Hhost.
  assert (Hassert : negb (HostInputIndex BC =? NoHostIndex) || AllowNoHost BC
                    = true).
  { destruct (AllowNoHost BC); [apply orb_true_r|].
    destruct Hhost as [Hne _]. apply Z.eqb_neq in Hne. now rewrite Hne. }
  rewrite Hassert. cbn [assert bind].
  destruct (nth_error Inputs _) as [FirstInput|] eqn:Hnth.
  2:{ exfalso. apply nth_error_None in Hnth.
      destruct (AllowNoHost BC); [lia|]. destruct Hhost as [_ Hlt]. lia. }
  rewrite Hfh. cbn [bind WriteHeader lift].
  rewrite Binary_WriteHeader by assumption. cbn [bind lift].
  set (Recs := placed_bundles BC Inputs).
  assert (HT : TargetNames BC = map placed_target Recs)
    by (symmetry; apply place_targets; exact Hlen).
  assert (HP : Inputs = map placed_payload Recs)
    by (symmetry; apply place_payloads; exact Hlen).
  destruct (Binary_BundleFiles_loop Recs (header_size (TargetNames BC))
              {| os_data := binary_header Recs;
                 os_pos := len (binary_header Recs) |}
              (BinaryFileHandler.with_BundlesInfo (BinaryFileHandler.new BC)
                 (map info_of Recs)))
    as (OS' & H' & Hloop & Hdata).
  - intros R HR. cbn [BinaryFileHandler.with_BundlesInfo
                      BinaryFileHandler.BundlesInfo].
    apply placed_lookup; [now rewrite <- HT | exact HR].
  - apply place_chained. exact Ha.
  - cbn [os_data]. subst Recs. rewrite binary_header_len by exact Hlen. lia.
  - rewrite <- HT, <- HP in Hloop. rewrite Hloop. cbn [bind].
    rewrite Hdata. reflexivity.
Qed.

(** ** C2: the layout of a binary container *)



Lemma chained_weaken (Recs : list PlacedBundle) (start start' : Z) :
  start' <= start -> chained start Recs -> chained start' Recs.
Proof. destruct Recs as [|R rest]; simpl; [tauto|]. intros ? [? ?]. split; [lia|assumption]. Qed.

Lemma nonempty_payload_in_file :
  forall (Recs : list PlacedBundle) (start : Z) (data : bytes) (R : PlacedBundle),
    chained start Recs ->
    len data <= start ->
    In R Recs ->
    placed_payload R <> [] ->
    placed_offset R + len (placed_payload R) <= len (write_payloads data Recs).
Proof.
  induction Recs as [|R0 rest IH]; intros start data R Hch Hdata Hin Hne;
    [destruct Hin|].
  destruct Hch as [Hoff Hch]. cbn [write_payloads].
  destruct Hin as [->|Hin].
  - destruct (placed_payload R) as [|c P] eqn:HP; [congruence|].
    rewrite <- HP.
    eapply Z.le_trans; [|apply write_payloads_len].
    rewrite written_len; [lia | lia | congruence].
  - apply (IH (placed_offset R0 + len (placed_payload R0))); try assumption.
    destruct (placed_payload R0) as [|c P] eqn:HP.
    + unfold len at 2. simpl. lia.
    + rewrite <- HP. rewrite written_len; [lia | lia | congruence].
Qed.

Lemma chained_last_bound :
  forall (Recs : list PlacedBundle) (start : Z) (data : bytes) (R : PlacedBundle),
    chained start Recs ->
    len data <= start ->
    last_not_empty (map placed_payload Recs) ->
    In R Recs ->
    placed_offset R + len (placed_payload R) <= len (write_payloads data Recs).
Proof.
  induction Recs as [|R0 rest IH]; intros start data R Hch Hdata Hlast Hin;
    [destruct Hin|].
  destruct rest as [|R1 rest'].
  - destruct Hin as [->|[]]. cbn [map last_not_empty] in Hlast.
    apply (nonempty_payload_in_file [R] start); try assumption; now left.
  - assert (Hlast' : last_not_empty (map placed_payload (R1 :: rest')))
      by exact Hlast.
    destruct Hch as [Hoff Hch].
    set (data' := match placed_payload R0 with
                  | [] => data
                  | _ :: _ =>
                      data ++ repeat NUL (Z.to_nat (placed_offset R0)
                                          - length data)
                      ++ placed_payload R0
                  end).
    assert (Hdata' : len data' <= placed_offset R0 + len (placed_payload R0)).
    { subst data'. destruct (placed_payload R0) as [|c P] eqn:HP.
      - unfold len at 2. simpl. lia.
      - rewrite <- HP. rewrite written_len; [lia | lia | congruence]. }
    change (write_payloads data (R0 :: R1 :: rest'))
      with (write_payloads data' (R1 :: rest')).
    destruct Hin as [->|Hin].
    + pose proof (IH _ data' R1 Hch Hdata' Hlast' (or_introl eq_refl)) as H1.
      destruct Hch as [Hoff1 _]. pose proof (len_nonneg (placed_payload R1)).
      lia.
    + exact (IH _ data' R Hch Hdata' Hlast' Hin).
Qed.




(** ** Listing what a handler reads *)

Lemma forEachBundle_Lists {C : Collaborators} (Input : bytes) :
  forall (Ts : list bytes) (FH : FileHandler) (fuel : nat) (outs : bytes),
    Lists Input FH Ts ->
    (forall T, In T Ts -> T <> []) ->
    (length Ts < fuel)%nat ->
    exists FH',
      forEachBundle fuel FH Input (listBundleIDs_Func Input) outs
      = Ok (FH', outs ++ listing Ts).
Proof.
  induction Ts as [|T Ts IH]; intros FH fuel outs HL Hne Hfuel;
    (destruct fuel as [|fuel]; [simpl in Hfuel; lia|]);
    inversion HL; subst; cbn [forEachBundle].
  - match goal with H : ReadBundleStart _ _ = _ |- _ => rewrite H end.
    cbn [bind]. eexists. unfold listing. simpl. now rewrite app_nil_r.
  - match goal with H : ReadBundleStart _ _ = _ |- _ => rewrite H end.
    cbn [bind].
    assert (HT : bytes_eqb T [] = false)
      by (apply bytes_eqb_neq; apply Hne; now left).
    rewrite HT. cbn [negb assert bind]. unfold listBundleIDs_Func at 1.
    match goal with H : listBundleIDsCallback _ _ _ = _ |- _ => rewrite H end.
    cbn [bind].
    destruct (IH FH2 fuel (outs ++ T ++ NL)) as [FH' Hrun];
      [assumption | intros; apply Hne; now right | simpl in Hfuel; lia |].
    exists FH'. rewrite Hrun. unfold listing. cbn [flat_map].
    now rewrite <- !app_assoc.
Qed.

(** ** Unbundling what a handler reads *)

Lemma output_of_In (W : list (bytes * bytes)) (T : bytes) :
  In T (map fst W) -> In (T, output_of W T) W.
Proof.
  unfold output_of. induction W as [|[k o] W IH]; simpl; [tauto|].
  intros Hin. destruct (bytes_eqb k T) eqn:E.
  - apply bytes_eqb_eq in E. subst. now left.
  - right. apply IH. destruct Hin as [->|Hin]; [|exact Hin].
    now rewrite bytes_eqb_refl in E.
Qed.

Lemma find_compatible_self {C : Collaborators} (BC : OffloadBundlerConfig)
  (T : bytes) :
  forall W : list (bytes * bytes),
    In T (map fst W) ->
    (forall T', In T' (map fst W) ->
                (isCodeObjectCompatible (mkOffloadTargetInfo T BC)
                                        (mkOffloadTargetInfo T' BC) = true
                 <-> T = T')) ->
    find_compatible BC T W = Some (T, output_of W T).
Proof.
  unfold find_compatible, output_of.
  induction W as [|[k o] W IH]; intros Hin Hcompat; [destruct Hin|].
  cbn [List.find fst sm_lookup].
  destruct (bytes_eqb k T) eqn:E.
  - apply bytes_eqb_eq in E. subst k.
    rewrite (proj2 (Hcompat T (or_introl eq_refl)) eq_refl). reflexivity.
  - apply bytes_eqb_neq in E.
    destruct (isCodeObjectCompatible _ _) eqn:Hc.
    + exfalso. apply E. symmetry. apply (Hcompat k); [now left | exact Hc].
    + apply IH.
      * destruct Hin as [Hk|Hin]; [simpl in Hk; congruence | exact Hin].
      * intros T' HT'. apply Hcompat. now right.
Qed.

Lemma Worklist_erase_keys (W : list (bytes * bytes)) (T : bytes) :
  NoDup (map fst W) ->
  forall T', In T' (map fst (Worklist_erase W T))
             <-> In T' (map fst W) /\ T' <> T.
Proof.
  induction W as [|[k o] W IH]; intros Hnd T'; cbn [Worklist_erase map fst];
    [simpl; tauto|].
  inversion Hnd as [|? ? Hnotin Hnd']; subst.
  destruct (bytes_eqb k T) eqn:E.
  - apply bytes_eqb_eq in E. subst k. simpl. split.
    + intros Hin. split; [now right | intros ->; contradiction].
    + intros [[->|Hin] Hne]; [congruence | exact Hin].
  - apply bytes_eqb_neq in E. cbn [map fst In]. rewrite (IH Hnd' T').
    split.
    + intros [->|[Hin Hne]]; [split; [now left | exact E] | split; [now right | exact Hne]].
    + intros [[->|Hin] Hne]; [now left | right; now split].
Qed.

Lemma Worklist_erase_NoDup (W : list (bytes * bytes)) (T : bytes) :
  NoDup (map fst W) -> NoDup (map fst (Worklist_erase W T)).
Proof.
  induction W as [|[k o] W IH]; intros Hnd; cbn [Worklist_erase map fst];
    [constructor|].
  inversion Hnd as [|? ? Hnotin Hnd']; subst.
  destruct (bytes_eqb k T); [exact Hnd'|].
  cbn [map fst]. constructor; [|now apply IH].
  intros Hin. apply Worklist_erase_keys in Hin; [|exact Hnd']. tauto.
Qed.

Lemma Worklist_erase_In (W : list (bytes * bytes)) (T : bytes)
  (E : bytes * bytes) :
  In E (Worklist_erase W T) -> In E W.
Proof.
  induction W as [|[k o] W IH]; cbn [Worklist_erase]; [tauto|].
  destruct (bytes_eqb (fst (k, o)) T); [now right|].
  intros [<-|Hin]; [now left | right; now apply IH].
Qed.

Lemma Worklist_erase_output (W : list (bytes * bytes)) (T T' : bytes) :
  T' <> T -> output_of (Worklist_erase W T) T' = output_of W T'.
Proof.
  intros Hne. unfold output_of.
  induction W as [|[k o] W IH]; cbn [Worklist_erase fst]; [reflexivity|].
  destruct (bytes_eqb k T) eqn:E.
  - apply bytes_eqb_eq in E. subst k. cbn [sm_lookup].
    replace (bytes_eqb T T') with false; [reflexivity|].
    symmetry. apply bytes_eqb_neq. congruence.
  - cbn [sm_lookup]. destruct (bytes_eqb k T'); [reflexivity | exact IH].
Qed.

Lemma Unbundle_loop_Reads {C : Collaborators} (BC : OffloadBundlerConfig)
  (Input : bytes) :
  forall (Bs : list (bytes * bytes)) (FH : FileHandler)
         (W : list (bytes * bytes)) (found : bool) (w : Written) (fuel : nat),
    Reads Input FH Bs ->
    NoDup (map fst W) ->
    NoDup (map fst Bs) ->
    (forall T, In T (map fst W) <-> In T (map fst Bs)) ->
    only_self_compatible BC (map fst Bs) ->
    (forall T, In T (map fst Bs) -> T <> []) ->
    (forall E, In E W -> can_create (snd E) = true) ->
    (length Bs < fuel)%nat ->
    Unbundle_loop fuel BC Input FH W found w
    = (w ++ map (extracted W) Bs, Ok ([], found || has_host_bundle BC Bs)).
Proof.
  induction Bs as [|[T P] Bs IH];
    intros FH W found w fuel HR HndW HndB Hkeys Hself Hne Hcan Hfuel.
  - destruct W as [|[k o] W].
    + destruct fuel; simpl; unfold io_ret;
        now rewrite app_nil_r, orb_false_r.
    + exfalso. apply (proj1 (Hkeys k)). now left.
  - inversion HR as [|? FH1 FH2 FH3 ? ? ? Hstart Hread Hend Hrest]; subst.
    destruct fuel as [|fuel]; [simpl in Hfuel; lia|].
    assert (HTW : In T (map fst W)) by (apply Hkeys; now left).
    destruct W as [|E0 W0] eqn:HW; [destruct HTW|]. rewrite <- HW in *.
    assert (Hloop : Unbundle_loop (S fuel) BC Input FH W found w
                    = Unbundle_loop fuel BC Input FH3
                        (Worklist_erase W T)
                        (if hasHostKind (mkOffloadTargetInfo T BC)
                         then true else found)
                        (w ++ [(output_of W T, P)])).
    { rewrite HW at 1. cbn [Unbundle_loop]. rewrite <- HW.
      unfold io_bind at 1. unfold io_lift at 1. rewrite Hstart.
      unfold io_bind at 1. unfold io_lift at 1.
      replace (bytes_eqb T []) with false
        by (symmetry; apply bytes_eqb_neq; apply Hne; now left).
      cbn [negb assert].
      rewrite (find_compatible_self BC T W HTW).
      2:{ intros T' HT'. apply Hself; [now left | now apply Hkeys]. }
      cbn [fst snd].
      unfold io_bind at 1. unfold io_open.
      pose proof (Hcan _ (output_of_In W T HTW)) as Hc. cbn [snd] in Hc.
      rewrite Hc.
      unfold io_bind at 1. unfold io_lift at 1. rewrite Hread.
      unfold io_bind at 1. unfold io_write.
      unfold io_bind at 1. unfold io_lift at 1. rewrite Hend.
      reflexivity. }
    rewrite Hloop.
    inversion HndB as [|? ? HTB HndB']; subst.
    rewrite IH; try assumption.
    + rewrite <- app_assoc. cbn [map app]. f_equal.
      * f_equal. f_equal.
        apply map_ext_in. intros [T' P'] HE. unfold extracted. cbn [fst snd].
        f_equal. apply Worklist_erase_output.
        intros ->. apply HTB. now apply (in_map fst) in HE.
      * f_equal. f_equal. unfold has_host_bundle. cbn [existsb fst].
        destruct (hasHostKind (mkOffloadTargetInfo T BC)), found; reflexivity.
    + now apply Worklist_erase_NoDup.
    + intros T'. rewrite Worklist_erase_keys by assumption.
      rewrite Hkeys. cbn [map fst In]. split.
      * intros [[->|Hin] Hneq]; [congruence | exact Hin].
      * intros Hin. split; [now right | intros ->; contradiction].
    + intros T1 T2 H1 H2. apply Hself; now right.
    + intros T' HT'. apply Hne. now right.
    + intros E HE. apply Hcan. now apply Worklist_erase_In in HE.
    + simpl in Hfuel. lia.
Qed.

(** ** Searching in byte strings *)

Lemma starts_with_app (s r : bytes) : starts_with s (s ++ r) = true.
Proof.
  induction s as [|c s IH]; simpl; [reflexivity|].
  now rewrite Ascii.eqb_refl, IH.
Qed.

Lemma skipn_len_app (pre r : bytes) : skipn (Z.to_nat (len pre)) (pre ++ r) = r.
Proof.
  unfold len. rewrite Nat2Z.id.
  rewrite skipn_app, skipn_all, Nat.sub_diag. reflexivity.
Qed.

Lemma find_first_starts (needle hay : bytes) :
  starts_with needle hay = true -> find_first needle hay = Some 0%nat.
Proof. intros H. destruct hay; cbn [find_first]; now rewrite H. Qed.

Lemma find_here (pre s r : bytes) :
  find (pre ++ s ++ r) s (len pre) = len pre.
Proof.
  unfold find. rewrite len_app.
  pose proof (len_nonneg (s ++ r)).
  replace (len pre + len (s ++ r) <? len pre) with false
    by (symmetry; apply Z.ltb_ge; lia).
  rewrite skipn_len_app, find_first_starts by apply starts_with_app. lia.
Qed.

Lemma find_first_char (c : ascii) (T r : bytes) :
  ~ In c T -> find_first [c] (T ++ c :: r) = Some (length T).
Proof.
  induction T as [|t T IH]; intros Hnot; cbn [find_first starts_with app].
  - now rewrite Ascii.eqb_refl.
  - destruct (Ascii.eqb c t) eqn:E.
    + apply Ascii.eqb_eq in E. subst. exfalso. apply Hnot. now left.
    + cbn [andb]. rewrite IH; [reflexivity|].
      intros Hin. apply Hnot. now right.
Qed.

Lemma find_char (pre T r : bytes) (c : ascii) :
  ~ In c T ->
  find (pre ++ T ++ c :: r) [c] (len pre) = len pre + len T.
Proof.
  intros Hnot. unfold find. rewrite len_app.
  pose proof (len_nonneg (T ++ c :: r)).
  replace (len pre + len (T ++ c :: r) <? len pre) with false
    by (symmetry; apply Z.ltb_ge; lia).
  rewrite skipn_len_app, find_first_char by assumption. reflexivity.
Qed.

(** A pattern without newline that does not start [X] does not start [X]
    followed by a newline and more. *)
Lemma starts_with_before_newline (Q : bytes) :
  newline_free Q ->
  forall X Y : bytes,
    starts_with Q X = false -> starts_with Q (X ++ newline :: Y) = false.
Proof.
  induction Q as [|q Q IH]; intros Hfree X Y; [discriminate|].
  destruct X as [|x X]; cbn [starts_with app].
  - intros _. destruct (Ascii.eqb q newline) eqn:E; [|reflexivity].
    apply Ascii.eqb_eq in E. subst. exfalso. apply Hfree. now left.
  - destruct (Ascii.eqb q x); [|reflexivity]. cbn [andb].
    apply IH. intros Hin. apply Hfree. now right.
Qed.

(** The first occurrence of a marker, a newline and a pattern without
    newline, in a payload without the marker that is followed by the
    marker: the marker that follows. *)
Lemma find_first_marker (E' P r : bytes) :
  newline_free E' ->
  find_first (newline :: E') P = None ->
  find_first (newline :: E') (P ++ newline :: E' ++ r) = Some (length P).
Proof.
  intros Hfree. induction P as [|c P IH]; intros Hnone.
  - cbn [app length]. apply find_first_starts.
    cbn [starts_with]. now rewrite Ascii.eqb_refl, starts_with_app.
  - cbn [find_first] in Hnone.
    destruct (starts_with (newline :: E') (c :: P)) eqn:Hs; [discriminate|].
    destruct (find_first (newline :: E') P) eqn:Hf; [discriminate|].
    cbn [app find_first length].
    replace (starts_with (newline :: E') (c :: P ++ newline :: E' ++ r))
      with false.
    + now rewrite (IH eq_refl).
    + symmetry. cbn [starts_with] in *.
      destruct (Ascii.eqb newline c); [|reflexivity]. cbn [andb] in *.
      now apply starts_with_before_newline.
Qed.

Lemma find_marker (pre E' P r : bytes) :
  newline_free E' ->
  contains P (newline :: E') = false ->
  find (pre ++ P ++ newline :: E' ++ r) (newline :: E') (len pre)
  = len pre + len P.
Proof.
  intros Hfree Hnot. unfold find. rewrite len_app.
  pose proof (len_nonneg (P ++ newline :: E' ++ r)).
  replace (len pre + len (P ++ newline :: E' ++ r) <? len pre) with false
    by (symmetry; apply Z.ltb_ge; lia).
  rewrite skipn_len_app.
  unfold contains in Hnot.
  destruct (find_first (newline :: E') P) eqn:Hf; [discriminate|].
  now rewrite find_first_marker.
Qed.

Lemma slice_middle (pre X r : bytes) :
  slice (pre ++ X ++ r) (len pre) (len X) = Some X.
Proof.
  unfold slice. pose proof (len_nonneg pre). pose proof (len_nonneg X).
  pose proof (len_nonneg r).
  replace (0 <=? len pre) with true by (symmetry; apply Z.leb_le; lia).
  replace (0 <=? len X) with true by (symmetry; apply Z.leb_le; lia).
  replace (len pre + len X <=? len (pre ++ X ++ r)) with true
    by (symmetry; apply Z.leb_le; rewrite !len_app; lia).
  cbn [andb]. rewrite skipn_len_app. unfold len. rewrite Nat2Z.id.
  now rewrite firstn_app, firstn_all, Nat.sub_diag, firstn_O, app_nil_r.
Qed.

Lemma find_past_end (s needle : bytes) :
  needle <> [] -> find s needle (len s) = npos.
Proof.
  intros Hne. unfold find. rewrite Z.ltb_irrefl.
  unfold len. rewrite Nat2Z.id, skipn_all.
  destruct needle as [|c needle]; [congruence|]. reflexivity.
Qed.

(** ** Reading a text container *)

Lemma npos_value : npos = 18446744073709551615.
Proof. reflexivity. Qed.

Lemma Text_ReadBundleStart (H : TextFileHandler.t) (A S' T r : bytes) :
  TextFileHandler.BundleStartString H = newline :: S' ->
  newline_free T ->
  len (A ++ (newline :: S') ++ T ++ newline :: r) < npos ->
  TextFileHandler.ReadBundleStart (TextFileHandler.with_ReadChars H (len A))
    (A ++ (newline :: S') ++ T ++ newline :: r)
  = Ok (Some T,
        TextFileHandler.with_ReadChars H
          (len A + len (newline :: S') + len T + 1)).
Proof.
  intros HS HT Hlen. unfold TextFileHandler.ReadBundleStart.
  cbn [TextFileHandler.with_ReadChars TextFileHandler.ReadChars
       TextFileHandler.BundleStartString].
  rewrite HS. set (S := newline :: S') in *.
  set (FC := A ++ S ++ T ++ newline :: r) in *.
  assert (Hparts : len FC = len A + len S + len T + 1 + len r).
  { subst FC. rewrite !len_app, len_cons. lia. }
  pose proof (len_nonneg A). pose proof (len_nonneg S).
  pose proof (len_nonneg T). pose proof (len_nonneg r).
  rewrite npos_value in *.
  assert (Hf1 : find FC S (len A) = len A) by apply find_here.
  rewrite Hf1.
  replace (len A =? 18446744073709551615) with false
    by (symmetry; apply Z.eqb_neq; lia).
  rewrite (wrap64_small (len A + len S)) by lia.
  assert (Hf2 : find FC NL (len A + len S) = len A + len S + len T).
  { subst FC. rewrite app_assoc. rewrite <- len_app.
    unfold NL. rewrite find_char by exact HT. reflexivity. }
  rewrite Hf2.
  replace (len A + len S + len T =? 18446744073709551615) with false
    by (symmetry; apply Z.eqb_neq; lia).
  rewrite (wrap64_small (len A + len S + len T + 1)) by lia.
  replace (len A + len S + len T - (len A + len S)) with (len T) by lia.
  rewrite (wrap64_small (len T)) by lia.
  assert (Hf3 : slice FC (len A + len S) (len T) = Some T).
  { subst FC. rewrite app_assoc. rewrite <- len_app. apply slice_middle. }
  rewrite Hf3. reflexivity.
Qed.

Lemma Text_ReadBundle (H : TextFileHandler.t) (A E' P r : bytes) :
  TextFileHandler.BundleEndString H = newline :: E' ->
  newline_free E' ->
  contains P (newline :: E') = false ->
  len (A ++ P ++ newline :: E' ++ r) < npos ->
  TextFileHandler.ReadBundle (TextFileHandler.with_ReadChars H (len A))
    (A ++ P ++ newline :: E' ++ r)
  = Ok (P, TextFileHandler.with_ReadChars H (len A + len P)).
Proof.
  intros HE Hfree Hnot Hlen. unfold TextFileHandler.ReadBundle.
  cbn [TextFileHandler.with_ReadChars TextFileHandler.ReadChars
       TextFileHandler.BundleEndString].
  rewrite HE, find_marker by assumption.
  assert (Hparts : len (A ++ P ++ newline :: E' ++ r)
                   = len A + len P + 1 + len E' + len r).
  { rewrite !len_app, len_cons, len_app. lia. }
  pose proof (len_nonneg A). pose proof (len_nonneg P).
  pose proof (len_nonneg E'). pose proof (len_nonneg r).
  rewrite npos_value in *.
  replace (len A + len P - len A) with (len P) by lia.
  rewrite (wrap64_small (len P)) by lia.
  now rewrite slice_middle.
Qed.

Lemma nth_error_len_app (A r : bytes) (c : ascii) :
  nth_error (A ++ c :: r) (Z.to_nat (len A)) = Some c.
Proof.
  unfold len. rewrite Nat2Z.id, nth_error_app2, Nat.sub_diag by lia.
  reflexivity.
Qed.

Lemma Text_ReadBundleEnd (H : TextFileHandler.t) (A X r : bytes) :
  newline_free X ->
  len (A ++ newline :: X ++ newline :: r) < npos ->
  TextFileHandler.ReadBundleEnd (TextFileHandler.with_ReadChars H (len A))
    (A ++ newline :: X ++ newline :: r)
  = Ok (TextFileHandler.with_ReadChars H (len A + 1 + len X + 1)).
Proof.
  intros HX Hlen. unfold TextFileHandler.ReadBundleEnd.
  cbn [TextFileHandler.with_ReadChars TextFileHandler.ReadChars].
  set (FC := A ++ newline :: X ++ newline :: r) in *.
  assert (Hparts : len FC = len A + 1 + len X + 1 + len r).
  { subst FC. rewrite len_app, len_cons, len_app, len_cons. lia. }
  pose proof (len_nonneg A). pose proof (len_nonneg X).
  pose proof (len_nonneg r). rewrite npos_value in *.
  replace (len A <? len FC) with true by (symmetry; apply Z.ltb_lt; lia).
  cbn [assert bind].
  subst FC. rewrite nth_error_len_app, Ascii.eqb_refl. cbn [assert bind].
  rewrite (wrap64_small (len A + 1)) by lia.
  assert (Hf : find (A ++ newline :: X ++ newline :: r) NL (len A + 1)
               = len A + 1 + len X).
  { change (A ++ newline :: X ++ newline :: r)
      with (A ++ [newline] ++ X ++ newline :: r).
    rewrite app_assoc.
    replace (len A + 1) with (len (A ++ [newline]))
      by (rewrite len_app; reflexivity).
    unfold NL. now rewrite find_char. }
  rewrite Hf.
  replace (len A + 1 + len X =? 18446744073709551615) with false
    by (symmetry; apply Z.eqb_neq; lia).
  cbn [negb]. rewrite (wrap64_small (len A + 1 + len X + 1)) by lia.
  reflexivity.
Qed.

Lemma Text_ReadBundleStart_at_end (H : TextFileHandler.t) (FC : bytes) :
  TextFileHandler.BundleStartString H <> [] ->
  TextFileHandler.ReadBundleStart (TextFileHandler.with_ReadChars H (len FC)) FC
  = Ok (None, TextFileHandler.with_ReadChars H npos).
Proof.
  intros HS. unfold TextFileHandler.ReadBundleStart.
  cbn [TextFileHandler.with_ReadChars TextFileHandler.ReadChars
       TextFileHandler.BundleStartString].
  rewrite find_past_end by exact HS. reflexivity.
Qed.

(** Bring nested appends to the right-nested form. *)
Ltac norm_app := repeat first [rewrite <- app_assoc | progress cbn [app]].

Lemma len_nil : len [] = 0.
Proof. reflexivity. Qed.

(** Lengths of appends, by arithmetic. *)
Ltac solve_len :=
  repeat first [rewrite len_app | rewrite len_cons | rewrite len_nil]; lia.

Lemma newline_free_app (a b : bytes) :
  newline_free a -> newline_free b -> newline_free (a ++ b).
Proof.
  unfold newline_free. intros Ha Hb Hin. apply in_app_or in Hin. tauto.
Qed.

Section TextReading.
Context {C : Collaborators}.
Variable H : TextFileHandler.t.
Variables S' E' : bytes.
Hypothesis HS : TextFileHandler.BundleStartString H = newline :: S'.
Hypothesis HE : TextFileHandler.BundleEndString H = newline :: E'.
Hypothesis HE' : newline_free E'.

(** The container cut at one entry: what ends at the start marker, the
    target, the payload, and what follows the entry. *)
Lemma text_entry_parts (T P : bytes) :
  text_entry H (T, P)
  = (newline :: S') ++ T ++ newline :: P ++ newline :: E' ++ T ++ [newline].
Proof.
  unfold text_entry. cbn [fst snd]. rewrite HS, HE. unfold NL.
  norm_app. reflexivity.
Qed.

Lemma Text_Reads :
  forall (Entries : list (bytes * bytes)) (A Input : bytes),
    Input = A ++ text_container H Entries ->
    len Input < npos ->
    Forall (text_safe H) Entries ->
    Reads Input (Text (TextFileHandler.with_ReadChars H (len A))) Entries.
Proof.
  induction Entries as [|[T P] rest IH]; intros A Input HIn Hlen Hsafe.
  - cbn [text_container flat_map] in HIn. rewrite app_nil_r in HIn. subst Input.
    eapply Reads_done. cbn [ReadBundleStart].
    rewrite Text_ReadBundleStart_at_end by (rewrite HS; discriminate).
    reflexivity.
  - inversion Hsafe as [|? ? [HT HP] Hsafe']; subst. cbn [fst snd] in HT, HP.
    rewrite HE in HP.
    set (R := text_container H rest).
    set (Input := A ++ text_container H ((T, P) :: rest)) in *.
    assert (HInput : Input
                     = A ++ (newline :: S') ++ T
                       ++ newline :: P ++ newline :: E' ++ T ++ newline :: R).
    { subst Input R. cbn [text_container flat_map].
      rewrite text_entry_parts. norm_app. reflexivity. }
    set (p1 := len A + len (newline :: S') + len T + 1).
    apply Reads_bundle
      with (FH1 := Text (TextFileHandler.with_ReadChars H p1))
           (FH2 := Text (TextFileHandler.with_ReadChars H (p1 + len P)))
           (FH3 := Text (TextFileHandler.with_ReadChars H
                           (p1 + len P + 1 + len (E' ++ T) + 1))).
    + cbn [ReadBundleStart]. rewrite HInput.
      rewrite Text_ReadBundleStart;
        [reflexivity | exact HS | exact HT | now rewrite <- HInput].
    + cbn [ReadBundle].
      replace p1 with (len (A ++ (newline :: S') ++ T ++ [newline]))
        by (subst p1; solve_len).
      replace Input
        with ((A ++ (newline :: S') ++ T ++ [newline])
              ++ P ++ newline :: E' ++ T ++ newline :: R)
        by (rewrite HInput; norm_app; reflexivity).
      rewrite Text_ReadBundle; try assumption; [reflexivity|].
      replace ((A ++ (newline :: S') ++ T ++ [newline])
               ++ P ++ newline :: E' ++ T ++ newline :: R)
        with Input by (rewrite HInput; norm_app; reflexivity).
      exact Hlen.
    + cbn [ReadBundleEnd].
      replace (p1 + len P)
        with (len (A ++ (newline :: S') ++ T ++ newline :: P))
        by (subst p1; solve_len).
      replace Input
        with ((A ++ (newline :: S') ++ T ++ newline :: P)
              ++ newline :: (E' ++ T) ++ newline :: R)
        by (rewrite HInput; norm_app; reflexivity).
      rewrite Text_ReadBundleEnd; [reflexivity | now apply newline_free_app |].
      replace ((A ++ (newline :: S') ++ T ++ newline :: P)
               ++ newline :: (E' ++ T) ++ newline :: R)
        with Input by (rewrite HInput; norm_app; reflexivity).
      exact Hlen.
    + replace (p1 + len P + 1 + len (E' ++ T) + 1)
        with (len (A ++ text_entry H (T, P))).
      * apply IH; try assumption.
        subst Input. cbn [text_container flat_map]. now rewrite app_assoc.
      * subst p1. rewrite text_entry_parts. solve_len.
Qed.

Lemma Text_Lists :
  forall (Entries : list (bytes * bytes)) (A Input : bytes),
    Input = A ++ text_container H Entries ->
    len Input < npos ->
    Forall (text_safe H) Entries ->
    Lists Input (Text (TextFileHandler.with_ReadChars H (len A)))
          (map fst Entries).
Proof.
  induction Entries as [|[T P] rest IH]; intros A Input HIn Hlen Hsafe.
  - cbn [text_container flat_map] in HIn. rewrite app_nil_r in HIn. subst Input.
    eapply Lists_done. cbn [ReadBundleStart].
    rewrite Text_ReadBundleStart_at_end by (rewrite HS; discriminate).
    reflexivity.
  - inversion Hsafe as [|? ? [HT HP] Hsafe']; subst. cbn [fst snd] in HT, HP.
    rewrite HE in HP.
    set (R := text_container H rest).
    set (Input := A ++ text_container H ((T, P) :: rest)) in *.
    assert (HInput : Input
                     = A ++ (newline :: S') ++ T
                       ++ newline :: P ++ newline :: E' ++ T ++ newline :: R).
    { subst Input R. cbn [text_container flat_map].
      rewrite text_entry_parts. norm_app. reflexivity. }
    set (p1 := len A + len (newline :: S') + len T + 1).
    cbn [map fst].
    apply Lists_bundle
      with (FH1 := Text (TextFileHandler.with_ReadChars H p1))
           (FH2 := Text (TextFileHandler.with_ReadChars H
                           (p1 + len P + 1 + len (E' ++ T) + 1))).
    + cbn [ReadBundleStart]. rewrite HInput.
      rewrite Text_ReadBundleStart;
        [reflexivity | exact HS | exact HT | now rewrite <- HInput].
    + cbn [listBundleIDsCallback].
      unfold TextFileHandler.listBundleIDsCallback.
      cbn [TextFileHandler.with_ReadChars TextFileHandler.ReadChars
           TextFileHandler.BundleEndString].
      rewrite HE.
      assert (Hf : find Input (newline :: E') p1 = p1 + len P).
      { replace p1 with (len (A ++ (newline :: S') ++ T ++ [newline]))
          by (subst p1; solve_len).
        replace Input
          with ((A ++ (newline :: S') ++ T ++ [newline])
                ++ P ++ newline :: E' ++ T ++ newline :: R)
          by (rewrite HInput; norm_app; reflexivity).
        now apply find_marker. }
      rewrite Hf.
      change (TextFileHandler.ReadBundleEnd ?h Input)
        with (TextFileHandler.ReadBundleEnd
                (TextFileHandler.with_ReadChars H (p1 + len P)) Input).
      replace (p1 + len P)
        with (len (A ++ (newline :: S') ++ T ++ newline :: P))
        by (subst p1; solve_len).
      replace Input
        with ((A ++ (newline :: S') ++ T ++ newline :: P)
              ++ newline :: (E' ++ T) ++ newline :: R)
        by (rewrite HInput; norm_app; reflexivity).
      rewrite Text_ReadBundleEnd; [reflexivity | now apply newline_free_app |].
      replace ((A ++ (newline :: S') ++ T ++ newline :: P)
               ++ newline :: (E' ++ T) ++ newline :: R)
        with Input by (rewrite HInput; norm_app; reflexivity).
      exact Hlen.
    + replace (p1 + len P + 1 + len (E' ++ T) + 1)
        with (len (A ++ text_entry H (T, P))).
      * apply IH; try assumption.
        subst Input. cbn [text_container flat_map]. now rewrite app_assoc.
      * subst p1. rewrite text_entry_parts. solve_len.
Qed.

End TextReading.

(** ** Reading a binary container *)

Lemma Read8_at (pre post : bytes) (v : Z) :
  0 <= v < 2 ^ 64 ->
  Read8byteIntegerFromBuffer (pre ++ le_encode 8 v ++ post) (len pre) = v.
Proof.
  intros Hv. unfold Read8byteIntegerFromBuffer. rewrite skipn_len_app.
  rewrite firstn_app, le_encode_length, Nat.sub_diag, firstn_O, app_nil_r.
  rewrite firstn_all2 by (rewrite le_encode_length; lia).
  apply le_decode_encode. exact Hv.
Qed.

(** The fields of the record that starts at the end of [pre]. *)
Lemma record_fields (pre post : bytes) (R : PlacedBundle) :
  0 <= placed_offset R < 2 ^ 64 ->
  len (placed_payload R) < 2 ^ 64 ->
  len (placed_target R) < 2 ^ 64 ->
  let FC := pre ++ encode_record R ++ post in
  Read8byteIntegerFromBuffer FC (len pre) = placed_offset R
  /\ Read8byteIntegerFromBuffer FC (len pre + 8) = len (placed_payload R)
  /\ Read8byteIntegerFromBuffer FC (len pre + 8 + 8) = len (placed_target R)
  /\ slice FC (len pre + 8 + 8 + 8) (len (placed_target R))
     = Some (placed_target R).
Proof.
  intros Hoff HP HT FC. subst FC. unfold encode_record.
  pose proof (len_nonneg (placed_payload R)).
  pose proof (len_nonneg (placed_target R)).
  set (o := le_encode 8 (placed_offset R)).
  set (s := le_encode 8 (len (placed_payload R))).
  set (t := le_encode 8 (len (placed_target R))).
  assert (Ho : len o = 8) by apply len_le_encode.
  assert (Hs : len s = 8) by apply len_le_encode.
  assert (Ht : len t = 8) by apply len_le_encode.
  repeat split.
  - subst o. norm_app. now apply Read8_at.
  - replace (len pre + 8) with (len (pre ++ o)) by solve_len.
    replace (pre ++ (o ++ s ++ t ++ placed_target R) ++ post)
      with ((pre ++ o) ++ s ++ t ++ placed_target R ++ post)
      by (norm_app; reflexivity).
    subst s. apply Read8_at. lia.
  - replace (len pre + 8 + 8) with (len (pre ++ o ++ s)) by solve_len.
    replace (pre ++ (o ++ s ++ t ++ placed_target R) ++ post)
      with ((pre ++ o ++ s) ++ t ++ placed_target R ++ post)
      by (norm_app; reflexivity).
    subst t. apply Read8_at. lia.
  - replace (len pre + 8 + 8 + 8) with (len (pre ++ o ++ s ++ t)) by solve_len.
    replace (pre ++ (o ++ s ++ t ++ placed_target R) ++ post)
      with ((pre ++ o ++ s ++ t) ++ placed_target R ++ post)
      by (norm_app; reflexivity).
    apply slice_middle.
Qed.

Lemma encode_record_len (R : PlacedBundle) :
  len (encode_record R) = 24 + len (placed_target R).
Proof. unfold encode_record. rewrite !len_app, !len_le_encode. lia. Qed.

(** After the payloads are written, each is found at its offset. *)
Lemma payload_at_offset :
  forall (Recs : list PlacedBundle) (start : Z) (data : bytes) (R : PlacedBundle),
    chained start Recs ->
    len data <= start ->
    In R Recs ->
    placed_offset R + len (placed_payload R) <= len (write_payloads data Recs) ->
    slice (write_payloads data Recs) (placed_offset R) (len (placed_payload R))
    = Some (placed_payload R).
Proof.
  induction Recs as [|R0 rest IH]; intros start data R Hch Hdata Hin Hfile;
    [destruct Hin|].
  destruct Hch as [Hoff Hch]. cbn [write_payloads] in *.
  set (data' := match placed_payload R0 with
                | [] => data
                | _ :: _ =>
                    data ++ repeat NUL (Z.to_nat (placed_offset R0) - length data)
                    ++ placed_payload R0
                end) in *.
  pose proof (len_nonneg data) as Hd0.
  assert (Hdata' : len data' <= placed_offset R0 + len (placed_payload R0)).
  { subst data'. destruct (placed_payload R0) as [|c P] eqn:HP.
    - rewrite len_nil. lia.
    - rewrite <- HP. rewrite written_len; [lia | lia | congruence]. }
  destruct Hin as [->|Hin]; [|now apply (IH _ data' R Hch Hdata')].
  destruct (placed_payload R) as [|c P] eqn:HP.
  - unfold slice. rewrite len_nil in *.
    replace (0 <=? placed_offset R) with true by (symmetry; apply Z.leb_le; lia).
    replace (placed_offset R + 0 <=? len (write_payloads data' rest)) with true
      by (symmetry; apply Z.leb_le; lia).
    reflexivity.
  - destruct (write_payloads_prefix rest data') as [body Hbody].
    rewrite Hbody. subst data'.
    set (gap := repeat NUL (Z.to_nat (placed_offset R) - length data)).
    replace ((data ++ gap ++ c :: P) ++ body)
      with ((data ++ gap) ++ (c :: P) ++ body) by (norm_app; reflexivity).
    replace (placed_offset R) with (len (data ++ gap)).
    + apply slice_middle.
    + subst gap. rewrite len_app. unfold len in *. rewrite repeat_length. lia.
Qed.

Lemma with_BundlesInfo_same (H : BinaryFileHandler.t) :
  BinaryFileHandler.with_BundlesInfo H (BinaryFileHandler.BundlesInfo H) = H.
Proof. now destruct H. Qed.

Lemma Binary_ReadHeader_loop {C : Collaborators} :
  forall (todo : list PlacedBundle) (pre post : bytes) (fuel : nat) (i N : Z)
         (H : BinaryFileHandler.t),
    N = i + Z.of_nat (length todo) ->
    (length todo <= fuel)%nat ->
    len (pre ++ flat_map encode_record todo ++ post) < 2 ^ 64 ->
    (forall R, In R todo ->
               0 < placed_offset R
               /\ placed_offset R + len (placed_payload R)
                  <= len (pre ++ flat_map encode_record todo ++ post)) ->
    NoDup (map fst (BinaryFileHandler.BundlesInfo H)
           ++ map placed_target todo) ->
    BinaryFileHandler.ReadHeader_loop fuel
      (pre ++ flat_map encode_record todo ++ post) i N (len pre) H
    = Ok (BinaryFileHandler.with_iterators
            (BinaryFileHandler.with_BundlesInfo H
               (BinaryFileHandler.BundlesInfo H ++ map info_of todo))
            (sm_end (BinaryFileHandler.BundlesInfo H ++ map info_of todo))
            (sm_begin (BinaryFileHandler.BundlesInfo H ++ map info_of todo))).
Proof.
  induction todo as [|R todo IH]; intros pre post fuel i N H HN Hfuel Hlen Hrec
    Hnd.
  - cbn [length Z.of_nat] in HN. rewrite Z.add_0_r in HN. subst N.
    cbn [map]. rewrite app_nil_r, with_BundlesInfo_same.
    destruct fuel; cbn [BinaryFileHandler.ReadHeader_loop];
      rewrite Z.leb_refl; reflexivity.
  - set (FC := pre ++ flat_map encode_record (R :: todo) ++ post) in *.
    assert (HFC : FC = pre ++ encode_record R
                       ++ (flat_map encode_record todo ++ post)).
    { subst FC. cbn [flat_map]. norm_app. reflexivity. }
    destruct (Hrec R (or_introl eq_refl)) as [Hoff Hend].
    pose proof (len_nonneg (placed_payload R)) as HP0.
    pose proof (len_nonneg (placed_target R)) as HT0.
    pose proof (len_nonneg pre) as Hpre0.
    assert (Hsize : len FC = len pre + (24 + len (placed_target R))
                             + len (flat_map encode_record todo ++ post)).
    { rewrite HFC. rewrite !len_app, encode_record_len. lia. }
    pose proof (len_nonneg (flat_map encode_record todo ++ post)) as Hrest0.
    destruct (record_fields pre (flat_map encode_record todo ++ post) R)
      as (Ho & Hs & Ht & Hslice); try lia.
    cbv zeta in Ho, Hs, Ht, Hslice. rewrite <- HFC in Ho, Hs, Ht, Hslice.
    destruct fuel as [|fuel]; [simpl in Hfuel; lia|].
    cbn [BinaryFileHandler.ReadHeader_loop].
    replace (N <=? i) with false
      by (symmetry; apply Z.leb_gt; cbn [length] in HN; lia).
    rewrite (wrap64_small (len pre + 8)) by lia.
    replace (len FC <? len pre + 8) with false
      by (symmetry; apply Z.ltb_ge; lia).
    rewrite (wrap64_small (len pre + 8 + 8)) by lia.
    replace (len FC <? len pre + 8 + 8) with false
      by (symmetry; apply Z.ltb_ge; lia).
    rewrite (wrap64_small (len pre + 8 + 8 + 8)) by lia.
    replace (len FC <? len pre + 8 + 8 + 8) with false
      by (symmetry; apply Z.ltb_ge; lia).
    rewrite Ho, Hs, Ht, Hslice.
    rewrite (wrap64_small (len pre + 8 + 8 + 8 + len (placed_target R))) by lia.
    replace (len FC <? len pre + 8 + 8 + 8 + len (placed_target R)) with false
      by (symmetry; apply Z.ltb_ge; lia).
    replace (placed_offset R =? 0) with false
      by (symmetry; apply Z.eqb_neq; lia).
    rewrite (wrap64_small (placed_offset R + len (placed_payload R))) by lia.
    replace (len FC <? placed_offset R + len (placed_payload R)) with false
      by (symmetry; apply Z.ltb_ge; lia).
    cbn [orb].
    assert (Habs : sm_lookup (BinaryFileHandler.BundlesInfo H)
                             (placed_target R) = None).
    { apply sm_lookup_None. cbn [map] in Hnd. apply NoDup_remove_2 in Hnd.
      intros Hin. apply Hnd. apply in_or_app. now left. }
    unfold sm_contains. rewrite Habs. cbn [negb assert bind].
    rewrite (sm_set_absent _ _ _ Habs).
    set (H1 := BinaryFileHandler.with_BundlesInfo H _).
    replace (len pre + 8 + 8 + 8 + len (placed_target R))
      with (len (pre ++ encode_record R))
      by (rewrite len_app, encode_record_len; lia).
    replace FC with ((pre ++ encode_record R)
                     ++ flat_map encode_record todo ++ post)
      by (rewrite HFC; norm_app; reflexivity).
    rewrite (IH (pre ++ encode_record R) post fuel (i + 1) N H1).
    + subst H1. cbn [BinaryFileHandler.with_BundlesInfo
                     BinaryFileHandler.BundlesInfo map].
      rewrite <- app_assoc. reflexivity.
    + cbn [length] in HN. lia.
    + simpl in Hfuel. lia.
    + replace ((pre ++ encode_record R) ++ flat_map encode_record todo ++ post)
        with FC by (rewrite HFC; norm_app; reflexivity).
      exact Hlen.
    + intros R' HR'.
      replace ((pre ++ encode_record R) ++ flat_map encode_record todo ++ post)
        with FC by (rewrite HFC; norm_app; reflexivity).
      apply Hrec. now right.
    + subst H1. cbn [BinaryFileHandler.with_BundlesInfo
                     BinaryFileHandler.BundlesInfo].
      rewrite map_app. cbn [map fst info_of]. rewrite <- app_assoc. exact Hnd.
Qed.

Lemma records_count (Recs : list PlacedBundle) :
  Z.of_nat (length Recs) <= len (flat_map encode_record Recs).
Proof.
  induction Recs as [|R Recs IH]; cbn [length flat_map]; [rewrite len_nil; lia|].
  rewrite len_app, encode_record_len. pose proof (len_nonneg (placed_target R)).
  lia.
Qed.

Lemma Binary_ReadHeader {C : Collaborators} (BC : OffloadBundlerConfig)
  (Recs : list PlacedBundle) (body : bytes) :
  len (binary_header Recs ++ body) < 2 ^ 64 ->
  (forall R, In R Recs ->
             0 < placed_offset R
             /\ placed_offset R + len (placed_payload R)
                <= len (binary_header Recs ++ body)) ->
  NoDup (map placed_target Recs) ->
  BinaryFileHandler.ReadHeader (BinaryFileHandler.new BC)
    (binary_header Recs ++ body)
  = Ok (BinaryFileHandler.with_iterators
          (BinaryFileHandler.with_BundlesInfo (BinaryFileHandler.new BC)
             (map info_of Recs))
          (sm_end (map info_of Recs)) (sm_begin (map info_of Recs))).
Proof.
  intros Hlen Hrec Hnd.
  set (n := le_encode 8 (Z.of_nat (length Recs))).
  set (FC := binary_header Recs ++ body) in *.
  assert (HFC : FC = (OFFLOAD_BUNDLER_MAGIC_STR ++ n)
                     ++ flat_map encode_record Recs ++ body).
  { subst FC. unfold binary_header. fold n. norm_app. reflexivity. }
  assert (Hmagic : len OFFLOAD_BUNDLER_MAGIC_STR = 24) by reflexivity.
  assert (Hn : len n = 8) by apply len_le_encode.
  pose proof (records_count Recs) as Hcount.
  pose proof (len_nonneg body) as Hbody.
  assert (Hsize : len FC = 32 + len (flat_map encode_record Recs) + len body).
  { rewrite HFC. rewrite !len_app. lia. }
  unfold BinaryFileHandler.ReadHeader.
  cbn [BinaryFileHandler.new BinaryFileHandler.BundlesInfo sm_end
       BinaryFileHandler.with_iterators BinaryFileHandler.NextBundleInfo
       BinaryFileHandler.CurWriteBundleTarget BinaryFileHandler.BundlerConfig].
  rewrite Hmagic.
  replace (len FC <? 24) with false by (symmetry; apply Z.ltb_ge; lia).
  assert (Hfirst : firstn (length OFFLOAD_BUNDLER_MAGIC_STR) FC
                   = OFFLOAD_BUNDLER_MAGIC_STR).
  { rewrite HFC. rewrite <- app_assoc.
    rewrite firstn_app, Nat.sub_diag, firstn_O, app_nil_r.
    now rewrite firstn_all. }
  rewrite Hfirst, bytes_eqb_refl. cbn [negb].
  rewrite (wrap64_small (24 + 8)) by (vm_compute; split; congruence).
  replace (len FC <? 24 + 8) with false by (symmetry; apply Z.ltb_ge; lia).
  assert (HN : Read8byteIntegerFromBuffer FC 24 = Z.of_nat (length Recs)).
  { rewrite HFC, <- Hmagic. rewrite <- app_assoc. subst n.
    apply Read8_at. lia. }
  rewrite HN.
  replace (24 + 8) with (len (OFFLOAD_BUNDLER_MAGIC_STR ++ n))
    by (rewrite len_app; lia).
  rewrite HFC.
  rewrite (Binary_ReadHeader_loop Recs (OFFLOAD_BUNDLER_MAGIC_STR ++ n) body).
  - reflexivity.
  - lia.
  - rewrite <- HFC. unfold len in *. lia.
  - now rewrite <- HFC.
  - intros R HR. rewrite <- HFC. now apply Hrec.
  - exact Hnd.
Qed.

Lemma sm_lookup_records {V : Type} (g : PlacedBundle -> V)
  (Recs : list PlacedBundle) (k : bytes) :
  sm_lookup (map (fun R => (placed_target R, g R)) Recs) k
  = option_map g (find_record Recs k).
Proof.
  induction Recs as [|R Recs IH]; cbn [map sm_lookup find_record];
    [reflexivity|].
  destruct (bytes_eqb (placed_target R) k); [reflexivity | exact IH].
Qed.

Lemma find_record_In (Recs : list PlacedBundle) (k : bytes) (R : PlacedBundle) :
  find_record Recs k = Some R -> In R Recs /\ placed_target R = k.
Proof.
  induction Recs as [|R0 Recs IH]; cbn [find_record]; [discriminate|].
  destruct (bytes_eqb (placed_target R0) k) eqn:E.
  - intros [= <-]. apply bytes_eqb_eq in E. split; [now left | exact E].
  - intros Hf. destruct (IH Hf). split; [now right | assumption].
Qed.

Lemma sm_entries_records {C : Collaborators} {V : Type}
  (g : PlacedBundle -> V) (Recs : list PlacedBundle) :
  sm_entries (map (fun R => (placed_target R, g R)) Recs)
  = map (fun R => (placed_target R, g R)) (in_iteration_order Recs).
Proof.
  unfold sm_entries, in_iteration_order.
  rewrite map_map. cbn [fst].
  induction (StringMap_order (map placed_target Recs)) as [|k ks IH];
    [reflexivity|].
  cbn [flat_map]. rewrite map_app, IH. f_equal.
  rewrite sm_lookup_records.
  destruct (find_record Recs k) as [R|] eqn:Hf; [|reflexivity].
  apply find_record_In in Hf as [_ <-]. reflexivity.
Qed.

Lemma in_iteration_order_In {C : Collaborators} (Recs : list PlacedBundle)
  (R : PlacedBundle) :
  In R (in_iteration_order Recs) -> In R Recs.
Proof.
  unfold in_iteration_order. intros Hin. apply in_flat_map in Hin.
  destruct Hin as (k & _ & Hk).
  destruct (find_record Recs k) as [R'|] eqn:Hf; [|destruct Hk].
  destruct Hk as [<-|[]]. now apply find_record_In in Hf.
Qed.

Lemma sm_end_nonempty {C : Collaborators} {V : Type} (m : StringMap V) :
  m <> [] -> sm_end m = IterAt (length (sm_entries m)).
Proof. destruct m; [congruence | reflexivity]. Qed.

Lemma sm_begin_nonempty {C : Collaborators} {V : Type} (m : StringMap V) :
  m <> [] -> sm_begin m = IterAt 0.
Proof. destruct m; [congruence | reflexivity]. Qed.

Lemma Binary_Reads_from {C : Collaborators} (FC : bytes)
  (H : BinaryFileHandler.t) (ordered : list PlacedBundle) :
  sm_entries (BinaryFileHandler.BundlesInfo H) = map info_of ordered ->
  BinaryFileHandler.BundlesInfo H <> [] ->
  (forall R, In R ordered ->
             slice FC (placed_offset R) (len (placed_payload R))
             = Some (placed_payload R)) ->
  forall (n i : nat) (cur : StringMapIterator),
    (i + n = length ordered)%nat ->
    Reads FC (Binary (BinaryFileHandler.with_iterators H cur (IterAt i)))
          (map entry_of (skipn i ordered)).
Proof.
  intros Hents Hne Hslice.
  assert (Hend : sm_end (BinaryFileHandler.BundlesInfo H)
                 = IterAt (length ordered)).
  { rewrite sm_end_nonempty by exact Hne. now rewrite Hents, length_map. }
  induction n as [|n IH]; intros i cur Hi.
  - rewrite Nat.add_0_r in Hi. subst i. rewrite skipn_all. cbn [map].
    eapply Reads_done. cbn [ReadBundleStart].
    unfold BinaryFileHandler.ReadBundleStart.
    cbn [BinaryFileHandler.with_iterators BinaryFileHandler.NextBundleInfo
         BinaryFileHandler.BundlesInfo].
    rewrite Hend. cbn [iter_eqb]. rewrite Nat.eqb_refl. reflexivity.
  - assert (Hlt : (i < length ordered)%nat) by lia.
    destruct (nth_error ordered i) as [R|] eqn:Hnth;
      [|apply nth_error_None in Hnth; lia].
    assert (Hskip : skipn i ordered = R :: skipn (S i) ordered).
    { clear - Hnth. revert i Hnth.
      induction ordered as [|R0 rest IH]; intros [|i] Hnth;
        try discriminate; cbn [nth_error] in Hnth.
      - now injection Hnth as ->.
      - cbn [skipn]. rewrite (IH i Hnth). reflexivity. }
    rewrite Hskip. cbn [map]. unfold entry_of at 1.
    set (h1 := BinaryFileHandler.with_iterators H (IterAt i) (IterAt (S i))).
    assert (Hneq : iter_eqb (IterAt i) (IterAt (length ordered)) = false)
      by (cbn [iter_eqb]; apply Nat.eqb_neq; lia).
    assert (Hentry : nth_error (sm_entries (BinaryFileHandler.BundlesInfo H)) i
                     = Some (info_of R))
      by (rewrite Hents; now apply map_nth_error).
    apply Reads_bundle with (FH1 := Binary h1) (FH2 := Binary h1)
                            (FH3 := Binary h1).
    + cbn [ReadBundleStart]. unfold BinaryFileHandler.ReadBundleStart.
      cbn [BinaryFileHandler.with_iterators BinaryFileHandler.NextBundleInfo
           BinaryFileHandler.BundlesInfo].
      rewrite Hend, Hneq, Hentry. reflexivity.
    + cbn [ReadBundle]. unfold BinaryFileHandler.ReadBundle,
        BinaryFileHandler.current. subst h1.
      cbn [BinaryFileHandler.with_iterators BinaryFileHandler.CurBundleInfo
           BinaryFileHandler.BundlesInfo].
      rewrite Hend, Hneq, Hentry. cbn [negb assert bind info_of].
      cbn [BinaryFileHandler.Offset BinaryFileHandler.Size].
      rewrite Hslice by (eapply nth_error_In; exact Hnth). reflexivity.
    + cbn [ReadBundleEnd]. unfold BinaryFileHandler.ReadBundleEnd. subst h1.
      cbn [BinaryFileHandler.with_iterators BinaryFileHandler.CurBundleInfo
           BinaryFileHandler.BundlesInfo].
      rewrite Hend, Hneq. reflexivity.
    + subst h1. apply (IH (S i) (IterAt i)). lia.
Qed.

(** In every handler, the callback of the listing leaves the handler where
    reading the bundle and its end leaves it. *)
Lemma callback_after_read {C : Collaborators} (Input T P : bytes)
  (FH1 FH2 FH3 : FileHandler) :
  ReadBundle FH1 Input = Ok (P, FH2) ->
  ReadBundleEnd FH2 Input = Ok FH3 ->
  listBundleIDsCallback FH1 Input T = Ok FH3.
Proof.
  destruct FH1 as [h|h|h]; cbn [ReadBundle listBundleIDsCallback].
  - unfold BinaryFileHandler.ReadBundle.
    destruct (assert _ _) eqn:Ha; try discriminate. cbn [bind].
    destruct (BinaryFileHandler.current h) as [[k BI]|]; try discriminate.
    destruct (slice _ _ _); try discriminate.
    cbn [lift bind]. intros [= _ <-]. cbn [ReadBundleEnd].
    unfold BinaryFileHandler.ReadBundleEnd. rewrite Ha. cbn [bind lift1].
    now intros [= <-].
  - unfold ObjectFileHandler.ReadBundle.
    destruct (nth_error _ _) as [[name Content]|]; try discriminate.
    cbn [lift bind]. intros [= _ <-]. cbn [ReadBundleEnd].
    unfold ObjectFileHandler.ReadBundleEnd. cbn [bind lift1].
    now intros [= <-].
  - unfold TextFileHandler.ReadBundle, TextFileHandler.listBundleIDsCallback.
    destruct (slice _ _ _); try discriminate.
    cbn [lift bind]. intros [= _ <-]. cbn [ReadBundleEnd]. tauto.
Qed.

Lemma Reads_Lists {C : Collaborators} (Input : bytes) (FH : FileHandler)
  (Bs : list (bytes * bytes)) :
  Reads Input FH Bs -> Lists Input FH (map fst Bs).
Proof.
  induction 1 as [FH FH' Hstart | FH FH1 FH2 FH3 T P Bs Hstart Hread Hend _ IH].
  - eapply Lists_done; exact Hstart.
  - cbn [map fst]. eapply Lists_bundle; [exact Hstart | | exact IH].
    eapply callback_after_read; eassumption.
Qed.

Lemma write_payloads_place_bound (Align : Z) :
  0 < Align ->
  forall (Entries : list (bytes * bytes)) (cursor : Z) (data : bytes),
    len data <= cursor ->
    len (write_payloads data (place Align cursor Entries))
    <= place_end Align cursor Entries.
Proof.
  intros Ha. induction Entries as [|E rest IH]; intros cursor data Hdata;
    cbn [place write_payloads place_end placed_payload placed_offset];
    [exact Hdata|].
  apply IH. pose proof (round_up_ge cursor Align Ha) as Hge.
  pose proof (len_nonneg data) as Hd.
  destruct (snd E) as [|c P] eqn:HP.
  - rewrite len_nil. lia.
  - rewrite !len_app. unfold len in *. rewrite repeat_length. lia.
Qed.

Lemma chained_ge :
  forall (Recs : list PlacedBundle) (start : Z) (R : PlacedBundle),
    chained start Recs -> In R Recs -> start <= placed_offset R.
Proof.
  induction Recs as [|R0 rest IH]; intros start R Hch Hin; [destruct Hin|].
  destruct Hch as [Hoff Hch]. destruct Hin as [->|Hin]; [exact Hoff|].
  pose proof (IH _ R Hch Hin). pose proof (len_nonneg (placed_payload R0)).
  lia.
Qed.

Lemma place_entries (Align : Z) :
  forall (Entries : list (bytes * bytes)) (cursor : Z),
    map entry_of (place Align cursor Entries) = Entries.
Proof.
  induction Entries as [|[T P] rest IH]; intros cursor; cbn [place map];
    [reflexivity|].
  rewrite IH. reflexivity.
Qed.

Lemma sm_entries_nil {C : Collaborators} {V : Type} :
  sm_entries (@nil (bytes * V)) = [].
Proof.
  unfold sm_entries. cbn [map].
  induction (StringMap_order []) as [|k ks IH]; [reflexivity|].
  cbn [flat_map sm_lookup app]. exact IH.
Qed.

(** The handler reads back from the binary container what was put into it,
    in the order in which the map of the bundles is iterated. *)
Lemma Binary_container_Reads {C : Collaborators} (BC BC' : OffloadBundlerConfig)
  (Inputs : list bytes) :
  length (TargetNames BC) = length Inputs ->
  0 < BundleAlignment BC ->
  fits_64_bits BC Inputs ->
  NoDup (TargetNames BC) ->
  last_not_empty Inputs ->
  exists H : BinaryFileHandler.t,
    BinaryFileHandler.ReadHeader (BinaryFileHandler.new BC')
                                 (binary_container BC Inputs) = Ok H
    /\ Reads (binary_container BC Inputs) (Binary H)
             (sm_entries (combine (TargetNames BC) Inputs)).
Proof.
  intros Hlen Ha Hfit Hnd Hlast.
  unfold binary_container.
  assert (Hhdr : len (binary_header (placed_bundles BC Inputs))
                 <= header_size (TargetNames BC))
    by (rewrite binary_header_len by exact Hlen; lia).
  pose proof (write_payloads_place_bound (BundleAlignment BC) Ha
                (combine (TargetNames BC) Inputs)
                (header_size (TargetNames BC))
                (binary_header (placed_bundles BC Inputs)) Hhdr) as Hb.
  fold (placed_bundles BC Inputs) in Hb.
  assert (Hch : chained (header_size (TargetNames BC)) (placed_bundles BC Inputs))
    by (apply place_chained; exact Ha).
  assert (HT : map placed_target (placed_bundles BC Inputs) = TargetNames BC)
    by (apply place_targets; exact Hlen).
  assert (HP : map placed_payload (placed_bundles BC Inputs) = Inputs)
    by (apply place_payloads; exact Hlen).
  assert (HE : map entry_of (placed_bundles BC Inputs)
               = combine (TargetNames BC) Inputs)
    by apply place_entries.
  unfold fits_64_bits in Hfit.
  generalize dependent (placed_bundles BC Inputs). intros Recs Hhdr Hb Hch HT HP HE.
  set (FC := write_payloads (binary_header Recs) Recs) in *.
  assert (Hin : forall R, In R Recs ->
                  placed_offset R + len (placed_payload R) <= len FC).
  { intros R HR. rewrite <- HP in Hlast.
    now apply chained_last_bound with (start := header_size (TargetNames BC)). }
  assert (Hsize : len FC < 2 ^ 64) by lia.
  assert (Hpos : forall R, In R Recs -> 0 < placed_offset R).
  { intros R HR. pose proof (chained_ge _ _ R Hch HR) as Hge.
    pose proof (header_size_ge (TargetNames BC)
                  (len OFFLOAD_BUNDLER_MAGIC_STR + 8)) as Hh.
    fold (header_size (TargetNames BC)) in Hh.
    assert (len OFFLOAD_BUNDLER_MAGIC_STR = 24) by reflexivity. lia. }
  destruct (write_payloads_prefix Recs (binary_header Recs)) as [body Hbody].
  fold FC in Hbody.
  eexists. split.
  - rewrite Hbody. apply Binary_ReadHeader.
    + rewrite <- Hbody. exact Hsize.
    + intros R HR. rewrite <- Hbody. split; [now apply Hpos | now apply Hin].
    + rewrite HT. exact Hnd.
  - rewrite <- HE.
    change (map entry_of Recs)
      with (map (fun R => (placed_target R, placed_payload R)) Recs).
    rewrite sm_entries_records.
    assert (Hcase : Recs = [] \/ Recs <> [])
      by (destruct Recs; [now left | now right]).
    destruct Hcase as [Hnil|Hne].
    + rewrite Hnil. cbn [map sm_begin sm_end]. unfold in_iteration_order.
      cbn [map].
      replace (flat_map _ (StringMap_order [])) with (@nil PlacedBundle).
      * eapply Reads_done. cbn [ReadBundleStart].
        unfold BinaryFileHandler.ReadBundleStart. cbn. reflexivity.
      * induction (StringMap_order []) as [|k ks IH]; [reflexivity|].
        cbn [flat_map find_record app]. exact IH.
    + assert (Hne' : map info_of Recs <> [])
        by (destruct Recs; [congruence | discriminate]).
      rewrite sm_begin_nonempty by exact Hne'.
      change (map (fun R => (placed_target R, placed_payload R))
                  (in_iteration_order Recs))
        with (map entry_of (skipn 0 (in_iteration_order Recs))).
      apply Binary_Reads_from with (n := length (in_iteration_order Recs)).
      * cbn [BinaryFileHandler.with_BundlesInfo BinaryFileHandler.BundlesInfo].
        change (map info_of Recs)
          with (map (fun R => (placed_target R, snd (info_of R))) Recs).
        rewrite sm_entries_records. reflexivity.
      * cbn [BinaryFileHandler.with_BundlesInfo BinaryFileHandler.BundlesInfo].
        exact Hne'.
      * intros R HR. apply in_iteration_order_In in HR.
        apply payload_at_offset with (start := header_size (TargetNames BC));
          auto.
      * reflexivity.
Qed.

(** ** Listing and unbundling what a handler reads *)

Lemma sm_lookup_Some_In {V : Type} (m : StringMap V) (k : bytes) (v : V) :
  sm_lookup m k = Some v -> In (k, v) m.
Proof.
  induction m as [|[k' v'] m IH]; cbn [sm_lookup]; [discriminate|].
  destruct (bytes_eqb k' k) eqn:E.
  - intros [= ->]. apply bytes_eqb_eq in E. subst. now left.
  - intros Hl. right. now apply IH.
Qed.

Lemma sm_lookup_entries {C : Collaborators} {V : Type} (m : StringMap V)
  (k : bytes) :
  NoDup (map fst m) ->
  Permutation (StringMap_order (map fst m)) (map fst m) ->
  sm_lookup (sm_entries m) k = sm_lookup m k.
Proof.
  intros Hnd Hord.
  pose proof (sm_entries_Permutation m Hnd Hord) as Hperm.
  destruct (sm_lookup m k) as [v|] eqn:Hl.
  - apply sm_lookup_In.
    + eapply Permutation_NoDup; [|exact Hnd].
      apply Permutation_map, Permutation_sym, Hperm.
    + eapply Permutation_in; [apply Permutation_sym, Hperm|].
      now apply sm_lookup_Some_In.
  - apply sm_lookup_None. apply sm_lookup_None in Hl. intros Hin. apply Hl.
    eapply Permutation_in; [apply Permutation_map, Hperm | exact Hin].
Qed.

Lemma sm_entries_keys {C : Collaborators} {V : Type} (m : StringMap V) :
  Permutation (StringMap_order (map fst m)) (map fst m) ->
  map fst (sm_entries m) = StringMap_order (map fst m).
Proof.
  intros Hord. unfold sm_entries.
  assert (Hin : forall k, In k (StringMap_order (map fst m)) ->
                          In k (map fst m))
    by (intros k; apply Permutation_in, Hord).
  clear Hord.
  induction (StringMap_order (map fst m)) as [|k ks IH]; [reflexivity|].
  cbn [flat_map]. rewrite map_app, IH by (intros; apply Hin; now right).
  destruct (sm_lookup m k) as [v|] eqn:Hl; [reflexivity|].
  exfalso. apply sm_lookup_None in Hl. apply Hl, Hin. now left.
Qed.

Lemma In_combine_app (A D : Type) (pre : list A) (pre' : list D)
  (a : A) (d : D) (l : list A) (l' : list D) :
  length pre = length pre' ->
  In (a, d) (combine (pre ++ a :: l) (pre' ++ d :: l')).
Proof.
  revert pre'. induction pre as [|x pre IH]; intros [|y pre'] Hlen;
    simpl in Hlen; try discriminate.
  - now left.
  - right. apply IH. lia.
Qed.

(** Each payload goes to the output that stands where its target stands. *)
Lemma extracted_combine :
  forall (Ts Outs Ps preT preO : list bytes),
    length preT = length preO ->
    length Ts = length Outs ->
    length Ts = length Ps ->
    NoDup (preT ++ Ts) ->
    map (extracted (combine (preT ++ Ts) (preO ++ Outs))) (combine Ts Ps)
    = combine Outs Ps.
Proof.
  induction Ts as [|T Ts IH]; intros [|O Outs] [|P Ps] preT preO Hpre HO HP Hnd;
    simpl in HO, HP; try discriminate; [reflexivity|].
  cbn [combine map]. f_equal.
  - unfold extracted, output_of. cbn [fst snd].
    rewrite (sm_lookup_In _ T O); [reflexivity| |].
    + rewrite map_fst_combine; [exact Hnd|].
      rewrite !length_app. simpl. lia.
    + now apply In_combine_app.
  - replace (preT ++ T :: Ts) with ((preT ++ [T]) ++ Ts)
      by now rewrite <- app_assoc.
    replace (preO ++ O :: Outs) with ((preO ++ [O]) ++ Outs)
      by now rewrite <- app_assoc.
    apply IH; try lia.
    + rewrite !length_app. simpl. lia.
    + now rewrite <- app_assoc.
Qed.

Lemma ListBundleIDsInFile_Lists {C : Collaborators} (BC : OffloadBundlerConfig)
  (Stored Input : bytes) (FH0 FH : FileHandler) (Ts : list bytes) :
  getFileOrSTDIN Stored = Some Input ->
  CreateFileHandler Input BC = Ok FH0 ->
  ReadHeader FH0 Input = Ok FH ->
  Lists Input FH Ts ->
  (forall T, In T Ts -> T <> []) ->
  (length Ts <= bundle_bound FH Input)%nat ->
  ListBundleIDsInFile Stored BC = Ok (listing Ts).
Proof.
  intros Hfile Hfh Hhdr HL Hne Hbound.
  unfold ListBundleIDsInFile. rewrite Hfile, Hfh. cbn [bind].
  unfold listBundleIDs. rewrite Hhdr. cbn [bind].
  destruct (forEachBundle_Lists Input Ts FH (S (bundle_bound FH Input)) []
              HL Hne) as [FH' Hrun]; [lia|].
  rewrite Hrun. reflexivity.
Qed.

Lemma has_host_bundle_In {C : Collaborators} (BC : OffloadBundlerConfig)
  (Bs : list (bytes * bytes)) (T : bytes) :
  In T (map fst Bs) ->
  hasHostKind (mkOffloadTargetInfo T BC) = true ->
  has_host_bundle BC Bs = true.
Proof.
  intros Hin Hhost. unfold has_host_bundle. apply existsb_exists.
  apply in_map_iff in Hin. destruct Hin as (E & <- & HE).
  exists E. split; assumption.
Qed.

(** Unbundling an input in which the handler reads one bundle for each
    requested target, and no other bundle. *)
Lemma UnbundleFiles_Reads {C : Collaborators} (BC : OffloadBundlerConfig)
  (Stored Input : bytes) (rest : list bytes) (FH0 FH : FileHandler)
  (Bs : list (bytes * bytes)) :
  InputFileNames BC = Stored :: rest ->
  getFileOrSTDIN Stored = Some Input ->
  CreateFileHandler Input BC = Ok FH0 ->
  ReadHeader FH0 Input = Ok FH ->
  Reads Input FH Bs ->
  Permutation (map fst Bs) (TargetNames BC) ->
  (length Bs <= bundle_bound FH Input)%nat ->
  NoDup (TargetNames BC) ->
  length (TargetNames BC) = length (OutputFileNames BC) ->
  Permutation (StringMap_order (TargetNames BC)) (TargetNames BC) ->
  only_self_compatible BC (TargetNames BC) ->
  (forall T, In T (TargetNames BC) -> T <> []) ->
  (forall O, In O (OutputFileNames BC) -> can_create O = true) ->
  (HostInputIndex BC = NoHostIndex
   \/ AllowMissingBundles BC = true
   \/ exists T, In T (TargetNames BC)
                /\ hasHostKind (mkOffloadTargetInfo T BC) = true) ->
  UnbundleFiles BC
  = (map (extracted (combine (TargetNames BC) (OutputFileNames BC))) Bs,
     Ok tt).
Proof.
  intros HIn Hfile Hfh Hhdr HR HBs Hbound Hnd Hlen Hord Hself Hne Hcan Hhost.
  set (W := combine (TargetNames BC) (OutputFileNames BC)).
  assert (Hkeys : map fst W = TargetNames BC)
    by (apply map_fst_combine; lia).
  assert (Hperm : Permutation (sm_entries W) W).
  { apply sm_entries_Permutation; rewrite Hkeys; assumption. }
  assert (HW : forall T, In T (map fst (sm_entries W))
                         <-> In T (TargetNames BC)).
  { intros T. rewrite <- Hkeys. split; apply Permutation_in;
      [|apply Permutation_sym]; apply Permutation_map, Hperm. }
  assert (HB : forall T, In T (map fst Bs) <-> In T (TargetNames BC)).
  { intros T. split; apply Permutation_in;
      [|apply Permutation_sym]; exact HBs. }
  assert (Hloop :
    Unbundle_loop (S (bundle_bound FH Input)) BC Input FH (sm_entries W)
                  false []
    = (map (extracted W) Bs, Ok ([], has_host_bundle BC Bs))).
  { rewrite (Unbundle_loop_Reads BC Input Bs); try assumption.
    - cbn [app orb]. f_equal. apply map_ext. intros [T P].
      unfold extracted, output_of. cbn [fst snd].
      rewrite sm_lookup_entries by (rewrite Hkeys; assumption).
      reflexivity.
    - eapply Permutation_NoDup; [|rewrite <- Hkeys in Hnd; exact Hnd].
      apply Permutation_map, Permutation_sym, Hperm.
    - eapply Permutation_NoDup; [apply Permutation_sym, HBs | exact Hnd].
    - intros T. rewrite HW, HB. tauto.
    - intros T T' HT HT'. apply Hself; now apply HB.
    - intros T HT. apply Hne. now apply HB.
    - intros E HE. apply Hcan.
      apply (Permutation_in _ Hperm) in HE. destruct E as [T O].
      now apply in_combine_r in HE.
    - lia. }
  unfold UnbundleFiles, UnbundleFiles_io. rewrite HIn, Hfile.
  unfold io_bind at 1. unfold io_lift at 1. rewrite Hfh.
  unfold io_bind at 1. unfold io_lift at 1. rewrite Hhdr.
  unfold io_bind at 1. unfold io_lift at 1.
  rewrite Worklist_init_NoDup by (simpl; assumption || lia).
  cbn [app]. fold W.
  unfold io_bind at 1. rewrite Hloop.
  cbn [length Nat.eqb negb andb]. rewrite andb_false_r.
  destruct (TargetNames BC) as [|T0 Ts] eqn:HTs.
  - reflexivity.
  - cbn [length Nat.eqb].
    assert (Hcond : has_host_bundle BC Bs
                    || (HostInputIndex BC =? NoHostIndex)
                    || AllowMissingBundles BC = true).
    { destruct Hhost as [Hno|[Hallow|(T & HT & Hk)]].
      - rewrite Hno, Z.eqb_refl. now rewrite orb_true_r.
      - rewrite Hallow. now rewrite orb_true_r.
      - rewrite (has_host_bundle_In BC Bs T); [reflexivity| |exact Hk].
        now apply HB. }
    rewrite Hcond. reflexivity.
Qed.

(** ** The handler of a file type *)

Ltac handler_cases :=
  repeat match goal with
         | |- context [if bytes_eqb ?a ?b then _ else _] =>
             destruct (bytes_eqb a b)
         end.

Lemma CreateFileHandler_Text {C : Collaborators} (FirstInput : bytes)
  (BC : OffloadBundlerConfig) (H : TextFileHandler.t) :
  CreateFileHandler FirstInput BC = Ok (Text H) ->
  H = TextFileHandler.new (B "//") \/ H = TextFileHandler.new (B "#")
  \/ H = TextFileHandler.new (B ";").
Proof.
  unfold CreateFileHandler, CreateObjectFileHandler.
  handler_cases; try destruct (createBinary FirstInput);
    intros [=]; subst; tauto.
Qed.

Lemma CreateFileHandler_Text_type {C : Collaborators} (X X' : bytes)
  (BC BC' : OffloadBundlerConfig) (H : TextFileHandler.t) :
  CreateFileHandler X BC = Ok (Text H) ->
  FilesType BC' = FilesType BC ->
  CreateFileHandler X' BC' = Ok (Text H).
Proof.
  unfold CreateFileHandler, CreateObjectFileHandler. intros Hfh ->.
  revert Hfh.
  handler_cases; try destruct (createBinary X); intros [=]; subst;
    reflexivity.
Qed.

Lemma CreateFileHandler_Binary_type {C : Collaborators} (X : bytes)
  (BC BC' : OffloadBundlerConfig) (H : BinaryFileHandler.t) :
  CreateFileHandler X BC = Ok (Binary H) ->
  FilesType BC' = FilesType BC ->
  CreateFileHandler X BC' = Ok (Binary (BinaryFileHandler.new BC')).
Proof.
  unfold CreateFileHandler, CreateObjectFileHandler. intros Hfh ->.
  revert Hfh.
  handler_cases; try destruct (createBinary X); intros [=]; subst;
    reflexivity.
Qed.

Lemma text_container_bound (H : TextFileHandler.t)
  (Entries : list (bytes * bytes)) :
  (length Entries <= length (text_container H Entries))%nat.
Proof.
  unfold text_container.
  induction Entries as [|E rest IH]; cbn [flat_map length]; [lia|].
  rewrite length_app.
  assert (1 <= length (text_entry H E))%nat; [|lia].
  unfold text_entry, NL. rewrite !length_app. cbn [length]. lia.
Qed.

Lemma binary_container_bound (BC : OffloadBundlerConfig) (Inputs : list bytes) :
  length (TargetNames BC) = length Inputs ->
  (length (TargetNames BC) <= length (binary_container BC Inputs))%nat.
Proof.
  intros Hlen. unfold binary_container.
  set (Recs := placed_bundles BC Inputs).
  pose proof (write_payloads_len Recs (binary_header Recs)) as Hw.
  pose proof (records_count Recs) as Hc.
  assert (HT : map placed_target Recs = TargetNames BC)
    by (apply place_targets; exact Hlen).
  rewrite <- HT, length_map.
  unfold binary_header in Hw at 1. rewrite !len_app in Hw.
  pose proof (len_nonneg OFFLOAD_BUNDLER_MAGIC_STR).
  pose proof (len_nonneg (le_encode 8 (Z.of_nat (length Recs)))).
  unfold len in *. lia.
Qed.

Lemma newline_free_check (s : bytes) :
  existsb (Ascii.eqb newline) s = false -> newline_free s.
Proof.
  intros Hex Hin. assert (Ht : existsb (Ascii.eqb newline) s = true).
  { apply existsb_exists. exists newline. split; [exact Hin|].
    apply Ascii.eqb_refl. }
  congruence.
Qed.

(** The text handlers that [CreateFileHandler] returns read back the
    entries of a text container. *)
Lemma Text_handler_Reads {C : Collaborators} (H : TextFileHandler.t)
  (Entries : list (bytes * bytes)) :
  H = TextFileHandler.new (B "//") \/ H = TextFileHandler.new (B "#")
  \/ H = TextFileHandler.new (B ";") ->
  len (text_container H Entries) < npos ->
  Forall (text_safe H) Entries ->
  Reads (text_container H Entries) (Text H) Entries.
Proof.
  intros HH Hlen Hsafe.
  assert (Hread : Reads (text_container H Entries)
                    (Text (TextFileHandler.with_ReadChars H (len [])))
                    Entries).
  { apply (Text_Reads H (tl (TextFileHandler.BundleStartString H))
                        (tl (TextFileHandler.BundleEndString H)));
      try assumption; try reflexivity;
      destruct HH as [->|[->| ->]]; try reflexivity;
      apply newline_free_check; reflexivity. }
  destruct HH as [->|[->| ->]]; exact Hread.
Qed.

(** ** C8: listing the bundles of a bundled file *)

(** C8 (amended).  Let the targets be pairwise distinct and not empty, and
    let the file that the bundle operation wrote be the input of
    [list_bundle_ids], with the same file type.  For a text container whose
    targets hold no newline, whose payloads do not contain the end marker
    of the container and whose size is below [2^64 - 1], [list_bundle_ids]
    prints exactly the target names, one per line, in the order in which
    the targets were given to the bundle operation.  For a binary container
    with a positive [bundle_alignment], sizes that fit in 64 bits and a last
    payload that is not empty, it prints exactly the target names, one per
    line, in the order in which the map of the bundles is iterated. *)
Theorem C8_list_bundle_ids_of_bundled_file :
  forall (C : Collaborators) (BC BCl : OffloadBundlerConfig)
         (Output Stored : bytes) (Outputs Inputs : list bytes),
    OutputFileNames BC = Output :: Outputs ->
    can_create Output = true ->
    open_inputs (InputFileNames BC) = Ok Inputs ->
    length (TargetNames BC) = length Inputs ->
    valid_host_input BC (length Inputs) ->
    NoDup (TargetNames BC) ->
    (forall T, In T (TargetNames BC) -> T <> []) ->
    (forall file, BundleFiles BC = Ok file ->
                  getFileOrSTDIN Stored = Some file) ->
    FilesType BCl = FilesType BC ->
    (forall H : TextFileHandler.t,
        (forall FirstInput, CreateFileHandler FirstInput BC = Ok (Text H)) ->
        Forall (text_safe H) (combine (TargetNames BC) Inputs) ->
        len (text_container H (combine (TargetNames BC) Inputs)) < npos ->
        exists file,
          BundleFiles BC = Ok file
          /\ ListBundleIDsInFile Stored BCl = Ok (listing (TargetNames BC)))
    /\ ((forall FirstInput,
            CreateFileHandler FirstInput BC
            = Ok (Binary (BinaryFileHandler.new BC))) ->
        0 < BundleAlignment BC ->
        fits_64_bits BC Inputs ->
        last_not_empty Inputs ->
        Permutation (StringMap_order (TargetNames BC)) (TargetNames BC) ->
        exists file,
          BundleFiles BC = Ok file
          /\ ListBundleIDsInFile Stored BCl
             = Ok (listing (StringMap_order (TargetNames BC)))).
Proof.
  intros C BC BCl Output Stored Outputs Inputs HOut Hcan Hopen Hlen Hhost Hnd
         Hne Hstored Htype.
  assert (Hkeys : map fst (combine (TargetNames BC) Inputs) = TargetNames BC)
    by (apply map_fst_combine; lia).
  split.
  - intros H Hfh Hsafe Hsize.
    pose proof (CreateFileHandler_Text _ _ _ (Hfh [])) as HH.
    set (FC := text_container H (combine (TargetNames BC) Inputs)) in *.
    assert (Hbundle : BundleFiles BC = Ok FC).
    { destruct HH as [->|[->| ->]];
        eapply BundleFiles_Text; eassumption. }
    exists FC. split; [exact Hbundle|].
    rewrite <- Hkeys.
    apply ListBundleIDsInFile_Lists with (Input := FC) (FH0 := Text H)
                                         (FH := Text H).
    + now apply Hstored.
    + eapply CreateFileHandler_Text_type; [apply (Hfh []) | exact Htype].
    + reflexivity.
    + apply Reads_Lists. now apply Text_handler_Reads.
    + rewrite Hkeys. exact Hne.
    + rewrite length_map. apply text_container_bound.
  - intros Hfh Ha Hfit Hlast Hord.
    set (FC := binary_container BC Inputs).
    assert (Hbundle : BundleFiles BC = Ok FC)
      by (eapply BundleFiles_Binary; eassumption).
    exists FC. split; [exact Hbundle|].
    destruct (Binary_container_Reads BC BCl Inputs Hlen Ha Hfit Hnd Hlast)
      as (H & Hhdr & HR).
    fold FC in Hhdr, HR.
    apply Reads_Lists in HR.
    rewrite sm_entries_keys in HR by (rewrite Hkeys; exact Hord).
    rewrite Hkeys in HR.
    apply ListBundleIDsInFile_Lists
      with (Input := FC) (FH0 := Binary (BinaryFileHandler.new BCl))
           (FH := Binary H).
    + now apply Hstored.
    + eapply CreateFileHandler_Binary_type; [apply (Hfh FC) | exact Htype].
    + cbn [ReadHeader]. rewrite Hhdr. reflexivity.
    + exact HR.
    + intros T HT. apply Hne. eapply Permutation_in; eassumption.
    + cbn [bundle_bound]. rewrite (Permutation_length Hord).
      now apply binary_container_bound.
Qed.

(** The theorem at two [.ll] inputs and at two [.bc] inputs, bundled for a
    host and a GPU target (the sample map is iterated in the order of
    insertion). *)
Lemma C8_witness :
  (exists file,
      @BundleFiles Sample.ll_env
        (Sample.bundling (B "ll") [B "a.ll"; B "b.ll"] (B "bundle.ll"))
      = Ok file
      /\ @ListBundleIDsInFile Sample.ll_env (B "bundle.ll")
           (Sample.unbundling (B "ll") (B "bundle.ll") [])
         = Ok (listing Sample.targets))
  /\ (exists file,
         @BundleFiles Sample.bc_env
           (Sample.bundling (B "bc") [B "a.bc"; B "b.bc"] (B "bundle.bc"))
         = Ok file
         /\ @ListBundleIDsInFile Sample.bc_env (B "bundle.bc")
              (Sample.unbundling (B "bc") (B "bundle.bc") [])
            = Ok (listing Sample.targets)).
Proof.
  split.
  - refine (proj1 (C8_list_bundle_ids_of_bundled_file Sample.ll_env
                     (Sample.bundling (B "ll") [B "a.ll"; B "b.ll"]
                                      (B "bundle.ll"))
                     (Sample.unbundling (B "ll") (B "bundle.ll") [])
                     (B "bundle.ll") (B "bundle.ll") []
                     [B "define1" ++ NL; B "define2" ++ NL]
                     eq_refl eq_refl eq_refl eq_refl _ _ _ _ eq_refl)
                  (TextFileHandler.new (B ";")) _ _ _).
    + split; [intro Hx; discriminate Hx | vm_compute; lia].
    + repeat constructor; simpl; intuition discriminate.
    + intros T [<-|[<-|[]]]; discriminate.
    + intros file Hf. vm_compute in Hf. injection Hf as <-.
      vm_compute. reflexivity.
    + intros FirstInput. reflexivity.
    + repeat constructor; try (apply newline_free_check; reflexivity);
        vm_compute; reflexivity.
    + vm_compute. reflexivity.
  - refine (proj2 (C8_list_bundle_ids_of_bundled_file Sample.bc_env
                     (Sample.bundling (B "bc") [B "a.bc"; B "b.bc"]
                                      (B "bundle.bc"))
                     (Sample.unbundling (B "bc") (B "bundle.bc") [])
                     (B "bundle.bc") (B "bundle.bc") []
                     [B "BC1"; B "BC22"]
                     eq_refl eq_refl eq_refl eq_refl _ _ _ _ eq_refl)
                  _ _ _ _ _).
    + split; [intro Hx; discriminate Hx | vm_compute; lia].
    + repeat constructor; simpl; intuition discriminate.
    + intros T [<-|[<-|[]]]; discriminate.
    + intros file Hf. vm_compute in Hf. injection Hf as <-.
      vm_compute. reflexivity.
    + intros FirstInput. reflexivity.
    + reflexivity.
    + vm_compute. intro Hx. discriminate Hx.
    + simpl. discriminate.
    + apply Permutation_refl.
Defined.

(** C8 as the specification words it.  The first of two [.ll] inputs holds,
    after "abc", a line that looks like an end marker and a line that looks
    like the start marker of a bundle for "fake".  The targets are distinct
    and the bundle operation succeeds; [list_bundle_ids] over its output
    prints three names for the two targets. *)
Lemma C8_counterexample :
  exists file,
    @BundleFiles Sample.marked_env
      (Sample.bundling (B "ll") [B "a.ll"; B "b.ll"] (B "bundle.ll"))
    = Ok file
    /\ @getFileOrSTDIN Sample.marked_env (B "bundle.ll") = Some file
    /\ @ListBundleIDsInFile Sample.marked_env (B "bundle.ll")
         (Sample.unbundling (B "ll") (B "bundle.ll") [])
       = Ok (listing [B "host-x86_64-unknown-linux-gnu"; B "fake";
                      B "hip-amdgcn-amd-amdhsa--gfx906"]).
Proof.
  eexists. split; [vm_compute; reflexivity|].
  split; vm_compute; reflexivity.
Qed.

(** ** C1: unbundling what was bundled *)

(** C1 (amended).  Let the targets be pairwise distinct and not empty, let
    the file that the bundle operation wrote be the input of the unbundle
    operation, with the same file type and the same targets, one creatable
    output for each; let each target be compatible, among the targets, with
    itself only; and let a target of host kind be among them unless no host
    is expected or [allow_missing_bundles] is set.  For a text container
    whose targets hold no newline, whose payloads do not contain the end
    marker of the container and whose size is below [2^64 - 1], and for a
    binary container with a positive [bundle_alignment], sizes that fit in
    64 bits and a last payload that is not empty, the unbundle operation
    returns success and writes to each target's output exactly the payload
    that was bundled for that target (for the text container in the order
    of the targets, for the binary container in the order of the map of the
    bundles). *)
Theorem C1_unbundle_of_bundle :
  forall (C : Collaborators) (BC BCu : OffloadBundlerConfig)
         (Output Stored : bytes) (Outputs rest Inputs : list bytes),
    OutputFileNames BC = Output :: Outputs ->
    can_create Output = true ->
    open_inputs (InputFileNames BC) = Ok Inputs ->
    length (TargetNames BC) = length Inputs ->
    valid_host_input BC (length Inputs) ->
    NoDup (TargetNames BC) ->
    (forall T, In T (TargetNames BC) -> T <> []) ->
    (forall file, BundleFiles BC = Ok file ->
                  getFileOrSTDIN Stored = Some file) ->
    FilesType BCu = FilesType BC ->
    TargetNames BCu = TargetNames BC ->
    InputFileNames BCu = Stored :: rest ->
    length (TargetNames BCu) = length (OutputFileNames BCu) ->
    (forall O, In O (OutputFileNames BCu) -> can_create O = true) ->
    Permutation (StringMap_order (TargetNames BC)) (TargetNames BC) ->
    only_self_compatible BCu (TargetNames BC) ->
    (HostInputIndex BCu = NoHostIndex
     \/ AllowMissingBundles BCu = true
     \/ exists T, In T (TargetNames BC)
                  /\ hasHostKind (mkOffloadTargetInfo T BCu) = true) ->
    (forall H : TextFileHandler.t,
        (forall FirstInput, CreateFileHandler FirstInput BC = Ok (Text H)) ->
        Forall (text_safe H) (combine (TargetNames BC) Inputs) ->
        len (text_container H (combine (TargetNames BC) Inputs)) < npos ->
        exists file,
          BundleFiles BC = Ok file
          /\ UnbundleFiles BCu
             = (combine (OutputFileNames BCu) Inputs, Ok tt))
    /\ ((forall FirstInput,
            CreateFileHandler FirstInput BC
            = Ok (Binary (BinaryFileHandler.new BC))) ->
        0 < BundleAlignment BC ->
        fits_64_bits BC Inputs ->
        last_not_empty Inputs ->
        exists (file : bytes) (Files : Written),
          BundleFiles BC = Ok file
          /\ UnbundleFiles BCu = (Files, Ok tt)
          /\ Permutation Files (combine (OutputFileNames BCu) Inputs)).
Proof.
  intros C BC BCu Output Stored Outputs rest Inputs HOut Hcan Hopen Hlen Hhost
         Hnd Hne Hstored Htype HTs HIn HlenU HcanU Hord Hself Hhostu.
  assert (Hkeys : map fst (combine (TargetNames BC) Inputs) = TargetNames BC)
    by (apply map_fst_combine; lia).
  assert (Hout : map (extracted (combine (TargetNames BC) (OutputFileNames BCu)))
                     (combine (TargetNames BC) Inputs)
                 = combine (OutputFileNames BCu) Inputs).
  { apply (extracted_combine (TargetNames BC) (OutputFileNames BCu) Inputs
                             [] []); try reflexivity; try assumption.
    now rewrite <- HTs. }
  split.
  - intros H Hfh Hsafe Hsize.
    pose proof (CreateFileHandler_Text _ _ _ (Hfh [])) as HH.
    set (FC := text_container H (combine (TargetNames BC) Inputs)) in *.
    assert (Hbundle : BundleFiles BC = Ok FC).
    { destruct HH as [->|[->| ->]];
        eapply BundleFiles_Text; eassumption. }
    exists FC. split; [exact Hbundle|].
    rewrite <- Hout, <- HTs.
    apply UnbundleFiles_Reads with (Stored := Stored) (Input := FC)
                                   (rest := rest) (FH0 := Text H)
                                   (FH := Text H);
      rewrite ?HTs; try assumption.
    + now apply Hstored.
    + eapply CreateFileHandler_Text_type; [apply (Hfh []) | exact Htype].
    + reflexivity.
    + now apply Text_handler_Reads.
    + rewrite Hkeys. apply Permutation_refl.
    + apply text_container_bound.
    + now rewrite <- HTs.
  - intros Hfh Ha Hfit Hlast.
    set (FC := binary_container BC Inputs).
    assert (Hbundle : BundleFiles BC = Ok FC)
      by (eapply BundleFiles_Binary; eassumption).
    destruct (Binary_container_Reads BC BCu Inputs Hlen Ha Hfit Hnd Hlast)
      as (H & Hhdr & HR).
    fold FC in Hhdr, HR.
    assert (Hperm : Permutation (sm_entries (combine (TargetNames BC) Inputs))
                                (combine (TargetNames BC) Inputs))
      by (apply sm_entries_Permutation; rewrite Hkeys; assumption).
    exists FC, (map (extracted (combine (TargetNames BC) (OutputFileNames BCu)))
                    (sm_entries (combine (TargetNames BC) Inputs))).
    split; [exact Hbundle|]. split.
    + rewrite <- HTs.
      apply UnbundleFiles_Reads
        with (Stored := Stored) (Input := FC) (rest := rest)
             (FH0 := Binary (BinaryFileHandler.new BCu)) (FH := Binary H);
        rewrite ?HTs; try assumption.
      * now apply Hstored.
      * eapply CreateFileHandler_Binary_type; [apply (Hfh FC) | exact Htype].
      * cbn [ReadHeader]. rewrite Hhdr. reflexivity.
      * rewrite <- Hkeys at 2. now apply Permutation_map.
      * cbn [bundle_bound]. rewrite (Permutation_length Hperm).
        rewrite <- (length_map fst), Hkeys.
        now apply binary_container_bound.
      * now rewrite <- HTs.
    + rewrite <- Hout. now apply Permutation_map.
Qed.

(** The theorem at two [.ll] inputs and at two [.bc] inputs, bundled for a
    host and a GPU target and unbundled for the same targets. *)
Lemma C1_witness :
  (exists file,
      @BundleFiles Sample.ll_env
        (Sample.bundling (B "ll") [B "a.ll"; B "b.ll"] (B "bundle.ll"))
      = Ok file
      /\ @UnbundleFiles Sample.ll_env
           (Sample.unbundling (B "ll") (B "bundle.ll")
                              [B "host.ll"; B "gfx906.ll"])
         = ([(B "host.ll", B "define1" ++ NL);
             (B "gfx906.ll", B "define2" ++ NL)], Ok tt))
  /\ (exists (file : bytes) (Files : Written),
         @BundleFiles Sample.bc_env
           (Sample.bundling (B "bc") [B "a.bc"; B "b.bc"] (B "bundle.bc"))
         = Ok file
         /\ @UnbundleFiles Sample.bc_env
              (Sample.unbundling (B "bc") (B "bundle.bc")
                                 [B "host.bc"; B "gfx906.bc"])
            = (Files, Ok tt)
         /\ Permutation Files
              [(B "host.bc", B "BC1"); (B "gfx906.bc", B "BC22")]).
Proof.
  split.
  - refine (proj1 (C1_unbundle_of_bundle Sample.ll_env
                     (Sample.bundling (B "ll") [B "a.ll"; B "b.ll"]
                                      (B "bundle.ll"))
                     (Sample.unbundling (B "ll") (B "bundle.ll")
                                        [B "host.ll"; B "gfx906.ll"])
                     (B "bundle.ll") (B "bundle.ll") [] []
                     [B "define1" ++ NL; B "define2" ++ NL]
                     eq_refl eq_refl eq_refl eq_refl _ _ _ _
                     eq_refl eq_refl eq_refl eq_refl _ _ _ _)
                  (TextFileHandler.new (B ";")) _ _ _).
    + split; [intro Hx; discriminate Hx | vm_compute; lia].
    + repeat constructor; simpl; intuition discriminate.
    + intros T [<-|[<-|[]]]; discriminate.
    + intros file Hf. vm_compute in Hf. injection Hf as <-.
      vm_compute. reflexivity.
    + intros O HO. reflexivity.
    + apply Permutation_refl.
    + intros T T' [<-|[<-|[]]] [<-|[<-|[]]]; vm_compute; split; intros Hx;
        try reflexivity; discriminate Hx.
    + right. right. exists (B "host-x86_64-unknown-linux-gnu").
      split; [left; reflexivity | vm_compute; reflexivity].
    + intros FirstInput. reflexivity.
    + repeat constructor; try (apply newline_free_check; reflexivity);
        vm_compute; reflexivity.
    + vm_compute. reflexivity.
  - refine (proj2 (C1_unbundle_of_bundle Sample.bc_env
                     (Sample.bundling (B "bc") [B "a.bc"; B "b.bc"]
                                      (B "bundle.bc"))
                     (Sample.unbundling (B "bc") (B "bundle.bc")
                                        [B "host.bc"; B "gfx906.bc"])
                     (B "bundle.bc") (B "bundle.bc") [] []
                     [B "BC1"; B "BC22"]
                     eq_refl eq_refl eq_refl eq_refl _ _ _ _
                     eq_refl eq_refl eq_refl eq_refl _ _ _ _)
                  _ _ _ _).
    + split; [intro Hx; discriminate Hx | vm_compute; lia].
    + repeat constructor; simpl; intuition discriminate.
    + intros T [<-|[<-|[]]]; discriminate.
    + intros file Hf. vm_compute in Hf. injection Hf as <-.
      vm_compute. reflexivity.
    + intros O HO. reflexivity.
    + apply Permutation_refl.
    + intros T T' [<-|[<-|[]]] [<-|[<-|[]]]; vm_compute; split; intros Hx;
        try reflexivity; discriminate Hx.
    + right. right. exists (B "host-x86_64-unknown-linux-gnu").
      split; [left; reflexivity | vm_compute; reflexivity].
    + intros FirstInput. reflexivity.
    + reflexivity.
    + vm_compute. intro Hx. discriminate Hx.
    + simpl. discriminate.
Defined.

(** C1 as the specification words it.  The first of two [.ll] inputs holds,
    after "abc", a line that looks like an end marker.  The targets are
    distinct and the bundle operation succeeds; the unbundle operation over
    its output returns success and writes "abc" to the output of the first
    target: the payload that was bundled for it is cut at the marker. *)
Lemma C1_counterexample :
  exists file,
    @getFileOrSTDIN Sample.marked_env (B "a.ll")
    = Some (B "abc" ++ Sample.marker_lines)
    /\ @BundleFiles Sample.marked_env
         (Sample.bundling (B "ll") [B "a.ll"; B "b.ll"] (B "bundle.ll"))
       = Ok file
    /\ @getFileOrSTDIN Sample.marked_env (B "bundle.ll") = Some file
    /\ @UnbundleFiles Sample.marked_env
         (Sample.unbundling (B "ll") (B "bundle.ll")
                            [B "host.ll"; B "gfx906.ll"])
       = ([(B "host.ll", B "abc"); (B "gfx906.ll", B "define2" ++ NL)],
          Ok tt).
Proof.
  eexists. split; [reflexivity|].
  split; [vm_compute; reflexivity|].
  split; vm_compute; reflexivity.
Qed.

(** * Further properties of the code *)

(** ** Target identifiers *)

Lemma split_rsplit_fst (sep : ascii) (s : bytes) :
  fst (split sep (fst (rsplit sep s))) = fst (split sep s).
Proof.
  induction s as [|c tl IH]; [reflexivity|].
  cbn [rsplit split].
  destruct (contains_char sep tl).
  - destruct (rsplit sep tl) as [a b] eqn:Hr. cbn [fst] in *.
    cbn [split]. destruct (Ascii.eqb c sep); [reflexivity|].
    destruct (split sep a) as [a1 a2]. destruct (split sep tl) as [t1 t2].
    cbn [fst] in *. now rewrite IH.
  - destruct (Ascii.eqb c sep) eqn:E; cbn [fst split].
    + reflexivity.
    + rewrite E. reflexivity.
Qed.

(** X1.  The offload kind that the constructor of [OffloadTargetInfo] reads
    from a target is the text before the first ['-'] of what precedes the
    first [':'] of the target, whether or not the last component is a known
    GPU architecture. *)
Theorem X1_offload_kind_is_first_component :
  forall (C : Collaborators) (Target : bytes) (BC : OffloadBundlerConfig),
    OffloadKind (mkOffloadTargetInfo Target BC)
    = fst (split dash (fst (split colon Target))).
Proof.
  intros C Target BC. unfold mkOffloadTargetInfo.
  destruct (StringToCudaArch_known _); cbn [OffloadKind];
    [apply split_rsplit_fst | reflexivity].
Qed.

Lemma bytes_eqb_sym (a b : bytes) : bytes_eqb a b = bytes_eqb b a.
Proof.
  revert b. induction a as [|x a IH]; intros [|y b]; cbn [bytes_eqb];
    try reflexivity.
  now rewrite IH, Ascii.eqb_sym.
Qed.

(** X2.  Compatibility of offload kinds is symmetric between two targets of
    the same configuration: the code object's kind is compatible with the
    target's kind exactly when the target's kind is compatible with the code
    object's. *)
Theorem X2_offload_kind_compatibility_symmetric :
  forall (I J : OffloadTargetInfo),
    HipOpenmpCompatible (BundlerConfig I) = HipOpenmpCompatible (BundlerConfig J) ->
    isOffloadKindCompatible I (OffloadKind J)
    = isOffloadKindCompatible J (OffloadKind I).
Proof.
  intros I J Hcfg. unfold isOffloadKindCompatible. rewrite Hcfg.
  rewrite (bytes_eqb_sym (OffloadKind J) (OffloadKind I)).
  destruct (bytes_eqb (OffloadKind I) (OffloadKind J)); [reflexivity|].
  destruct (HipOpenmpCompatible (BundlerConfig J)); [|reflexivity].
  cbv zeta. rewrite orb_comm. f_equal; apply andb_comm.
Qed.

(** The theorem at a [hipv4] code object and an [openmp] target of the
    default configuration. *)
Lemma X2_witness :
  isOffloadKindCompatible
    {| OffloadKind := B "hipv4"; Triple := B "amdgcn-amd-amdhsa-";
       TargetID := B "gfx906";
       BundlerConfig := Sample.config (B "o") [] [] [] |}
    (B "openmp")
  = isOffloadKindCompatible
      {| OffloadKind := B "openmp"; Triple := B "amdgcn-amd-amdhsa-";
         TargetID := B "gfx906";
         BundlerConfig := Sample.config (B "o") [] [] [] |}
      (B "hipv4").
Proof.
  apply (X2_offload_kind_compatibility_symmetric
           {| OffloadKind := B "hipv4"; Triple := B "amdgcn-amd-amdhsa-";
              TargetID := B "gfx906";
              BundlerConfig := Sample.config (B "o") [] [] [] |}
           {| OffloadKind := B "openmp"; Triple := B "amdgcn-amd-amdhsa-";
              TargetID := B "gfx906";
              BundlerConfig := Sample.config (B "o") [] [] [] |}).
  reflexivity.
Defined.

(** X3.  A code object is declared compatible with a target only when its
    kind is compatible with the target's kind, its triple is compatible with
    the target's triple, and its target ID is equal to the target's or
    compatible with it. *)
Theorem X3_code_object_compatibility_sound :
  forall (C : Collaborators) (CodeObjectInfo TargetInfo : OffloadTargetInfo),
    isCodeObjectCompatible CodeObjectInfo TargetInfo = true ->
    isOffloadKindCompatible CodeObjectInfo (OffloadKind TargetInfo) = true
    /\ Triple_isCompatibleWith (Triple CodeObjectInfo) (Triple TargetInfo) = true
    /\ (TargetID CodeObjectInfo = TargetID TargetInfo
        \/ isCompatibleTargetID (TargetID CodeObjectInfo) (TargetID TargetInfo)
           = true).
Proof.
  intros C A T. unfold isCodeObjectCompatible, OffloadTargetInfo_eq.
  destruct (bytes_eqb (OffloadKind A) (OffloadKind T)) eqn:Hk; cbn [andb].
  - assert (Hkc : isOffloadKindCompatible A (OffloadKind T) = true)
      by (unfold isOffloadKindCompatible; now rewrite Hk).
    rewrite Hkc. cbn [negb orb].
    destruct (Triple_isCompatibleWith (Triple A) (Triple T)); cbn [negb andb];
      [|discriminate].
    destruct (bytes_eqb (TargetID A) (TargetID T)) eqn:Hid.
    + intros _. apply bytes_eqb_eq in Hid. auto.
    + destruct (isCompatibleTargetID (TargetID A) (TargetID T));
        cbn [negb]; [auto | discriminate].
  - destruct (isOffloadKindCompatible A (OffloadKind T)); cbn [negb orb];
      [|discriminate].
    destruct (Triple_isCompatibleWith (Triple A) (Triple T)); cbn [negb];
      [|discriminate].
    destruct (isCompatibleTargetID (TargetID A) (TargetID T));
      cbn [negb]; [auto | discriminate].
Qed.

(** The theorem at a [hip] code object for [gfx906] and the same target. *)
Lemma X3_witness :
  @isOffloadKindCompatible
    (@mkOffloadTargetInfo (Sample.env []) (B "hip-amdgcn-amd-amdhsa--gfx906")
                          (Sample.config (B "o") [] [] []))
    (B "hip") = true
  /\ @Triple_isCompatibleWith (Sample.env [])
       (B "amdgcn-amd-amdhsa-") (B "amdgcn-amd-amdhsa-") = true
  /\ (B "gfx906" = B "gfx906"
      \/ @isCompatibleTargetID (Sample.env []) (B "gfx906") (B "gfx906") = true).
Proof.
  apply (X3_code_object_compatibility_sound (Sample.env [])
           (@mkOffloadTargetInfo (Sample.env [])
              (B "hip-amdgcn-amd-amdhsa--gfx906")
              (Sample.config (B "o") [] [] []))
           (@mkOffloadTargetInfo (Sample.env [])
              (B "hip-amdgcn-amd-amdhsa--gfx906")
              (Sample.config (B "o") [] [] []))).
  vm_compute. reflexivity.
Defined.

(** ** Binary containers *)

(** X4.  An 8-byte integer written at the end of a stream is read back from
    the position at which it was written: [Read8byteIntegerFromBuffer]
    undoes [Write8byteIntegerToBuffer], for every value of 64 bits. *)
Theorem X4_Read8_of_Write8 :
  forall (OS : raw_fd_ostream) (Val : Z),
    os_at_end OS ->
    0 <= Val < 2 ^ 64 ->
    Read8byteIntegerFromBuffer (os_data (Write8byteIntegerToBuffer OS Val))
                               (os_pos OS)
    = Val.
Proof.
  intros OS Val Hend Hval. unfold Write8byteIntegerToBuffer.
  rewrite os_write_at_end by exact Hend. cbn [os_data].
  rewrite wrap64_small by exact Hval.
  unfold os_at_end in Hend. rewrite Hend.
  rewrite <- (app_nil_r (le_encode 8 Val)).
  apply Read8_at. exact Hval.
Qed.

(** The theorem at the value [2^63 + 5] written after three bytes. *)
Lemma X4_witness :
  Read8byteIntegerFromBuffer
    (os_data (Write8byteIntegerToBuffer
                {| os_data := B "abc"; os_pos := 3 |} (2 ^ 63 + 5)))
    3
  = 2 ^ 63 + 5.
Proof.
  apply (X4_Read8_of_Write8 {| os_data := B "abc"; os_pos := 3 |} (2 ^ 63 + 5)).
  - reflexivity.
  - lia.
Defined.

(** X5.  [BinaryFileHandler::ReadHeader] returns no [llvm::Error], whatever
    the state of the handler and the input buffer: every check that fails
    ends in [Error::success()]. *)
Theorem X5_Binary_ReadHeader_returns_no_error :
  forall (C : Collaborators) (H : BinaryFileHandler.t) (Input : bytes),
    is_Err (BinaryFileHandler.ReadHeader H Input) = false.
Proof.
  intros C H Input.
  destruct (BinaryFileHandler.ReadHeader H Input) as [h|e|msg| |] eqn:Hr;
    try reflexivity.
  exfalso. exact (ReadHeader_never_Err H Input e Hr).
Qed.

Lemma firstn_eqb_starts_with (p s : bytes) :
  bytes_eqb (firstn (length p) s) p = true -> starts_with p s = true.
Proof.
  revert s. induction p as [|x p IH]; intros [|y s]; cbn; try reflexivity;
    try discriminate.
  intros Hb. apply andb_prop in Hb as [Hxy Hrest].
  rewrite Ascii.eqb_sym, Hxy. cbn [andb]. now apply IH.
Qed.

(** X6.  An input that does not start with the magic string holds no bundle
    for the binary handler: reading its header succeeds and the listing of
    its bundle IDs prints nothing. *)
Theorem X6_Binary_listing_without_magic :
  forall (C : Collaborators) (BC : OffloadBundlerConfig) (Input : bytes),
    starts_with OFFLOAD_BUNDLER_MAGIC_STR Input = false ->
    ReadHeader (Binary (BinaryFileHandler.new BC)) Input
    = Ok (Binary (BinaryFileHandler.new BC))
    /\ listBundleIDs (Binary (BinaryFileHandler.new BC)) Input = Ok [].
Proof.
  intros C BC Input Hmagic.
  assert (Hhdr : ReadHeader (Binary (BinaryFileHandler.new BC)) Input
                 = Ok (Binary (BinaryFileHandler.new BC))).
  { cbn [ReadHeader]. unfold BinaryFileHandler.ReadHeader.
    destruct (len Input <? len OFFLOAD_BUNDLER_MAGIC_STR); [reflexivity|].
    destruct (bytes_eqb (firstn (length OFFLOAD_BUNDLER_MAGIC_STR) Input)
                        OFFLOAD_BUNDLER_MAGIC_STR) eqn:Hb.
    - apply firstn_eqb_starts_with in Hb. congruence.
    - reflexivity. }
  split; [exact Hhdr|].
  unfold listBundleIDs. rewrite Hhdr. cbn [bind forEachBundle].
  reflexivity.
Qed.

(** The theorem at the plain input "hello". *)
Lemma X6_witness :
  @ReadHeader (Sample.env [])
     (Binary (BinaryFileHandler.new (Sample.config (B "bc") [] [] [])))
     (B "hello")
  = Ok (Binary (BinaryFileHandler.new (Sample.config (B "bc") [] [] [])))
  /\ @listBundleIDs (Sample.env [])
       (Binary (BinaryFileHandler.new (Sample.config (B "bc") [] [] [])))
       (B "hello")
     = Ok [].
Proof.
  apply (X6_Binary_listing_without_magic (Sample.env [])
           (Sample.config (B "bc") [] [] []) (B "hello")).
  reflexivity.
Defined.

(** ** Text containers *)

(** X7.  An input in which the start marker of the text handler does not
    occur holds no bundle: the first [ReadBundleStart] finds none and the
    listing of the bundle IDs prints nothing. *)
Theorem X7_Text_listing_without_start_marker :
  forall (C : Collaborators) (Comment Input : bytes),
    contains Input
      (TextFileHandler.BundleStartString (TextFileHandler.new Comment)) = false ->
    listBundleIDs (Text (TextFileHandler.new Comment)) Input = Ok [].
Proof.
  intros C Comment Input Hno.
  unfold listBundleIDs. cbn [ReadHeader TextFileHandler.ReadHeader lift1 bind].
  cbn [forEachBundle ReadBundleStart].
  unfold TextFileHandler.ReadBundleStart.
  assert (Hfind : find Input
                    (TextFileHandler.BundleStartString
                       (TextFileHandler.new Comment))
                    (TextFileHandler.ReadChars (TextFileHandler.new Comment))
                  = npos).
  { unfold find. cbn [TextFileHandler.ReadChars TextFileHandler.new].
    pose proof (len_nonneg Input) as Hl.
    destruct (len Input <? 0) eqn:Hlt; [reflexivity|].
    cbn [Z.to_nat skipn]. unfold contains in Hno.
    destruct (find_first _ Input); [discriminate | reflexivity]. }
  rewrite Hfind. cbn [Z.eqb]. rewrite Z.eqb_refl. reflexivity.
Qed.

(** The theorem at the plain [.ll] input "hello". *)
Lemma X7_witness :
  @listBundleIDs (Sample.env []) (Text (TextFileHandler.new (B ";")))
                 (B "hello")
  = Ok [].
Proof.
  apply (X7_Text_listing_without_start_marker (Sample.env []) (B ";")
                                              (B "hello")).
  reflexivity.
Defined.

(** X8.  For a file type with a text handler, the bundle operation writes,
    for each target in the order of the targets, the start marker with the
    target and a newline, the bytes of the target's input, and the end
    marker with the target and a newline; it writes nothing else. *)
Theorem X8_BundleFiles_text_container :
  forall (C : Collaborators) (BC : OffloadBundlerConfig) (H : TextFileHandler.t)
         (Output : bytes) (Outputs Inputs : list bytes),
    OutputFileNames BC = Output :: Outputs ->
    can_create Output = true ->
    open_inputs (InputFileNames BC) = Ok Inputs ->
    length (TargetNames BC) = length Inputs ->
    valid_host_input BC (length Inputs) ->
    (forall FirstInput, CreateFileHandler FirstInput BC = Ok (Text H)) ->
    BundleFiles BC
    = Ok (flat_map
            (fun E => TextFileHandler.BundleStartString H ++ fst E ++ NL
                      ++ snd E
                      ++ TextFileHandler.BundleEndString H ++ fst E ++ NL)
            (combine (TargetNames BC) Inputs)).
Proof.
  intros C BC H Output Outputs Inputs HOut Hcan Hopen Hlen Hhost Hfh.
  pose proof (CreateFileHandler_Text _ _ _ (Hfh [])) as HH.
  change (BundleFiles BC
          = Ok (text_container H (combine (TargetNames BC) Inputs))).
  destruct HH as [->|[->| ->]]; eapply BundleFiles_Text; eassumption.
Qed.

(** The theorem at three assembly inputs. *)
Lemma X8_witness :
  @BundleFiles
    (Sample.env [(B "h.s", B "mov"); (B "d1.s", []); (B "d2.s", B "ret")])
    (Sample.config (B "s")
       [B "host-x86_64-unknown-linux-gnu"; B "openmp-nvptx64-nvidia-cuda";
        B "hip-amdgcn-amd-amdhsa--gfx906"]
       [B "h.s"; B "d1.s"; B "d2.s"] [B "out.s"])
  = Ok (flat_map
          (fun E => TextFileHandler.BundleStartString
                      (TextFileHandler.new (B "#")) ++ fst E ++ NL
                    ++ snd E
                    ++ TextFileHandler.BundleEndString
                         (TextFileHandler.new (B "#")) ++ fst E ++ NL)
          [(B "host-x86_64-unknown-linux-gnu", B "mov");
           (B "openmp-nvptx64-nvidia-cuda", []);
           (B "hip-amdgcn-amd-amdhsa--gfx906", B "ret")]).
Proof.
  refine (X8_BundleFiles_text_container
            (Sample.env [(B "h.s", B "mov"); (B "d1.s", []);
                         (B "d2.s", B "ret")])
            (Sample.config (B "s")
               [B "host-x86_64-unknown-linux-gnu";
                B "openmp-nvptx64-nvidia-cuda";
                B "hip-amdgcn-amd-amdhsa--gfx906"]
               [B "h.s"; B "d1.s"; B "d2.s"] [B "out.s"])
            (TextFileHandler.new (B "#")) (B "out.s") []
            [B "mov"; []; B "ret"]
            eq_refl eq_refl eq_refl eq_refl _ _).
  - split; [intro Hx; discriminate Hx | vm_compute; lia].
  - intros FirstInput. reflexivity.
Defined.

(** ** The bundle operation *)

Lemma open_inputs_first_unreadable {C : Collaborators} :
  forall (Readable : list bytes) (Name : bytes) (Others : list bytes),
    (forall N, In N Readable -> getFileOrSTDIN N <> None) ->
    getFileOrSTDIN Name = None ->
    open_inputs (Readable ++ Name :: Others) = Err (FileError Name).
Proof.
  induction Readable as [|N Readable IH]; intros Name Others Hread Hno;
    cbn [app open_inputs].
  - now rewrite Hno.
  - destruct (getFileOrSTDIN N) eqn:HN.
    + rewrite IH; [reflexivity | | exact Hno].
      intros N' HN'. apply Hread. now right.
    + exfalso. apply (Hread N); [now left | exact HN].
Qed.

(** X9.  When the output file can be created and an input cannot be read,
    the bundle operation returns the file error of the first input that
    cannot be read, whatever the file type and the targets. *)
Theorem X9_BundleFiles_first_unreadable_input :
  forall (C : Collaborators) (BC : OffloadBundlerConfig)
         (Output Name : bytes) (Outputs Readable Others : list bytes),
    OutputFileNames BC = Output :: Outputs ->
    can_create Output = true ->
    InputFileNames BC = Readable ++ Name :: Others ->
    (forall N, In N Readable -> getFileOrSTDIN N <> None) ->
    getFileOrSTDIN Name = None ->
    BundleFiles BC = Err (FileError Name).
Proof.
  intros C BC Output Name Outputs Readable Others HOut Hcan HIn Hread Hno.
  unfold BundleFiles. rewrite HOut, Hcan, HIn. cbn [negb].
  rewrite open_inputs_first_unreadable by assumption. reflexivity.
Qed.

(** The theorem at two inputs of which the second does not exist. *)
Lemma X9_witness :
  @BundleFiles (Sample.env [(B "a.bc", B "BC1")])
    (Sample.bundling (B "bc") [B "a.bc"; B "b.bc"] (B "bundle.bc"))
  = Err (FileError (B "b.bc")).
Proof.
  refine (X9_BundleFiles_first_unreadable_input
            (Sample.env [(B "a.bc", B "BC1")])
            (Sample.bundling (B "bc") [B "a.bc"; B "b.bc"] (B "bundle.bc"))
            (B "bundle.bc") (B "b.bc") [] [B "a.bc"] []
            eq_refl eq_refl eq_refl _ eq_refl).
  intros N [<-|[]]. vm_compute. discriminate.
Defined.

(** ** The unbundle operation *)

(** Case analysis on what one round of the loop of [UnbundleFiles] reads. *)
Ltac loop_cases :=
  repeat match goal with
         | |- context [match ?x with _ => _ end] =>
             lazymatch x with
             | Unbundle_loop _ _ _ _ _ _ _ => fail
             | _ => destruct x eqn:?
             end
         end.

Lemma log_app_one (Paths : list bytes) (w : Written) (path data : bytes) :
  (forall F, In F w -> In (fst F) Paths) -> In path Paths ->
  forall F, In F (w ++ [(path, data)]) -> In (fst F) Paths.
Proof.
  intros Hw Hx F HF. apply in_app_or in HF as [HF|[<-|[]]]; auto.
Qed.

Lemma Unbundle_loop_within {C : Collaborators} (BC : OffloadBundlerConfig)
  (Input : bytes) (Paths : list bytes) :
  forall (fuel : nat) (FH : FileHandler) (W : list (bytes * bytes))
         (found : bool) (w : Written),
    (forall F, In F w -> In (fst F) Paths) ->
    (forall E, In E W -> In (snd E) Paths) ->
    log_within Paths (Unbundle_loop fuel BC Input FH W found w).
Proof.
  induction fuel as [|fuel IH]; intros FH W found w Hw HW.
  - destruct W; cbn [Unbundle_loop]; unfold io_ret, io_lift, log_within;
      cbn [fst snd]; split; auto.
  - destruct W as [|E0 W0] eqn:HWeq.
    + cbn [Unbundle_loop]; unfold io_ret, log_within; cbn [fst snd]; split; auto.
    + rewrite <- HWeq in *.
      rewrite HWeq at 1. cbn [Unbundle_loop]. rewrite <- HWeq.
      unfold io_bind, io_lift, io_open, io_write, io_ret, assert.
      loop_cases;
        try match goal with
            | Hf : find_compatible _ _ _ = Some _ |- _ =>
                unfold find_compatible in Hf; apply find_some in Hf as [Hf _]
            end;
        try match goal with
            | Hp : (if ?c then _ else _) = (_, _) |- _ =>
                destruct c; inversion Hp; subst; clear Hp
            end;
        try discriminate;
        first
          [ apply IH;
            [ first [assumption
                    | apply log_app_one; [assumption | now apply HW]]
            | first [assumption
                    | intros E HE; apply HW;
                      now apply Worklist_erase_In in HE] ]
          | unfold log_within; cbn [fst snd];
            split;
            [ first [assumption
                    | apply log_app_one; [assumption | now apply HW]]
            | auto ] ].
Qed.

Lemma Worklist_erase_outputs (W : list (bytes * bytes)) (p : bytes * bytes) :
  NoDup (map fst W) -> In p W ->
  Permutation (map snd W) (snd p :: map snd (Worklist_erase W (fst p))).
Proof.
  induction W as [|E W IH]; intros Hnd Hin; [destruct Hin|].
  inversion Hnd as [|? ? Hnotin Hnd']; subst.
  cbn [Worklist_erase map].
  destruct (bytes_eqb (fst E) (fst p)) eqn:Hk.
  - apply bytes_eqb_eq in Hk. destruct Hin as [->|Hin]; [reflexivity|].
    exfalso. apply Hnotin. rewrite Hk. now apply in_map.
  - destruct Hin as [->|Hin]; [now rewrite bytes_eqb_refl in Hk|].
    cbn [map]. eapply Permutation_trans; [|apply perm_swap].
    apply perm_skip. now apply IH.
Qed.

Lemma Unbundle_loop_each_once {C : Collaborators} (BC : OffloadBundlerConfig)
  (Input : bytes) (Paths : list bytes) :
  forall (fuel : nat) (FH : FileHandler) (W : list (bytes * bytes))
         (found : bool) (w : Written),
    NoDup (map fst W) ->
    Permutation (map fst w ++ map snd W) Paths ->
    each_once Paths (Unbundle_loop fuel BC Input FH W found w).
Proof.
  assert (Hstep : forall (W : list (bytes * bytes)) (w : Written)
                         (p : bytes * bytes) (data : bytes),
             NoDup (map fst W) -> In p W ->
             Permutation (map fst w ++ map snd W) Paths ->
             Permutation (map fst (w ++ [(snd p, data)])
                          ++ map snd (Worklist_erase W (fst p))) Paths).
  { intros W w p data Hnd Hin Hperm.
    rewrite map_app, <- app_assoc. cbn [map fst app].
    eapply Permutation_trans; [|exact Hperm].
    apply Permutation_app_head. apply Permutation_sym.
    now apply Worklist_erase_outputs. }
  induction fuel as [|fuel IH]; intros FH W found w Hnd Hperm.
  - destruct W; cbn [Unbundle_loop]; unfold io_ret, io_lift, each_once;
      cbn [fst snd]; auto.
  - destruct W as [|E0 W0] eqn:HWeq.
    + cbn [Unbundle_loop]; unfold io_ret, each_once; cbn [fst snd]; auto.
    + rewrite <- HWeq in *.
      rewrite HWeq at 1. cbn [Unbundle_loop]. rewrite <- HWeq.
      unfold io_bind, io_lift, io_open, io_write, io_ret, assert.
      loop_cases;
        try match goal with
            | Hf : find_compatible _ _ _ = Some _ |- _ =>
                unfold find_compatible in Hf; apply find_some in Hf as [Hf _]
            end;
        try match goal with
            | Hp : (if ?c then _ else _) = (_, _) |- _ =>
                destruct c; inversion Hp; subst; clear Hp
            end;
        try discriminate;
        first
          [ apply IH;
            [ first [assumption | now apply Worklist_erase_NoDup]
            | first [assumption | now apply Hstep] ]
          | unfold each_once; cbn [fst snd]; auto ].
Qed.

Lemma write_host_or_empty_log {C : Collaborators} (BC : OffloadBundlerConfig)
  (Input : bytes) :
  forall (W : list (bytes * bytes)) (w : Written),
    (forall F, In F (fst (write_host_or_empty BC Input W w)) ->
               In F w \/ In (fst F) (map snd W))
    /\ (snd (write_host_or_empty BC Input W w) = Ok tt ->
        map fst (fst (write_host_or_empty BC Input W w))
        = map fst w ++ map snd W).
Proof.
  induction W as [|E W IH]; intros w.
  - cbn. split; [auto | now rewrite app_nil_r].
  - cbn [write_host_or_empty map]. unfold io_bind, io_open, io_write.
    destruct (can_create (snd E)).
    + destruct (IH (w ++ [(snd E,
                           if hasHostKind (mkOffloadTargetInfo (fst E) BC)
                           then Input else [])])) as [Hlog Hok].
      split.
      * intros F HF. apply Hlog in HF as [HF|HF]; [|right; now right].
        apply in_app_or in HF as [HF|[<-|[]]]; [now left | right; now left].
      * intros Hs. rewrite (Hok Hs), map_app, <- app_assoc. reflexivity.
    + cbn [fst snd]. split; [auto | discriminate].
Qed.

Lemma write_empty_log {C : Collaborators} :
  forall (W : list (bytes * bytes)) (w : Written),
    (forall F, In F (fst (write_empty W w)) ->
               In F w \/ In (fst F) (map snd W))
    /\ (snd (write_empty W w) = Ok tt ->
        map fst (fst (write_empty W w)) = map fst w ++ map snd W).
Proof.
  induction W as [|E W IH]; intros w.
  - cbn. split; [auto | now rewrite app_nil_r].
  - cbn [write_empty map]. unfold io_bind, io_open, io_write.
    destruct (can_create (snd E)).
    + destruct (IH (w ++ [(snd E, ([] : bytes))])) as [Hlog Hok].
      split.
      * intros F HF. apply Hlog in HF as [HF|HF]; [|right; now right].
        apply in_app_or in HF as [HF|[<-|[]]]; [now left | right; now left].
      * intros Hs. rewrite (Hok Hs), map_app, <- app_assoc. reflexivity.
    + cbn [fst snd]. split; [auto | discriminate].
Qed.

Lemma sm_set_In {V : Type} (m : StringMap V) (k : bytes) (v : V)
  (E : bytes * V) :
  In E (sm_set m k v) -> In E m \/ snd E = v.
Proof.
  induction m as [|[k' v'] m IH]; cbn [sm_set].
  - intros [<-|[]]. now right.
  - destruct (bytes_eqb k' k).
    + intros [<-|Hin]; [now right | left; now right].
    + intros [<-|Hin]; [left; now left|].
      apply IH in Hin as [Hin|Hin]; [left; now right | now right].
Qed.

Lemma Worklist_init_outputs :
  forall (Targets Outputs : list bytes) (W0 W : StringMap bytes),
    Worklist_init Targets Outputs W0 = Ok W ->
    forall E, In E W -> In E W0 \/ In (snd E) Outputs.
Proof.
  induction Targets as [|T Ts IH]; intros Outputs W0 W Hinit E HE.
  - cbn in Hinit. injection Hinit as <-. now left.
  - destruct Outputs as [|O Os]; cbn [Worklist_init] in Hinit;
      [discriminate|].
    apply (IH _ _ _ Hinit) in HE as [HE|HE]; [|right; now right].
    apply sm_set_In in HE as [HE|HE]; [now left | right; now left].
Qed.

Lemma sm_entries_In {C : Collaborators} {V : Type} (m : StringMap V)
  (E : bytes * V) :
  In E (sm_entries m) -> In E m.
Proof.
  unfold sm_entries. intros HE. apply in_flat_map in HE as (k & _ & Hk).
  destruct (sm_lookup m k) as [v|] eqn:Hl; [|destruct Hk].
  destruct Hk as [<-|[]]. now apply sm_lookup_Some_In.
Qed.

(** X10.  Whatever the input, the file type and the way it ends, the
    unbundle operation writes to no file other than the output files of the
    configuration. *)
Theorem X10_UnbundleFiles_writes_only_outputs :
  forall (C : Collaborators) (BC : OffloadBundlerConfig) (F : bytes * bytes),
    In F (fst (UnbundleFiles BC)) -> In (fst F) (OutputFileNames BC).
Proof.
  intros C BC F. unfold UnbundleFiles, UnbundleFiles_io.
  destruct (InputFileNames BC) as [|Name rest]; [intros []|].
  destruct (getFileOrSTDIN Name) as [Input|]; [|intros []].
  unfold io_bind at 1. unfold io_lift at 1.
  destruct (CreateFileHandler Input BC) as [FH0| | | |]; try (intros []).
  unfold io_bind at 1. unfold io_lift at 1.
  destruct (ReadHeader FH0 Input) as [FH| | | |]; try (intros []).
  unfold io_bind at 1. unfold io_lift at 1.
  destruct (Worklist_init (TargetNames BC) (OutputFileNames BC) [])
    as [W| | | |] eqn:Hinit; try (intros []).
  unfold io_bind at 1.
  destruct (Unbundle_loop_within BC Input (OutputFileNames BC)
              (S (bundle_bound FH Input)) FH (sm_entries W) false [])
    as [Hlog Hrest].
  { intros F' []. }
  { intros E HE. apply sm_entries_In in HE.
    apply (Worklist_init_outputs _ _ _ _ Hinit) in HE as [[]|HE]. exact HE. }
  destruct (Unbundle_loop _ _ _ _ _ _ _) as [w' [[W' found']|e|msg| |]];
    cbn [fst snd] in *; try (now apply Hlog).
  assert (Htail : forall F', In F' w' \/ In (fst F') (map snd W') ->
                             In (fst F') (OutputFileNames BC)).
  { intros F' [HF|HF]; [now apply Hlog|].
    apply in_map_iff in HF as (E & <- & HE). now apply Hrest. }
  destruct (negb (AllowMissingBundles BC) && negb (Nat.eqb (length W') 0)).
  { cbn [io_lift fst]. now apply Hlog. }
  destruct (Nat.eqb (length W') (length (TargetNames BC))).
  { intros HF. apply Htail. now apply (write_host_or_empty_log BC Input). }
  destruct (negb _).
  { cbn [io_lift fst]. now apply Hlog. }
  intros HF. apply Htail. now apply write_empty_log.
Qed.

(** The theorem at the file that unbundling the sample [.ll] container
    writes for the host. *)
Lemma X10_witness :
  In (B "host.ll", B "define1" ++ NL)
     (fst (@UnbundleFiles Sample.ll_env
             (Sample.unbundling (B "ll") (B "bundle.ll")
                                [B "host.ll"; B "gfx906.ll"])))
  /\ In (B "host.ll") [B "host.ll"; B "gfx906.ll"].
Proof.
  assert (Hin : In (B "host.ll", B "define1" ++ NL)
                   (fst (@UnbundleFiles Sample.ll_env
                           (Sample.unbundling (B "ll") (B "bundle.ll")
                              [B "host.ll"; B "gfx906.ll"])))).
  { vm_compute. left. reflexivity. }
  split; [exact Hin|].
  exact (X10_UnbundleFiles_writes_only_outputs Sample.ll_env
           (Sample.unbundling (B "ll") (B "bundle.ll")
                              [B "host.ll"; B "gfx906.ll"])
           (B "host.ll", B "define1" ++ NL) Hin).
Defined.

Lemma map_snd_combine (A D : Type) (l : list A) (l' : list D) :
  (length l' <= length l)%nat -> map snd (combine l l') = l'.
Proof.
  revert l'; induction l as [|a l IH]; intros [|b l'] H; simpl in *;
    try reflexivity; try lia.
  f_equal. apply IH. lia.
Qed.

(** X11.  Let the targets be pairwise distinct, with one output each.  When
    the unbundle operation returns success, it has written each output file
    exactly once: with the bundle of the target, with a copy of the input, or
    empty. *)
Theorem X11_UnbundleFiles_success_writes_each_output_once :
  forall (C : Collaborators) (BC : OffloadBundlerConfig) (Files : Written),
    NoDup (TargetNames BC) ->
    length (TargetNames BC) = length (OutputFileNames BC) ->
    Permutation (StringMap_order (TargetNames BC)) (TargetNames BC) ->
    UnbundleFiles BC = (Files, Ok tt) ->
    Permutation (map fst Files) (OutputFileNames BC).
Proof.
  intros C BC Files Hnd Hlen Hord.
  set (W := combine (TargetNames BC) (OutputFileNames BC)).
  assert (Hkeys : map fst W = TargetNames BC)
    by (apply map_fst_combine; lia).
  assert (Hvals : map snd W = OutputFileNames BC)
    by (apply map_snd_combine; lia).
  assert (Hperm : Permutation (sm_entries W) W).
  { apply sm_entries_Permutation; rewrite Hkeys; assumption. }
  unfold UnbundleFiles, UnbundleFiles_io.
  destruct (InputFileNames BC) as [|Name rest]; [discriminate|].
  destruct (getFileOrSTDIN Name) as [Input|]; [|discriminate].
  unfold io_bind at 1. unfold io_lift at 1.
  destruct (CreateFileHandler Input BC) as [FH0| | | |]; try discriminate.
  unfold io_bind at 1. unfold io_lift at 1.
  destruct (ReadHeader FH0 Input) as [FH| | | |]; try discriminate.
  unfold io_bind at 1. unfold io_lift at 1.
  rewrite Worklist_init_NoDup by (simpl; assumption || lia).
  cbn [app]. fold W.
  unfold io_bind at 1.
  pose proof (Unbundle_loop_each_once BC Input (OutputFileNames BC)
                (S (bundle_bound FH Input)) FH (sm_entries W) false []) as Hloop.
  destruct (Unbundle_loop _ _ _ _ _ _ _) as [w' [[W' found']|e|msg| |]];
    try discriminate.
  unfold each_once in Hloop. cbn [fst snd] in Hloop.
  destruct Hloop as [_ Hpaths].
  { eapply Permutation_NoDup; [|rewrite <- Hkeys in Hnd; exact Hnd].
    apply Permutation_map, Permutation_sym, Hperm. }
  { cbn [map app]. rewrite <- Hvals. now apply Permutation_map. }
  destruct (negb (AllowMissingBundles BC) && negb (Nat.eqb (length W') 0));
    [discriminate|].
  destruct (Nat.eqb (length W') (length (TargetNames BC))).
  { intros Hrun.
    pose proof (proj2 (write_host_or_empty_log BC Input W' w')) as Hok.
    rewrite Hrun in Hok. cbn [fst snd] in Hok. now rewrite Hok. }
  destruct (negb _); [discriminate|].
  intros Hrun.
  pose proof (proj2 (write_empty_log W' w')) as Hok.
  rewrite Hrun in Hok. cbn [fst snd] in Hok. now rewrite Hok.
Qed.

(** The theorem at the sample [.ll] container, unbundled for its two
    targets. *)
Lemma X11_witness :
  Permutation
    (map fst
       (fst (@UnbundleFiles Sample.ll_env
               (Sample.unbundling (B "ll") (B "bundle.ll")
                                  [B "host.ll"; B "gfx906.ll"]))))
    [B "host.ll"; B "gfx906.ll"].
Proof.
  apply (X11_UnbundleFiles_success_writes_each_output_once Sample.ll_env
           (Sample.unbundling (B "ll") (B "bundle.ll")
                              [B "host.ll"; B "gfx906.ll"])).
  - repeat constructor; simpl; intuition discriminate.
  - reflexivity.
  - apply Permutation_refl.
  - vm_compute. reflexivity.
Defined.

(** ** Unbundling some of the bundles *)

Lemma requested_In (Targets : list bytes) (E : bytes * bytes) :
  requested Targets E = true <-> In (fst E) Targets.
Proof.
  unfold requested. rewrite existsb_exists. split.
  - intros (T & HT & Heq). apply bytes_eqb_eq in Heq. now subst.
  - intros Hin. exists (fst E). split; [exact Hin | apply bytes_eqb_refl].
Qed.

Lemma find_compatible_none {C : Collaborators} (BC : OffloadBundlerConfig)
  (T : bytes) :
  forall W : list (bytes * bytes),
    ~ In T (map fst W) ->
    (forall T', In T' (map fst W) ->
                (isCodeObjectCompatible (mkOffloadTargetInfo T BC)
                                        (mkOffloadTargetInfo T' BC) = true
                 <-> T = T')) ->
    find_compatible BC T W = None.
Proof.
  unfold find_compatible.
  induction W as [|[k o] W IH]; intros Hnot Hcompat; [reflexivity|].
  cbn [List.find fst].
  destruct (isCodeObjectCompatible _ _) eqn:Hc.
  - exfalso. apply Hnot. left. cbn [fst]. symmetry.
    apply (Hcompat k); [now left | exact Hc].
  - apply IH.
    + intros Hin. apply Hnot. now right.
    + intros T' HT'. apply Hcompat. now right.
Qed.

Lemma filter_requested_erase (W : list (bytes * bytes)) (T : bytes)
  (Bs : list (bytes * bytes)) :
  NoDup (map fst W) ->
  ~ In T (map fst Bs) ->
  filter (requested (map fst (Worklist_erase W T))) Bs
  = filter (requested (map fst W)) Bs.
Proof.
  intros Hnd Hnot. apply filter_ext_in. intros E HE.
  apply eq_true_iff_eq. rewrite !requested_In.
  rewrite Worklist_erase_keys by exact Hnd.
  split; [tauto|]. intros Hin. split; [exact Hin|].
  intros Heq. apply Hnot. rewrite <- Heq. now apply in_map.
Qed.

Lemma Unbundle_loop_Scans {C : Collaborators} (BC : OffloadBundlerConfig)
  (Input : bytes) :
  forall (Bs : list (bytes * bytes)) (FH : FileHandler)
         (W : list (bytes * bytes)) (found : bool) (w : Written) (fuel : nat),
    Scans Input FH Bs ->
    NoDup (map fst W) ->
    NoDup (map fst Bs) ->
    (forall T, In T (map fst W) -> In T (map fst Bs)) ->
    compatible_with_own_only BC (map fst Bs) (map fst W) ->
    (forall T, In T (map fst Bs) -> T <> []) ->
    (forall E, In E W -> can_create (snd E) = true) ->
    (length Bs < fuel)%nat ->
    Unbundle_loop fuel BC Input FH W found w
    = (w ++ map (extracted W) (filter (requested (map fst W)) Bs),
       Ok ([], found
               || has_host_bundle BC (filter (requested (map fst W)) Bs))).
Proof.
  induction Bs as [|[T P] Bs IH];
    intros FH W found w fuel HS HndW HndB Hkeys Hself Hne Hcan Hfuel.
  - destruct W as [|[k o] W].
    + destruct fuel; simpl; unfold io_ret;
        now rewrite app_nil_r, orb_false_r.
    + exfalso. apply (Hkeys k). now left.
  - inversion HS as [|? FH1 FH2 FH3 ? ? ? Hstart Hread Hend Hrest Hskip]; subst.
    destruct fuel as [|fuel]; [simpl in Hfuel; lia|].
    inversion HndB as [|? ? HTB HndB']; subst.
    destruct W as [|E0 W0] eqn:HW.
    { assert (Hf : forall l : list (bytes * bytes),
                 filter (requested []) l = [])
        by (induction l as [|B l IHl]; [reflexivity | exact IHl]).
      cbn [Unbundle_loop map]. unfold io_ret. rewrite Hf.
      unfold has_host_bundle. cbn [map existsb].
      now rewrite app_nil_r, orb_false_r. }
    rewrite <- HW in *.
    cbn [filter].
    destruct (requested (map fst W) (T, P)) eqn:Hreq.
    + apply requested_In in Hreq. cbn [fst] in Hreq.
      assert (Hloop : Unbundle_loop (S fuel) BC Input FH W found w
                      = Unbundle_loop fuel BC Input FH3
                          (Worklist_erase W T)
                          (if hasHostKind (mkOffloadTargetInfo T BC)
                           then true else found)
                          (w ++ [(output_of W T, P)])).
      { rewrite HW at 1. cbn [Unbundle_loop]. rewrite <- HW.
        unfold io_bind at 1. unfold io_lift at 1. rewrite Hstart.
        unfold io_bind at 1. unfold io_lift at 1.
        replace (bytes_eqb T []) with false
          by (symmetry; apply bytes_eqb_neq; apply Hne; now left).
        cbn [negb assert].
        rewrite (find_compatible_self BC T W Hreq).
        2:{ intros T' HT'. apply Hself; [now left | exact HT']. }
        cbn [fst snd].
        unfold io_bind at 1. unfold io_open.
        pose proof (Hcan _ (output_of_In W T Hreq)) as Hc. cbn [snd] in Hc.
        rewrite Hc.
        unfold io_bind at 1. unfold io_lift at 1. rewrite Hread.
        unfold io_bind at 1. unfold io_write.
        unfold io_bind at 1. unfold io_lift at 1. rewrite Hend.
        reflexivity. }
      rewrite Hloop.
      rewrite IH; try assumption.
      * rewrite filter_requested_erase by assumption.
        rewrite <- app_assoc. cbn [map app]. f_equal.
        -- f_equal. f_equal.
           apply map_ext_in. intros [T' P'] HE. unfold extracted.
           cbn [fst snd]. f_equal. apply Worklist_erase_output.
           intros ->. apply HTB. apply filter_In in HE as [HE _].
           now apply (in_map fst) in HE.
        -- f_equal. f_equal. unfold has_host_bundle. cbn [existsb fst].
           destruct (hasHostKind (mkOffloadTargetInfo T BC)), found;
             reflexivity.
      * now apply Worklist_erase_NoDup.
      * intros T' HT'. apply Worklist_erase_keys in HT' as [HT' Hneq];
          [|assumption].
        destruct (Hkeys T' HT') as [Heq|Hin]; [cbn in Heq; congruence|exact Hin].
      * intros T1 T2 H1 H2. apply Hself; [now right|].
        apply Worklist_erase_keys in H2; [tauto | assumption].
      * intros T' HT'. apply Hne. now right.
      * intros E HE. apply Hcan. now apply Worklist_erase_In in HE.
      * simpl in Hfuel. lia.
    + assert (Hnot : ~ In T (map fst W)).
      { intros Hin. apply (requested_In (map fst W) (T, P)) in Hin.
        congruence. }
      assert (Hloop : Unbundle_loop (S fuel) BC Input FH W found w
                      = Unbundle_loop fuel BC Input FH1 W found w).
      { rewrite HW at 1. cbn [Unbundle_loop]. rewrite <- HW.
        unfold io_bind at 1. unfold io_lift at 1. rewrite Hstart.
        unfold io_bind at 1. unfold io_lift at 1.
        replace (bytes_eqb T []) with false
          by (symmetry; apply bytes_eqb_neq; apply Hne; now left).
        cbn [negb assert].
        rewrite (find_compatible_none BC T W Hnot); [reflexivity|].
        intros T' HT'. apply Hself; [now left | exact HT']. }
      rewrite Hloop. apply IH; try assumption.
      * intros T' HT'. destruct (Hkeys T' HT') as [Heq|Hin];
          [cbn in Heq; congruence | exact Hin].
      * intros T1 T2 H1 H2. apply Hself; [now right | exact H2].
      * intros T' HT'. apply Hne. now right.
      * simpl in Hfuel. lia.
Qed.

Lemma ReadBundleStart_kind {C : Collaborators} (FH FH1 : FileHandler)
  (Input : bytes) (o : option bytes) :
  ReadBundleStart FH Input = Ok (o, FH1) ->
  keeps_position FH1 = keeps_position FH.
Proof.
  destruct FH as [h|h|h]; cbn [ReadBundleStart]; unfold lift;
    match goal with |- bind ?m _ = _ -> _ => destruct m as [[o' h']| | | |] end;
    cbn [bind]; try discriminate; now intros [= _ <-].
Qed.

Lemma read_keeps_state {C : Collaborators} (FH1 FH2 FH3 : FileHandler)
  (Input P : bytes) :
  keeps_position FH1 = true ->
  ReadBundle FH1 Input = Ok (P, FH2) ->
  ReadBundleEnd FH2 Input = Ok FH3 ->
  FH3 = FH1.
Proof.
  destruct FH1 as [h|h|h]; cbn [keeps_position ReadBundle]; try discriminate;
    intros _.
  - unfold BinaryFileHandler.ReadBundle.
    destruct (assert _ _) eqn:Ha; try discriminate. cbn [bind].
    destruct (BinaryFileHandler.current h) as [[k BI]|]; try discriminate.
    destruct (slice _ _ _); try discriminate.
    cbn [lift bind]. intros [= _ <-]. cbn [ReadBundleEnd].
    unfold BinaryFileHandler.ReadBundleEnd. rewrite Ha. cbn [bind lift1].
    now intros [= <-].
  - unfold ObjectFileHandler.ReadBundle.
    destruct (nth_error _ _) as [[name Content]|]; try discriminate.
    cbn [lift bind]. intros [= _ <-]. cbn [ReadBundleEnd].
    unfold ObjectFileHandler.ReadBundleEnd. cbn [bind lift1].
    now intros [= <-].
Qed.

Lemma Reads_Scans {C : Collaborators} (Input : bytes) (FH : FileHandler)
  (Bs : list (bytes * bytes)) :
  Reads Input FH Bs -> keeps_position FH = true -> Scans Input FH Bs.
Proof.
  induction 1 as [FH FH' Hstart | FH FH1 FH2 FH3 T P Bs Hstart Hread Hend _ IH];
    intros Hkp.
  - eapply Scans_done; exact Hstart.
  - assert (Hkp1 : keeps_position FH1 = true)
      by (rewrite (ReadBundleStart_kind _ _ _ _ Hstart); exact Hkp).
    pose proof (read_keeps_state _ _ _ _ _ Hkp1 Hread Hend) as ->.
    eapply Scans_bundle; try eassumption; now apply IH.
Qed.

Lemma UnbundleFiles_Scans {C : Collaborators} (BC : OffloadBundlerConfig)
  (Stored Input : bytes) (rest : list bytes) (FH0 FH : FileHandler)
  (Bs : list (bytes * bytes)) :
  InputFileNames BC = Stored :: rest ->
  getFileOrSTDIN Stored = Some Input ->
  CreateFileHandler Input BC = Ok FH0 ->
  ReadHeader FH0 Input = Ok FH ->
  Scans Input FH Bs ->
  NoDup (map fst Bs) ->
  (forall T, In T (TargetNames BC) -> In T (map fst Bs)) ->
  (length Bs <= bundle_bound FH Input)%nat ->
  NoDup (TargetNames BC) ->
  length (TargetNames BC) = length (OutputFileNames BC) ->
  Permutation (StringMap_order (TargetNames BC)) (TargetNames BC) ->
  compatible_with_own_only BC (map fst Bs) (TargetNames BC) ->
  (forall T, In T (map fst Bs) -> T <> []) ->
  (forall O, In O (OutputFileNames BC) -> can_create O = true) ->
  (HostInputIndex BC = NoHostIndex
   \/ AllowMissingBundles BC = true
   \/ exists T, In T (TargetNames BC)
                /\ hasHostKind (mkOffloadTargetInfo T BC) = true) ->
  UnbundleFiles BC
  = (map (extracted (combine (TargetNames BC) (OutputFileNames BC)))
         (filter (requested (TargetNames BC)) Bs),
     Ok tt).
Proof.
  intros HIn Hfile Hfh Hhdr HS HndB Hsub Hbound Hnd Hlen Hord Hself Hne Hcan
         Hhost.
  set (W := combine (TargetNames BC) (OutputFileNames BC)).
  assert (Hkeys : map fst W = TargetNames BC)
    by (apply map_fst_combine; lia).
  assert (Hperm : Permutation (sm_entries W) W).
  { apply sm_entries_Permutation; rewrite Hkeys; assumption. }
  assert (HW : forall T, In T (map fst (sm_entries W))
                         <-> In T (TargetNames BC)).
  { intros T. rewrite <- Hkeys. split; apply Permutation_in;
      [|apply Permutation_sym]; apply Permutation_map, Hperm. }
  assert (Hfilter : filter (requested (map fst (sm_entries W))) Bs
                    = filter (requested (TargetNames BC)) Bs).
  { apply filter_ext. intros E. apply eq_true_iff_eq.
    rewrite !requested_In. apply HW. }
  assert (Hloop :
    Unbundle_loop (S (bundle_bound FH Input)) BC Input FH (sm_entries W)
                  false []
    = (map (extracted W) (filter (requested (TargetNames BC)) Bs),
       Ok ([], has_host_bundle BC
                 (filter (requested (TargetNames BC)) Bs)))).
  { rewrite (Unbundle_loop_Scans BC Input Bs); try assumption.
    - rewrite Hfilter. cbn [app orb]. f_equal. apply map_ext. intros [T P].
      unfold extracted, output_of. cbn [fst snd].
      rewrite sm_lookup_entries by (rewrite Hkeys; assumption).
      reflexivity.
    - eapply Permutation_NoDup; [|rewrite <- Hkeys in Hnd; exact Hnd].
      apply Permutation_map, Permutation_sym, Hperm.
    - intros T HT. apply Hsub. now apply HW.
    - intros T T' HT HT'. apply Hself; [exact HT | now apply HW].
    - intros E HE. apply Hcan.
      apply (Permutation_in _ Hperm) in HE. destruct E as [T O].
      now apply in_combine_r in HE.
    - lia. }
  unfold UnbundleFiles, UnbundleFiles_io. rewrite HIn, Hfile.
  unfold io_bind at 1. unfold io_lift at 1. rewrite Hfh.
  unfold io_bind at 1. unfold io_lift at 1. rewrite Hhdr.
  unfold io_bind at 1. unfold io_lift at 1.
  rewrite Worklist_init_NoDup by (simpl; assumption || lia).
  cbn [app]. fold W.
  unfold io_bind at 1. rewrite Hloop.
  cbn [length Nat.eqb negb andb]. rewrite andb_false_r.
  destruct (TargetNames BC) as [|T0 Ts] eqn:HTs.
  - reflexivity.
  - cbn [length Nat.eqb].
    assert (Hcond : has_host_bundle BC (filter (requested (T0 :: Ts)) Bs)
                    || (HostInputIndex BC =? NoHostIndex)
                    || AllowMissingBundles BC = true).
    { destruct Hhost as [Hno|[Hallow|(T & HT & Hk)]].
      - rewrite Hno, Z.eqb_refl. now rewrite orb_true_r.
      - rewrite Hallow. now rewrite orb_true_r.
      - rewrite (has_host_bundle_In BC _ T); [reflexivity| |exact Hk].
        pose proof (Hsub T HT) as HB.
        apply in_map_iff in HB as (E & HE & HEin).
        apply in_map_iff. exists E. split; [exact HE|].
        apply filter_In. split; [exact HEin|].
        apply requested_In. now rewrite HE. }
    rewrite Hcond. reflexivity.
Qed.

Lemma extracted_filter_In (W Bs : list (bytes * bytes)) (O P : bytes) :
  NoDup (map fst W) ->
  In (O, P) (map (extracted W) (filter (requested (map fst W)) Bs))
  <-> exists T, In (T, O) W /\ In (T, P) Bs.
Proof.
  intros Hnd. rewrite in_map_iff. split.
  - intros ([T P'] & Heq & Hin). apply filter_In in Hin as [Hin Hreq].
    apply requested_In in Hreq. cbn [fst] in Hreq.
    unfold extracted in Heq. cbn [fst snd] in Heq.
    injection Heq as <- <-. exists T. split; [|exact Hin].
    now apply output_of_In.
  - intros (T & HW & HB). exists (T, P). split.
    + unfold extracted, output_of. cbn [fst snd].
      now rewrite (sm_lookup_In W T O Hnd HW).
    + apply filter_In. split; [exact HB|]. apply requested_In. cbn [fst].
      now apply (in_map fst) in HW.
Qed.

Lemma next_offload_section_skip :
  forall (skipped rest : list Section_) (idx : nat),
    (forall s, In s skipped -> ObjectFileHandler.IsOffloadSection s = None) ->
    ObjectFileHandler.next_offload_section (skipped ++ rest) idx
    = ObjectFileHandler.next_offload_section rest (idx + length skipped).
Proof.
  induction skipped as [|s skipped IH]; intros rest idx Hno.
  - cbn [app length]. now rewrite Nat.add_0_r.
  - cbn [app ObjectFileHandler.next_offload_section length].
    rewrite (Hno s (or_introl eq_refl)).
    rewrite IH by (intros; apply Hno; now right).
    f_equal. lia.
Qed.

Lemma Object_Reads {C : Collaborators} (Input : bytes)
  (H : ObjectFileHandler.t) :
  forall (rest pre skipped : list Section_) (c : nat),
    ObjectFileHandler.Obj H = pre ++ skipped ++ rest ->
    (forall s, In s skipped -> ObjectFileHandler.IsOffloadSection s = None) ->
    Reads Input (Object (ObjectFileHandler.with_sections H c (length pre)))
          (offload_bundles Input rest).
Proof.
  induction rest as [|s rest IH]; intros pre skipped c HObj Hno.
  - eapply Reads_done. cbn [ReadBundleStart].
    unfold ObjectFileHandler.ReadBundleStart.
    cbn [ObjectFileHandler.with_sections ObjectFileHandler.NextSection
         ObjectFileHandler.Obj].
    rewrite HObj, skipn_app, skipn_all, Nat.sub_diag. cbn [app skipn].
    rewrite next_offload_section_skip by exact Hno. cbn. reflexivity.
  - cbn [offload_bundles flat_map].
    destruct (ObjectFileHandler.IsOffloadSection s) as [T|] eqn:Hs.
    + cbn [app].
      set (i := (length pre + length skipped)%nat).
      eapply Reads_bundle
        with (FH1 := Object (ObjectFileHandler.with_sections H i (S i)))
             (FH2 := Object (ObjectFileHandler.with_sections H i (S i)))
             (FH3 := Object (ObjectFileHandler.with_sections H i (S i))).
      * cbn [ReadBundleStart]. unfold ObjectFileHandler.ReadBundleStart.
        cbn [ObjectFileHandler.with_sections ObjectFileHandler.NextSection
             ObjectFileHandler.Obj].
        rewrite HObj, skipn_app, skipn_all, Nat.sub_diag. cbn [app skipn].
        rewrite next_offload_section_skip by exact Hno.
        cbn [ObjectFileHandler.next_offload_section]. rewrite Hs.
        reflexivity.
      * cbn [ReadBundle]. unfold ObjectFileHandler.ReadBundle.
        cbn [ObjectFileHandler.with_sections ObjectFileHandler.CurrentSection
             ObjectFileHandler.Obj].
        rewrite HObj, app_assoc.
        rewrite nth_error_app2 by (rewrite length_app; lia).
        replace (i - length (pre ++ skipped))%nat with 0%nat
          by (rewrite length_app; lia).
        cbn [nth_error]. destruct s as [name Content]. reflexivity.
      * reflexivity.
      * replace (S i) with (length (pre ++ skipped ++ [s]))
          by (rewrite !length_app; cbn [length]; lia).
        apply (IH (pre ++ skipped ++ [s]) [] i).
        -- rewrite HObj, <- !app_assoc. reflexivity.
        -- intros s' [].
    + cbn [app]. apply (IH pre (skipped ++ [s]) c).
      * rewrite HObj, <- app_assoc. reflexivity.
      * intros s' Hs'. apply in_app_or in Hs' as [Hs'|[<-|[]]];
          [now apply Hno | exact Hs].
Qed.

Lemma offload_bundles_ids (Input : bytes) (secs : list Section_) :
  map fst (offload_bundles Input secs) = offload_ids secs.
Proof.
  unfold offload_bundles, offload_ids.
  induction secs as [|s secs IH]; [reflexivity|].
  cbn [flat_map]. rewrite map_app, IH.
  now destruct (ObjectFileHandler.IsOffloadSection s).
Qed.

Lemma offload_ids_bound (secs : list Section_) :
  (length (offload_ids secs) <= length secs)%nat.
Proof.
  unfold offload_ids. induction secs as [|s secs IH]; [cbn; lia|].
  cbn [flat_map length]. rewrite length_app.
  destruct (ObjectFileHandler.IsOffloadSection s); cbn [length]; lia.
Qed.

Lemma CreateFileHandler_object {C : Collaborators} (Input : bytes)
  (BC : OffloadBundlerConfig) (Obj : list Section_) :
  FilesType BC = B "o" ->
  createBinary Input = Some Obj ->
  CreateFileHandler Input BC = Ok (Object (ObjectFileHandler.new Obj BC)).
Proof.
  intros Hty Hobj. unfold CreateFileHandler, CreateObjectFileHandler.
  rewrite Hty, Hobj. reflexivity.
Qed.

(** X12.  For an object file, the listing of the bundle IDs prints, in the
    order of the sections, the names of the sections that start with the
    magic string, with the magic string removed, one per line, provided that
    no such section is named by the magic string alone. *)
Theorem X12_object_listing :
  forall (C : Collaborators) (BC : OffloadBundlerConfig)
         (Stored Input : bytes) (Obj : list Section_),
    getFileOrSTDIN Stored = Some Input ->
    FilesType BC = B "o" ->
    createBinary Input = Some Obj ->
    (forall T, In T (offload_ids Obj) -> T <> []) ->
    ListBundleIDsInFile Stored BC = Ok (listing (offload_ids Obj)).
Proof.
  intros C BC Stored Input Obj Hfile Hty Hobj Hne.
  apply ListBundleIDsInFile_Lists
    with (Input := Input) (FH0 := Object (ObjectFileHandler.new Obj BC))
         (FH := Object (ObjectFileHandler.new Obj BC)).
  - exact Hfile.
  - now apply CreateFileHandler_object.
  - reflexivity.
  - rewrite <- (offload_bundles_ids Input). apply Reads_Lists.
    apply (Object_Reads Input (ObjectFileHandler.new Obj BC) Obj [] [] 0%nat);
      [reflexivity | intros s []].
  - exact Hne.
  - cbn [bundle_bound ObjectFileHandler.new ObjectFileHandler.Obj].
    apply offload_ids_bound.
Qed.

(** The theorem at the fat object of the samples. *)
Lemma X12_witness :
  @ListBundleIDsInFile Sample.fat_env (B "fat.o")
     (Sample.config (B "o") [] [B "fat.o"] [])
  = Ok (listing [B "host-x86_64-unknown-linux-gnu";
                 B "hip-amdgcn-amd-amdhsa--gfx906"]).
Proof.
  refine (X12_object_listing Sample.fat_env
            (Sample.config (B "o") [] [B "fat.o"] [])
            (B "fat.o") (B "fat object") Sample.fat_sections
            eq_refl eq_refl eq_refl _).
  intros T [<-|[<-|[]]]; discriminate.
Defined.

(** X13.  Unbundling an object file (file type [o]; the first input file
    can be read and is an object file) for pairwise distinct requested
    targets with one output each, every output creatable, returns success,
    and the files it writes are exactly these: for each requested target, at
    the target's output, the contents of the target's offload section, or
    the whole input when those contents are a single zero byte (the host
    bundle of a fat object).  This holds provided that
    - the bundle IDs of the object's offload sections are pairwise distinct
      and not empty;
    - every requested target is one of these bundle IDs;
    - a bundle ID is compatible with a requested target exactly when it
      equals it;
    - the string map of the work list iterates over each requested target
      once;
    - no host input index is set, or [allow_missing_bundles] is set, or a
      target of host kind is among the requested ones. *)
Theorem X13_object_unbundling :
  forall (C : Collaborators) (BC : OffloadBundlerConfig)
         (Stored Input : bytes) (rest : list bytes) (Obj : list Section_),
    InputFileNames BC = Stored :: rest ->
    getFileOrSTDIN Stored = Some Input ->
    FilesType BC = B "o" ->
    createBinary Input = Some Obj ->
    NoDup (offload_ids Obj) ->
    (forall T, In T (offload_ids Obj) -> T <> []) ->
    (forall T, In T (TargetNames BC) -> In T (offload_ids Obj)) ->
    NoDup (TargetNames BC) ->
    length (TargetNames BC) = length (OutputFileNames BC) ->
    Permutation (StringMap_order (TargetNames BC)) (TargetNames BC) ->
    compatible_with_own_only BC (offload_ids Obj) (TargetNames BC) ->
    (forall O, In O (OutputFileNames BC) -> can_create O = true) ->
    (HostInputIndex BC = NoHostIndex
     \/ AllowMissingBundles BC = true
     \/ exists T, In T (TargetNames BC)
                  /\ hasHostKind (mkOffloadTargetInfo T BC) = true) ->
    exists Files : Written,
      UnbundleFiles BC = (Files, Ok tt)
      /\ forall O P,
           In (O, P) Files
           <-> exists T, In (T, O) (combine (TargetNames BC) (OutputFileNames BC))
                         /\ In (T, P) (offload_bundles Input Obj).
Proof.
  intros C BC Stored Input rest Obj HIn Hfile Hty Hobj HndS Hne Hsub Hnd Hlen
         Hord Hself Hcan Hhost.
  assert (Hkeys : map fst (combine (TargetNames BC) (OutputFileNames BC))
                  = TargetNames BC)
    by (apply map_fst_combine; lia).
  eexists. split.
  - apply UnbundleFiles_Scans
      with (Stored := Stored) (Input := Input) (rest := rest)
           (FH0 := Object (ObjectFileHandler.new Obj BC))
           (FH := Object (ObjectFileHandler.new Obj BC))
           (Bs := offload_bundles Input Obj);
      rewrite ?offload_bundles_ids; try assumption.
    + now apply CreateFileHandler_object.
    + reflexivity.
    + apply Reads_Scans; [|reflexivity].
      apply (Object_Reads Input (ObjectFileHandler.new Obj BC) Obj [] [] 0%nat);
        [reflexivity | intros s []].
    + cbn [bundle_bound ObjectFileHandler.new ObjectFileHandler.Obj].
      rewrite <- (length_map fst), offload_bundles_ids.
      apply offload_ids_bound.
  - intros O P. rewrite <- Hkeys at 2.
    apply extracted_filter_In. now rewrite Hkeys.
Qed.

(** The theorem at the fat object of the samples, unbundled for its two
    targets. *)
Lemma X13_witness :
  exists Files : Written,
    @UnbundleFiles Sample.fat_env
      (Sample.unbundling (B "o") (B "fat.o") [B "host.o"; B "gfx906.o"])
    = (Files, Ok tt)
    /\ forall O P,
         In (O, P) Files
         <-> exists T,
               In (T, O) (combine Sample.targets [B "host.o"; B "gfx906.o"])
               /\ In (T, P) (offload_bundles (B "fat object")
                                             Sample.fat_sections).
Proof.
  refine (X13_object_unbundling Sample.fat_env
            (Sample.unbundling (B "o") (B "fat.o") [B "host.o"; B "gfx906.o"])
            (B "fat.o") (B "fat object") [] Sample.fat_sections
            eq_refl eq_refl eq_refl eq_refl _ _ _ _ eq_refl _ _ _ _).
  - repeat constructor; simpl; intuition discriminate.
  - intros T [<-|[<-|[]]]; discriminate.
  - intros T HT. exact HT.
  - repeat constructor; simpl; intuition discriminate.
  - apply Permutation_refl.
  - intros T T' [<-|[<-|[]]] [<-|[<-|[]]]; vm_compute; split; intros Hx;
      try reflexivity; discriminate Hx.
  - intros O HO. reflexivity.
  - right. right. exists (B "host-x86_64-unknown-linux-gnu").
    split; [left; reflexivity | vm_compute; reflexivity].
Defined.

(** X14.  Bundling into a binary container and then unbundling the file
    that was written, for some of the bundled targets: both operations
    return success, and the files that unbundling writes are exactly these:
    for each requested target, at the target's output, the payload that was
    bundled for that target.  The bundles of the other targets are passed
    over.  This holds provided that
    - for bundling: the output can be created, every input can be read,
      there is one input per target, the host input index is set and names
      one of the inputs (or [allow_no_host] is set and there is an input),
      the targets are pairwise distinct and not empty, the file type is one
      with the binary handler, [bundle_alignment] is positive, the sizes fit
      in 64 bits and the last payload is not empty;
    - for unbundling: the file type is the same, the first input file is the
      file that bundling wrote, the requested targets are pairwise distinct
      and all among the bundled ones, there is one creatable output per
      requested target, a bundled target is compatible with a requested
      target exactly when it equals it, and no host input index is set, or
      [allow_missing_bundles] is set, or a target of host kind is among the
      requested ones;
    - the string maps (of the bundles, of the work list) iterate over each
      of their keys once. *)
Theorem X14_binary_unbundling_of_requested_targets :
  forall (C : Collaborators) (BC BCu : OffloadBundlerConfig)
         (Output Stored : bytes) (Outputs rest Inputs : list bytes),
    OutputFileNames BC = Output :: Outputs ->
    can_create Output = true ->
    open_inputs (InputFileNames BC) = Ok Inputs ->
    length (TargetNames BC) = length Inputs ->
    valid_host_input BC (length Inputs) ->
    NoDup (TargetNames BC) ->
    (forall T, In T (TargetNames BC) -> T <> []) ->
    (forall FirstInput,
        CreateFileHandler FirstInput BC
        = Ok (Binary (BinaryFileHandler.new BC))) ->
    0 < BundleAlignment BC ->
    fits_64_bits BC Inputs ->
    last_not_empty Inputs ->
    Permutation (StringMap_order (TargetNames BC)) (TargetNames BC) ->
    (forall file, BundleFiles BC = Ok file ->
                  getFileOrSTDIN Stored = Some file) ->
    FilesType BCu = FilesType BC ->
    InputFileNames BCu = Stored :: rest ->
    NoDup (TargetNames BCu) ->
    (forall T, In T (TargetNames BCu) -> In T (TargetNames BC)) ->
    length (TargetNames BCu) = length (OutputFileNames BCu) ->
    (forall O, In O (OutputFileNames BCu) -> can_create O = true) ->
    Permutation (StringMap_order (TargetNames BCu)) (TargetNames BCu) ->
    compatible_with_own_only BCu (TargetNames BC) (TargetNames BCu) ->
    (HostInputIndex BCu = NoHostIndex
     \/ AllowMissingBundles BCu = true
     \/ exists T, In T (TargetNames BCu)
                  /\ hasHostKind (mkOffloadTargetInfo T BCu) = true) ->
    exists (file : bytes) (Files : Written),
      BundleFiles BC = Ok file
      /\ UnbundleFiles BCu = (Files, Ok tt)
      /\ forall O P,
           In (O, P) Files
           <-> exists T,
                 In (T, O) (combine (TargetNames BCu) (OutputFileNames BCu))
                 /\ In (T, P) (combine (TargetNames BC) Inputs).
Proof.
  intros C BC BCu Output Stored Outputs rest Inputs HOut Hcan Hopen Hlen Hhost
         Hnd Hne Hfh Ha Hfit Hlast Hord Hstored Htype HIn HndU Hsub HlenU
         HcanU HordU Hself Hhostu.
  set (FC := binary_container BC Inputs).
  set (Es := combine (TargetNames BC) Inputs).
  assert (Hkeys : map fst Es = TargetNames BC)
    by (apply map_fst_combine; lia).
  assert (HkeysU : map fst (combine (TargetNames BCu) (OutputFileNames BCu))
                   = TargetNames BCu)
    by (apply map_fst_combine; lia).
  assert (Hbundle : BundleFiles BC = Ok FC)
    by (eapply BundleFiles_Binary; eassumption).
  destruct (Binary_container_Reads BC BCu Inputs Hlen Ha Hfit Hnd Hlast)
    as (H & Hhdr & HR).
  fold FC Es in Hhdr, HR.
  assert (Hperm : Permutation (sm_entries Es) Es)
    by (apply sm_entries_Permutation; rewrite Hkeys; assumption).
  assert (Hids : forall T, In T (map fst (sm_entries Es))
                           <-> In T (TargetNames BC)).
  { intros T. rewrite <- Hkeys. split; apply Permutation_in;
      [|apply Permutation_sym]; apply Permutation_map, Hperm. }
  exists FC. eexists. split; [exact Hbundle|]. split.
  - apply UnbundleFiles_Scans
      with (Stored := Stored) (Input := FC) (rest := rest)
           (FH0 := Binary (BinaryFileHandler.new BCu)) (FH := Binary H)
           (Bs := sm_entries Es); try assumption.
    + now apply Hstored.
    + eapply CreateFileHandler_Binary_type; [apply (Hfh FC) | exact Htype].
    + cbn [ReadHeader]. rewrite Hhdr. reflexivity.
    + apply Reads_Scans; [exact HR | reflexivity].
    + eapply Permutation_NoDup; [|rewrite <- Hkeys in Hnd; exact Hnd].
      apply Permutation_map, Permutation_sym, Hperm.
    + intros T HT. apply Hids. now apply Hsub.
    + cbn [bundle_bound]. rewrite (Permutation_length Hperm).
      rewrite <- (length_map fst), Hkeys.
      now apply binary_container_bound.
    + intros T T' HT HT'. apply Hself; [now apply Hids | exact HT'].
    + intros T HT. apply Hne. now apply Hids.
  - intros O P. rewrite <- HkeysU at 2.
    rewrite extracted_filter_In by (rewrite HkeysU; exact HndU).
    split; intros (T & HW & HB); exists T; (split; [exact HW|]).
    + eapply Permutation_in; [exact Hperm | exact HB].
    + eapply Permutation_in; [apply Permutation_sym, Hperm | exact HB].
Qed.

(** The theorem at the sample [.bc] container, unbundled for the GPU target
    only, with [allow_missing_bundles] set. *)
Lemma X14_witness :
  exists (file : bytes) (Files : Written),
    @BundleFiles Sample.bc_env
      (Sample.bundling (B "bc") [B "a.bc"; B "b.bc"] (B "bundle.bc"))
    = Ok file
    /\ @UnbundleFiles Sample.bc_env
         (Sample.allowing_missing_bundles
            (Sample.config (B "bc") [B "hip-amdgcn-amd-amdhsa--gfx906"]
                           [B "bundle.bc"] [B "gfx906.bc"]))
       = (Files, Ok tt)
    /\ forall O P,
         In (O, P) Files
         <-> exists T,
               In (T, O) [(B "hip-amdgcn-amd-amdhsa--gfx906", B "gfx906.bc")]
               /\ In (T, P) (combine Sample.targets [B "BC1"; B "BC22"]).
Proof.
  refine (X14_binary_unbundling_of_requested_targets Sample.bc_env
            (Sample.bundling (B "bc") [B "a.bc"; B "b.bc"] (B "bundle.bc"))
            (Sample.allowing_missing_bundles
               (Sample.config (B "bc") [B "hip-amdgcn-amd-amdhsa--gfx906"]
                              [B "bundle.bc"] [B "gfx906.bc"]))
            (B "bundle.bc") (B "bundle.bc") [] [] [B "BC1"; B "BC22"]
            eq_refl eq_refl eq_refl eq_refl _ _ _ _ _ _ _ _ _
            eq_refl eq_refl _ _ eq_refl _ _ _ _).
  - split; [intro Hx; discriminate Hx | vm_compute; lia].
  - repeat constructor; simpl; intuition discriminate.
  - intros T [<-|[<-|[]]]; discriminate.
  - intros FirstInput. reflexivity.
  - reflexivity.
  - vm_compute. intro Hx. discriminate Hx.
  - simpl. discriminate.
  - apply Permutation_refl.
  - intros file Hf. vm_compute in Hf. injection Hf as <-.
    vm_compute. reflexivity.
  - repeat constructor; simpl; intuition discriminate.
  - intros T [<-|[]]. right. left. reflexivity.
  - intros O HO. reflexivity.
  - apply Permutation_refl.
  - intros T T' [<-|[<-|[]]] [<-|[]]; vm_compute; split; intros Hx;
      try reflexivity; discriminate Hx.
  - right. left. reflexivity.
Defined.

(** ** Bundling object files *)

Lemma open_inputs_length {C : Collaborators} :
  forall (Names Inputs : list bytes),
    open_inputs Names = Ok Inputs -> length Inputs = length Names.
Proof.
  induction Names as [|N Names IH]; intros Inputs; cbn [open_inputs].
  - now intros [= <-].
  - destruct (getFileOrSTDIN N); [|discriminate].
    destruct (open_inputs Names) as [Bufs| | | |]; cbn [bind];
      try discriminate.
    intros [= <-]. cbn [length]. now rewrite (IH Bufs eq_refl).
Qed.

Lemma ObjcopyArgs_loop_ok {C : Collaborators} (BC : OffloadBundlerConfig)
  (TempFile : bytes) :
  createTemporaryFile = Some TempFile ->
  can_create TempFile = true ->
  forall (n I : nat) (Args : list bytes),
    (I + n <= length (InputFileNames BC))%nat ->
    (I + n <= length (TargetNames BC))%nat ->
    ObjectFileHandler.ObjcopyArgs_loop n I BC Args
    = Ok (Args ++ flat_map (section_args BC TempFile) (seq I n)).
Proof.
  intros Htmp Hcan. induction n as [|n IH]; intros I Args HI HT.
  - cbn. now rewrite app_nil_r.
  - cbn [ObjectFileHandler.ObjcopyArgs_loop seq flat_map].
    destruct (nth_error (InputFileNames BC) I) as [InputFile|] eqn:HIn.
    2:{ apply nth_error_None in HIn. lia. }
    destruct (nth_error (TargetNames BC) I) as [Target|] eqn:HTn.
    2:{ apply nth_error_None in HTn. lia. }
    rewrite Htmp, Hcan.
    assert (Hfile : (if Z.of_nat I =? HostInputIndex BC
                     then Ok TempFile else Ok InputFile)
                    = Ok (if Z.of_nat I =? HostInputIndex BC
                          then TempFile else InputFile))
      by (now destruct (Z.of_nat I =? HostInputIndex BC)).
    rewrite Hfile. cbn [bind].
    rewrite IH by lia. rewrite <- app_assoc. f_equal. f_equal. f_equal.
    unfold section_args.
    rewrite (nth_error_nth _ _ _ HIn), (nth_error_nth _ _ _ HTn).
    reflexivity.
Qed.

Lemma Object_BundleFiles_loop {C : Collaborators} (TempFile Output : bytes)
  (Outputs : list bytes) :
  createTemporaryFile = Some TempFile ->
  can_create TempFile = true ->
  forall (Ts Inputs : list bytes) (H : ObjectFileHandler.t)
         (OS : raw_fd_ostream),
    let BC := ObjectFileHandler.BundlerConfig H in
    let n := ObjectFileHandler.NumberOfInputs H in
    Ts <> [] ->
    (ObjectFileHandler.NumberOfProcessedInputs H + length Ts = n)%nat ->
    (length Ts <= length Inputs)%nat ->
    n = length (InputFileNames BC) ->
    n = length (TargetNames BC) ->
    HostInputIndex BC <> NoHostIndex ->
    (Z.to_nat (HostInputIndex BC) < n)%nat ->
    ObjcopyPath BC <> [] ->
    OutputFileNames BC = Output :: Outputs ->
    BundleFiles_loop Ts Inputs (Object H) OS
    = if PrintExternalCommands BC
         || (ExecuteAndWait (ObjcopyPath BC) (objcopy_command BC TempFile) =? 0)
      then Ok (OS, Object (ObjectFileHandler.with_counts H n n))
      else Err (StringError (B "'llvm-objcopy' tool failed")).
Proof.
  intros Htmp Hcan.
  induction Ts as [|T Ts IH]; intros Inputs H OS BC n Hne Hcount Hlen HnI HnT
                                     Hhost Hidx Hpath HOut;
    [congruence|].
  destruct Inputs as [|Input Inputs]; [cbn in Hlen; lia|].
  cbn [BundleFiles_loop WriteBundleStart ObjectFileHandler.WriteBundleStart
       lift bind WriteBundle ObjectFileHandler.WriteBundle WriteBundleEnd].
  set (H1 := ObjectFileHandler.with_counts H (ObjectFileHandler.NumberOfInputs H)
               (S (ObjectFileHandler.NumberOfProcessedInputs H))).
  unfold ObjectFileHandler.WriteBundleEnd.
  change (ObjectFileHandler.BundlerConfig H1) with BC.
  change (ObjectFileHandler.NumberOfInputs H1) with n.
  change (ObjectFileHandler.NumberOfProcessedInputs H1)
    with (S (ObjectFileHandler.NumberOfProcessedInputs H)).
  cbn [length] in Hcount, Hlen.
  replace (S (ObjectFileHandler.NumberOfProcessedInputs H) <=? n)%nat
    with true by (symmetry; apply Nat.leb_le; lia).
  replace (HostInputIndex BC =? NoHostIndex) with false
    by (symmetry; now apply Z.eqb_neq).
  cbn [assert negb bind].
  destruct Ts as [|T' Ts'].
  - cbn [length] in Hcount.
    replace (S (ObjectFileHandler.NumberOfProcessedInputs H) =? n)%nat
      with true by (symmetry; apply Nat.eqb_eq; lia).
    cbn [negb].
    replace (bytes_eqb (ObjcopyPath BC) []) with false
      by (symmetry; now apply bytes_eqb_neq).
    cbn [assert negb bind].
    rewrite (ObjcopyArgs_loop_ok BC TempFile Htmp Hcan) by lia.
    cbn [bind].
    destruct (nth_error (InputFileNames BC) (Z.to_nat (HostInputIndex BC)))
      as [HostInput|] eqn:Hh.
    2:{ apply nth_error_None in Hh. lia. }
    rewrite HOut.
    unfold ObjectFileHandler.executeObjcopy.
    change (ObjectFileHandler.BundlerConfig H1) with BC.
    assert (Hcmd : [B "llvm-objcopy"]
                   ++ flat_map (section_args BC TempFile) (seq 0 n)
                   ++ [B "--"; HostInput; Output]
                   = objcopy_command BC TempFile).
    { unfold objcopy_command. rewrite <- HnI, HOut.
      rewrite (nth_error_nth _ _ _ Hh). reflexivity. }
    rewrite <- app_assoc, Hcmd.
    destruct (PrintExternalCommands BC); cbn [orb bind lift BundleFiles_loop].
    + subst H1.
      replace (S (ObjectFileHandler.NumberOfProcessedInputs H)) with n by lia.
      reflexivity.
    + destruct (ExecuteAndWait (ObjcopyPath BC) (objcopy_command BC TempFile)
                =? 0); cbn [negb bind lift BundleFiles_loop]; [|reflexivity].
      subst H1.
      replace (S (ObjectFileHandler.NumberOfProcessedInputs H)) with n by lia.
      reflexivity.
  - cbn [length] in Hcount.
    replace (S (ObjectFileHandler.NumberOfProcessedInputs H) =? n)%nat
      with false by (symmetry; apply Nat.eqb_neq; lia).
    cbn [negb lift bind].
    rewrite (IH Inputs H1 OS); try assumption; try discriminate.
    + reflexivity.
    + cbn [length]. subst H1. cbn. lia.
    + lia.
Qed.

(** X15.  The result of bundling object files is decided by the exit code
    of [llvm-objcopy] on one command line: the word [llvm-objcopy]; for each
    input in order an [--add-section] argument that names the target's
    section and the input file (the temporary file for the host input) and
    a [--set-section-flags] argument with [readonly,exclude]; then [--],
    the host input file and the output file.  [BundleFiles] returns success,
    with nothing written by the bundler itself to its output stream, when
    this exit code is 0 or when the commands are only printed, and the error
    "'llvm-objcopy' tool failed" otherwise.  This holds provided that the
    output can be created, every input can be read, there is one input per
    target, [allow_no_host] is not set, the host input index is set and
    names one of the inputs, the file type is [o], the host input is an
    object file, the path of [llvm-objcopy] is not empty, and a temporary
    file can be named and created. *)
Theorem X15_BundleFiles_object_runs_objcopy :
  forall (C : Collaborators) (BC : OffloadBundlerConfig)
         (Output TempFile HostInput : bytes) (Outputs Inputs : list bytes)
         (Obj : list Section_),
    OutputFileNames BC = Output :: Outputs ->
    can_create Output = true ->
    open_inputs (InputFileNames BC) = Ok Inputs ->
    length (TargetNames BC) = length Inputs ->
    AllowNoHost BC = false ->
    HostInputIndex BC <> NoHostIndex ->
    nth_error Inputs (Z.to_nat (HostInputIndex BC)) = Some HostInput ->
    FilesType BC = B "o" ->
    createBinary HostInput = Some Obj ->
    ObjcopyPath BC <> [] ->
    createTemporaryFile = Some TempFile ->
    can_create TempFile = true ->
    BundleFiles BC
    = if PrintExternalCommands BC
         || (ExecuteAndWait (ObjcopyPath BC) (objcopy_command BC TempFile) =? 0)
      then Ok []
      else Err (StringError (B "'llvm-objcopy' tool failed")).
Proof.
  intros C BC Output TempFile HostInput Outputs Inputs Obj HOut Hcan Hopen Hlen
         Hallow Hhost Hnth Hty Hobj Hpath Htmp Hcant.
  pose proof (open_inputs_length _ _ Hopen) as HlenI.
  assert (Hidx : (Z.to_nat (HostInputIndex BC) < length Inputs)%nat)
    by (apply nth_error_Some; congruence).
  unfold BundleFiles. rewrite HOut, Hcan, Hopen, Hallow. cbn [negb bind].
  replace (HostInputIndex BC =? NoHostIndex) with false
    by (symmetry; now apply Z.eqb_neq).
  cbn [negb orb assert bind]. rewrite Hnth.
  rewrite (CreateFileHandler_object HostInput BC Obj Hty Hobj).
  cbn [bind WriteHeader]. unfold ObjectFileHandler.WriteHeader.
  cbn [ObjectFileHandler.BundlerConfig ObjectFileHandler.new].
  replace (HostInputIndex BC =? NoHostIndex) with false
    by (symmetry; now apply Z.eqb_neq).
  cbn [negb assert bind lift ObjectFileHandler.NumberOfProcessedInputs].
  rewrite (Object_BundleFiles_loop TempFile Output Outputs Htmp Hcant);
    cbn [ObjectFileHandler.with_counts ObjectFileHandler.BundlerConfig
         ObjectFileHandler.NumberOfInputs ObjectFileHandler.new
         ObjectFileHandler.NumberOfProcessedInputs];
    try assumption; try lia.
  - destruct (PrintExternalCommands BC || _); reflexivity.
  - intros HT. rewrite HT in Hlen. cbn in Hlen. lia.
Qed.

(** The theorem at a host and a device object file. *)
Lemma X15_witness :
  objcopy_command Sample.object_bundling (B "/tmp/clang-offload-bundler.tmp")
  = [B "llvm-objcopy";
     B "--add-section=__CLANG_OFFLOAD_BUNDLE__host-x86_64-unknown-linux-gnu=/tmp/clang-offload-bundler.tmp";
     B "--set-section-flags=__CLANG_OFFLOAD_BUNDLE__host-x86_64-unknown-linux-gnu=readonly,exclude";
     B "--add-section=__CLANG_OFFLOAD_BUNDLE__hip-amdgcn-amd-amdhsa--gfx906=dev.o";
     B "--set-section-flags=__CLANG_OFFLOAD_BUNDLE__hip-amdgcn-amd-amdhsa--gfx906=readonly,exclude";
     B "--"; B "host.o"; B "fat.o"]
  /\ @BundleFiles Sample.objects_env Sample.object_bundling = Ok [].
Proof.
  split; [reflexivity|].
  refine (X15_BundleFiles_object_runs_objcopy Sample.objects_env
            Sample.object_bundling (B "fat.o")
            (B "/tmp/clang-offload-bundler.tmp") (B "host object") []
            [B "host object"; B "device object"] [(B ".text", B "host code")]
            eq_refl eq_refl eq_refl eq_refl eq_refl _ eq_refl eq_refl eq_refl
            _ eq_refl eq_refl).
  - intro Hx. discriminate Hx.
  - intro Hx. discriminate Hx.
Defined.

(** ** Unbundling an archive *)

Lemma replace_colons_colon_free (Name : bytes) :
  contains_char colon (replace_colons Name) = false.
Proof.
  unfold contains_char, replace_colons.
  induction Name as [|c Name IH]; [reflexivity|].
  cbn [map existsb]. rewrite IH, orb_false_r.
  destruct (Ascii.eqb c colon) eqn:E; [reflexivity|].
  now rewrite Ascii.eqb_sym.
Qed.

Lemma add_members_colon_free (Member : ArchiveMember) :
  contains_char colon (fst Member) = false ->
  forall (Targets : list bytes) (M : ArchivesMap),
    colon_free_members M -> colon_free_members (add_members Targets Member M).
Proof.
  intros HM. induction Targets as [|T Targets IH]; intros M HMs;
    cbn [add_members]; [exact HMs|].
  apply IH. intros E HE.
  destruct (sm_lookup M T) as [Ms|] eqn:Hl;
    apply sm_set_In in HE as [HE|HE]; try (now apply HMs).
  - rewrite HE. apply Forall_app. split.
    + apply sm_lookup_Some_In in Hl. exact (HMs _ Hl).
    + now constructor.
  - rewrite HE. now constructor.
Qed.

Lemma UnbundleArchive_entries_colon_free {C : Collaborators}
  (BC : OffloadBundlerConfig) (File Buffer : bytes) :
  forall (fuel : nat) (FH : FileHandler) (CodeObject : bytes)
         (M M' : ArchivesMap),
    colon_free_members M ->
    UnbundleArchive_entries fuel BC File Buffer FH CodeObject M = Ok M' ->
    colon_free_members M'.
Proof.
  induction fuel as [|fuel IH]; intros FH CodeObject M M' HM;
    cbn [UnbundleArchive_entries];
    destruct (bytes_eqb CodeObject []); try (now intros [= <-]);
    try discriminate.
  destruct (hasHostKind (mkOffloadTargetInfo CodeObject BC)).
  - cbn [bind].
    destruct (ReadBundleEnd FH Buffer) as [FH1| | | |]; cbn [bind];
      try discriminate.
    destruct (ReadBundleStart FH1 Buffer) as [[Next FH2]| | | |]; cbn [bind];
      try discriminate.
    now apply IH.
  - destruct (getCompatibleOffloadTargets _ _ _) as [found Targets].
    destruct found.
    + destruct (ReadBundle FH Buffer) as [[Data FH0]| | | |]; cbn [bind];
        try discriminate.
      destruct (ReadBundleEnd FH0 Buffer) as [FH1| | | |]; cbn [bind];
        try discriminate.
      destruct (ReadBundleStart FH1 Buffer) as [[Next FH2]| | | |];
        cbn [bind]; try discriminate.
      apply IH. apply add_members_colon_free; [|exact HM].
      apply replace_colons_colon_free.
    + cbn [bind].
      destruct (ReadBundleEnd FH Buffer) as [FH1| | | |]; cbn [bind];
        try discriminate.
      destruct (ReadBundleStart FH1 Buffer) as [[Next FH2]| | | |];
        cbn [bind]; try discriminate.
      now apply IH.
Qed.

Lemma UnbundleArchive_children_colon_free {C : Collaborators}
  (BC : OffloadBundlerConfig) :
  forall (Children : list ArchiveMember) (M M' : ArchivesMap),
    colon_free_members M ->
    UnbundleArchive_children BC Children M = Ok M' ->
    colon_free_members M'.
Proof.
  induction Children as [|[Name Buffer] Children IH]; intros M M' HM;
    cbn [UnbundleArchive_children]; [now intros [= <-]|].
  destruct (CreateFileHandler Buffer BC) as [FH0| | | |]; cbn [bind];
    try discriminate.
  destruct (ReadHeader FH0 Buffer) as [FH| | | |]; cbn [bind];
    try discriminate.
  destruct (ReadBundleStart FH Buffer) as [[[CodeObject|] FH1]| | | |];
    cbn [bind]; try discriminate.
  - destruct (UnbundleArchive_entries _ _ _ _ _ _ _) as [M1| | | |] eqn:He;
      cbn [bind]; try discriminate.
    apply IH. eapply UnbundleArchive_entries_colon_free; eassumption.
  - now apply IH.
Qed.

Lemma writeArchives_members {C : Collaborators} (BC : OffloadBundlerConfig)
  (IFName : bytes) (Names : StringMap bytes) (M : ArchivesMap)
  (P : list ArchiveMember -> Prop) :
  P [] ->
  (forall E, In E M -> P (snd E)) ->
  forall (Targets : list bytes) (w : list (bytes * list ArchiveMember)),
    (forall F, In F w -> P (snd F)) ->
    forall F, In F (fst (writeArchives BC IFName Targets Names M w)) ->
              P (snd F).
Proof.
  intros Hnil HM. induction Targets as [|T Targets IH]; intros w Hw;
    cbn [writeArchives]; [exact Hw|].
  assert (Hstep : forall (Name : bytes) (Ms : list ArchiveMember),
             P Ms -> forall F, In F (w ++ [(Name, Ms)]) -> P (snd F)).
  { intros Name Ms HMs F HF. apply in_app_or in HF as [HF|[<-|[]]];
      [now apply Hw | exact HMs]. }
  destruct (sm_lookup M T) as [Ms|] eqn:Hl.
  - unfold io_bind, io_writeArchive.
    destruct (writeArchive_ok _); [|exact Hw].
    apply IH. apply Hstep. apply sm_lookup_Some_In in Hl. exact (HM _ Hl).
  - destruct (negb (AllowMissingBundles BC)); [exact Hw|].
    unfold io_bind, io_writeArchive.
    destruct (writeArchive_ok _); [|exact Hw].
    apply IH. now apply Hstep.
Qed.

(** X16.  No member of an archive that [UnbundleArchive] writes has a [':']
    in its name, whatever the input archive, the targets and the way the
    operation ends: the [':'] of a target feature list is replaced in every
    member's name. *)
Theorem X16_UnbundleArchive_member_names_without_colon :
  forall (C : Collaborators) (BC : OffloadBundlerConfig)
         (Path : bytes) (Members : list ArchiveMember) (Member : ArchiveMember),
    In (Path, Members) (fst (UnbundleArchive BC)) ->
    In Member Members ->
    contains_char colon (fst Member) = false.
Proof.
  intros C BC Path Members Member HF HMem.
  assert (Hall : Forall (fun Member => contains_char colon (fst Member) = false)
                        (snd (Path, Members))).
  { revert HF. unfold UnbundleArchive, UnbundleArchive_io.
    unfold io_bind at 1. unfold io_lift at 1.
    destruct (Worklist_init _ _ _) as [Names| | | |]; try (intros []).
    destruct (InputFileNames BC) as [|IFName rest]; [intros []|].
    destruct (getFileOrSTDIN IFName) as [Buf|]; [|intros []].
    destruct (Archive_children Buf) as [Children|]; [|intros []].
    unfold io_bind at 1. unfold io_lift at 1.
    destruct (UnbundleArchive_children BC Children []) as [M| | | |] eqn:Hch;
      try (intros []).
    apply writeArchives_members.
    - constructor.
    - apply (UnbundleArchive_children_colon_free BC Children [] M);
        [intros E [] | exact Hch].
    - intros F []. }
  cbn [snd] in Hall. rewrite Forall_forall in Hall. now apply Hall.
Qed.

(** The theorem at an archive whose member holds a bundle for the target
    [hip-amdgcn-amd-amdhsa--gfx906:xnack+]. *)
Lemma X16_witness :
  @UnbundleArchive Sample.xnack_env Sample.xnack_config
  = ([(B "out.a",
       [(B "foo-hip-amdgcn-amd-amdhsa--gfx906_xnack+foo.bc", B "code")])],
     Ok tt)
  /\ contains_char colon (B "foo-hip-amdgcn-amd-amdhsa--gfx906_xnack+foo.bc")
     = false.
Proof.
  split; [vm_compute; reflexivity|].
  apply (X16_UnbundleArchive_member_names_without_colon Sample.xnack_env
           Sample.xnack_config (B "out.a")
           [(B "foo-hip-amdgcn-amd-amdhsa--gfx906_xnack+foo.bc", B "code")]
           (B "foo-hip-amdgcn-amd-amdhsa--gfx906_xnack+foo.bc", B "code")).
  - vm_compute. left. reflexivity.
  - left. reflexivity.
Defined.

Lemma output_of_combine (Ts Outs : list bytes) :
  NoDup Ts -> length Ts = length Outs ->
  map (output_of (combine Ts Outs)) Ts = Outs.
Proof.
  intros Hnd Hlen.
  pose proof (extracted_combine Ts Outs Ts [] [] eq_refl Hlen eq_refl Hnd)
    as He.
  cbn [app] in He. apply (f_equal (map fst)) in He.
  rewrite map_map in He. rewrite (map_fst_combine _ _ Outs Ts) in He by lia.
  transitivity (map (output_of (combine Ts Outs)) (map fst (combine Ts Ts))).
  - now rewrite map_fst_combine by lia.
  - rewrite map_map. exact He.
Qed.

Lemma writeArchives_success_paths {C : Collaborators}
  (BC : OffloadBundlerConfig) (IFName : bytes) (Names : StringMap bytes)
  (M : ArchivesMap) :
  forall (Targets : list bytes) (w w' : list (bytes * list ArchiveMember)),
    writeArchives BC IFName Targets Names M w = (w', Ok tt) ->
    map fst w' = map fst w ++ map (output_of Names) Targets.
Proof.
  induction Targets as [|T Targets IH]; intros w w'; cbn [writeArchives map].
  - unfold io_ret. intros [= <-]. now rewrite app_nil_r.
  - fold (output_of Names T).
    destruct (sm_lookup M T) as [Ms|].
    + unfold io_bind, io_writeArchive.
      destruct (writeArchive_ok _); [|discriminate].
      intros Hrun. rewrite (IH _ _ Hrun), map_app, <- app_assoc. reflexivity.
    + destruct (negb (AllowMissingBundles BC)); [discriminate|].
      unfold io_bind, io_writeArchive.
      destruct (writeArchive_ok _); [|discriminate].
      intros Hrun. rewrite (IH _ _ Hrun), map_app, <- app_assoc. reflexivity.
Qed.

(** X17.  Let the targets be pairwise distinct, with one output each.  When
    [UnbundleArchive] returns success, it has written exactly one archive
    for each target, at the target's output, in the order of the targets. *)
Theorem X17_UnbundleArchive_success_one_archive_per_target :
  forall (C : Collaborators) (BC : OffloadBundlerConfig)
         (Archives : list (bytes * list ArchiveMember)),
    NoDup (TargetNames BC) ->
    length (TargetNames BC) = length (OutputFileNames BC) ->
    UnbundleArchive BC = (Archives, Ok tt) ->
    map fst Archives = OutputFileNames BC.
Proof.
  intros C BC Archives Hnd Hlen.
  unfold UnbundleArchive, UnbundleArchive_io.
  rewrite Worklist_init_NoDup by (simpl; assumption || lia).
  unfold io_bind at 1. unfold io_lift at 1. cbn [app].
  destruct (InputFileNames BC) as [|IFName rest]; [discriminate|].
  destruct (getFileOrSTDIN IFName) as [Buf|]; [|discriminate].
  destruct (Archive_children Buf) as [Children|]; [|discriminate].
  unfold io_bind at 1. unfold io_lift at 1.
  destruct (UnbundleArchive_children BC Children []) as [M| | | |];
    try discriminate.
  intros Hrun. apply writeArchives_success_paths in Hrun.
  rewrite Hrun. cbn [map app]. now apply output_of_combine.
Qed.

(** The theorem at the archive with a bundle for
    [hip-amdgcn-amd-amdhsa--gfx906:xnack+]. *)
Lemma X17_witness :
  map fst (fst (@UnbundleArchive Sample.xnack_env Sample.xnack_config))
  = [B "out.a"].
Proof.
  apply (X17_UnbundleArchive_success_one_archive_per_target Sample.xnack_env
           Sample.xnack_config).
  - repeat constructor; simpl; intuition discriminate.
  - reflexivity.
  - vm_compute. reflexivity.
Defined.

(** ** Passing over the bundles of a text container *)

Lemma find_none (A Q needle : bytes) :
  contains Q needle = false -> find (A ++ Q) needle (len A) = npos.
Proof.
  intros Hno. unfold find. rewrite len_app.
  pose proof (len_nonneg Q).
  replace (len A + len Q <? len A) with false
    by (symmetry; apply Z.ltb_ge; lia).
  rewrite skipn_len_app. unfold contains in Hno.
  destruct (find_first needle Q); [discriminate | reflexivity].
Qed.

Lemma Text_ReadBundleStart_from (H : TextFileHandler.t) (a b : Z)
  (Input : bytes) :
  find Input (TextFileHandler.BundleStartString H) a
  = find Input (TextFileHandler.BundleStartString H) b ->
  TextFileHandler.ReadBundleStart (TextFileHandler.with_ReadChars H a) Input
  = TextFileHandler.ReadBundleStart (TextFileHandler.with_ReadChars H b) Input.
Proof.
  intros Hf. unfold TextFileHandler.ReadBundleStart.
  cbn [TextFileHandler.with_ReadChars TextFileHandler.ReadChars
       TextFileHandler.BundleStartString TextFileHandler.Comment
       TextFileHandler.BundleEndString].
  rewrite Hf. reflexivity.
Qed.

Lemma Text_ReadBundleStart_none (H : TextFileHandler.t) (Input : bytes) :
  find Input (TextFileHandler.BundleStartString H)
       (TextFileHandler.ReadChars H) = npos ->
  TextFileHandler.ReadBundleStart H Input
  = Ok (None, TextFileHandler.with_ReadChars H npos).
Proof.
  intros Hf. unfold TextFileHandler.ReadBundleStart. rewrite Hf.
  rewrite Z.eqb_refl. reflexivity.
Qed.

Lemma find_first_none_app (S' P X : bytes) :
  newline_free S' ->
  find_first (newline :: S') P = None ->
  find_first (newline :: S') (newline :: X) = None ->
  find_first (newline :: S') (P ++ newline :: X) = None.
Proof.
  intros Hfree. induction P as [|c P IH]; intros HP HX; [exact HX|].
  cbn [find_first] in HP.
  destruct (starts_with (newline :: S') (c :: P)) eqn:Hs; [discriminate|].
  destruct (find_first (newline :: S') P) eqn:Hf; [discriminate|].
  cbn [app find_first].
  replace (starts_with (newline :: S') (c :: P ++ newline :: X)) with false.
  - now rewrite (IH eq_refl HX).
  - symmetry. cbn [starts_with] in *.
    destruct (Ascii.eqb newline c); [|reflexivity]. cbn [andb] in *.
    now apply starts_with_before_newline.
Qed.

Lemma find_first_newline_free (S' Y : bytes) :
  S' <> [] ->
  newline_free Y ->
  find_first (newline :: S') (Y ++ [newline]) = None.
Proof.
  intros HS. induction Y as [|y Y IH]; intros HY.
  - destruct S' as [|s S']; [congruence|]. reflexivity.
  - cbn [app find_first starts_with].
    destruct (Ascii.eqb newline y) eqn:E.
    + apply Ascii.eqb_eq in E. subst. exfalso. apply HY. now left.
    + cbn [andb]. rewrite IH; [reflexivity|].
      intros Hin. apply HY. now right.
Qed.

Section TextScanning.
Context {C : Collaborators}.
Variable H : TextFileHandler.t.
Variables S' E' : bytes.
Hypothesis HS : TextFileHandler.BundleStartString H = newline :: S'.
Hypothesis HE : TextFileHandler.BundleEndString H = newline :: E'.
Hypothesis HS' : newline_free S'.
Hypothesis HE' : newline_free E'.
Hypothesis Hdiverge : forall X, starts_with S' (E' ++ X) = false.

Lemma S'_not_empty : S' <> [].
Proof. intros ->. now specialize (Hdiverge []). Qed.

(** A payload without the start marker, followed by its end marker line,
    holds no start marker. *)
Lemma end_line_without_start (T P : bytes) :
  newline_free T ->
  contains P (newline :: S') = false ->
  contains (P ++ newline :: E' ++ T ++ [newline]) (newline :: S') = false.
Proof.
  intros HT HP. unfold contains in *.
  destruct (find_first (newline :: S') P) eqn:Hf; [discriminate|].
  assert (Hline : find_first (newline :: S')
                             (newline :: E' ++ T ++ [newline]) = None).
  { cbn [find_first starts_with]. rewrite Ascii.eqb_refl. cbn [andb].
    rewrite Hdiverge.
    rewrite app_assoc, find_first_newline_free;
      [reflexivity | apply S'_not_empty | now apply newline_free_app]. }
  now rewrite find_first_none_app.
Qed.

Lemma Text_Scans :
  forall (Entries : list (bytes * bytes)) (A Q Input : bytes),
    Input = A ++ Q ++ text_container H Entries ->
    len Input < npos ->
    Forall (text_skip_safe H) Entries ->
    contains Q (newline :: S') = false ->
    Scans Input (Text (TextFileHandler.with_ReadChars H (len A))) Entries.
Proof.
  induction Entries as [|[T P] rest IH]; intros A Q Input HIn Hlen Hsafe HQ.
  - cbn [text_container flat_map] in HIn. rewrite app_nil_r in HIn. subst Input.
    eapply Scans_done. cbn [ReadBundleStart].
    rewrite Text_ReadBundleStart_none; [reflexivity|].
    cbn [TextFileHandler.with_ReadChars TextFileHandler.ReadChars
         TextFileHandler.BundleStartString].
    rewrite HS. now apply find_none.
  - inversion Hsafe as [|? ? (HT & HP & HPS) Hsafe']; subst.
    cbn [fst snd] in HT, HP, HPS. rewrite HE in HP. rewrite HS in HPS.
    set (R := text_container H rest).
    set (Input := A ++ Q ++ text_container H ((T, P) :: rest)) in *.
    set (A1 := A ++ Q).
    assert (HInput : Input
                     = A1 ++ (newline :: S') ++ T
                       ++ newline :: P ++ newline :: E' ++ T ++ newline :: R).
    { subst Input R A1. cbn [text_container flat_map].
      rewrite (text_entry_parts H S' E' HS HE). norm_app. reflexivity. }
    set (p1 := len A1 + len (newline :: S') + len T + 1).
    assert (Hstart : TextFileHandler.ReadBundleStart
                       (TextFileHandler.with_ReadChars H (len A)) Input
                     = Ok (Some T, TextFileHandler.with_ReadChars H p1)).
    { rewrite (Text_ReadBundleStart_from H (len A) (len A1)).
      - rewrite HInput.
        rewrite Text_ReadBundleStart;
          [reflexivity | exact HS | exact HT | now rewrite <- HInput].
      - rewrite HS.
        transitivity (len A + len Q).
        + subst Input. cbn [text_container flat_map].
          rewrite (text_entry_parts H S' E' HS HE). norm_app.
          now apply find_marker.
        + rewrite HInput. rewrite find_here. subst A1. solve_len. }
    apply Scans_bundle
      with (FH1 := Text (TextFileHandler.with_ReadChars H p1))
           (FH2 := Text (TextFileHandler.with_ReadChars H (p1 + len P)))
           (FH3 := Text (TextFileHandler.with_ReadChars H
                           (p1 + len P + 1 + len (E' ++ T) + 1))).
    + cbn [ReadBundleStart]. rewrite Hstart. reflexivity.
    + cbn [ReadBundle].
      replace p1 with (len (A1 ++ (newline :: S') ++ T ++ [newline]))
        by (subst p1; solve_len).
      replace Input
        with ((A1 ++ (newline :: S') ++ T ++ [newline])
              ++ P ++ newline :: E' ++ T ++ newline :: R)
        by (rewrite HInput; norm_app; reflexivity).
      rewrite Text_ReadBundle; try assumption; [reflexivity|].
      replace ((A1 ++ (newline :: S') ++ T ++ [newline])
               ++ P ++ newline :: E' ++ T ++ newline :: R)
        with Input by (rewrite HInput; norm_app; reflexivity).
      exact Hlen.
    + cbn [ReadBundleEnd].
      replace (p1 + len P)
        with (len (A1 ++ (newline :: S') ++ T ++ newline :: P))
        by (subst p1; solve_len).
      replace Input
        with ((A1 ++ (newline :: S') ++ T ++ newline :: P)
              ++ newline :: (E' ++ T) ++ newline :: R)
        by (rewrite HInput; norm_app; reflexivity).
      rewrite Text_ReadBundleEnd; [reflexivity | now apply newline_free_app |].
      replace ((A1 ++ (newline :: S') ++ T ++ newline :: P)
               ++ newline :: (E' ++ T) ++ newline :: R)
        with Input by (rewrite HInput; norm_app; reflexivity).
      exact Hlen.
    + replace (p1 + len P + 1 + len (E' ++ T) + 1)
        with (len (A1 ++ text_entry H (T, P))).
      * apply (IH (A1 ++ text_entry H (T, P)) []); try assumption;
          [|reflexivity].
        subst Input A1. cbn [text_container flat_map app].
        norm_app. reflexivity.
      * subst p1. rewrite (text_entry_parts H S' E' HS HE). solve_len.
    + replace p1 with (len (A1 ++ (newline :: S') ++ T ++ [newline]))
        by (subst p1; solve_len).
      apply (IH (A1 ++ (newline :: S') ++ T ++ [newline])
                (P ++ newline :: E' ++ T ++ [newline])); try assumption.
      * rewrite HInput. subst R. norm_app. reflexivity.
      * now apply end_line_without_start.
Qed.

End TextScanning.

Lemma Text_handler_Scans {C : Collaborators} (H : TextFileHandler.t)
  (Entries : list (bytes * bytes)) :
  H = TextFileHandler.new (B "//") \/ H = TextFileHandler.new (B "#")
  \/ H = TextFileHandler.new (B ";") ->
  len (text_container H Entries) < npos ->
  Forall (text_skip_safe H) Entries ->
  Scans (text_container H Entries) (Text H) Entries.
Proof.
  intros HH Hlen Hsafe.
  assert (Hscan : Scans (text_container H Entries)
                    (Text (TextFileHandler.with_ReadChars H (len [])))
                    Entries).
  { apply (Text_Scans H (tl (TextFileHandler.BundleStartString H))
                        (tl (TextFileHandler.BundleEndString H)))
      with (Q := []);
      try assumption; try reflexivity;
      destruct HH as [->|[->| ->]]; try reflexivity;
      try (apply newline_free_check; reflexivity);
      intros X; reflexivity. }
  destruct HH as [->|[->| ->]]; exact Hscan.
Qed.

(** X18.  Bundling into a text container and then unbundling the file that
    was written, for some of the bundled targets: both operations return
    success, and the files that unbundling writes are exactly these: for
    each requested target, at the target's output, the payload that was
    bundled for that target.  The bundles of the other targets are passed
    over: the next start marker is searched from the start of their
    payload.  This holds provided that
    - for bundling: the output can be created, every input can be read,
      there is one input per target, the host input index is set and names
      one of the inputs (or [allow_no_host] is set and there is an input),
      the targets are pairwise distinct and not empty, the file type is one
      with a text handler, no target name holds a newline, no payload
      contains the start marker or the end marker of the container, and the
      container is smaller than [2^64 - 1] bytes;
    - for unbundling: the file type is the same, the first input file is the
      file that bundling wrote, the requested targets are pairwise distinct
      and all among the bundled ones, there is one creatable output per
      requested target, a bundled target is compatible with a requested
      target exactly when it equals it, and no host input index is set, or
      [allow_missing_bundles] is set, or a target of host kind is among the
      requested ones;
    - the string map of the work list iterates over each requested target
      once. *)
Theorem X18_text_unbundling_of_requested_targets :
  forall (C : Collaborators) (BC BCu : OffloadBundlerConfig)
         (H : TextFileHandler.t)
         (Output Stored : bytes) (Outputs rest Inputs : list bytes),
    OutputFileNames BC = Output :: Outputs ->
    can_create Output = true ->
    open_inputs (InputFileNames BC) = Ok Inputs ->
    length (TargetNames BC) = length Inputs ->
    valid_host_input BC (length Inputs) ->
    NoDup (TargetNames BC) ->
    (forall T, In T (TargetNames BC) -> T <> []) ->
    (forall FirstInput, CreateFileHandler FirstInput BC = Ok (Text H)) ->
    Forall (text_skip_safe H) (combine (TargetNames BC) Inputs) ->
    len (text_container H (combine (TargetNames BC) Inputs)) < npos ->
    (forall file, BundleFiles BC = Ok file ->
                  getFileOrSTDIN Stored = Some file) ->
    FilesType BCu = FilesType BC ->
    InputFileNames BCu = Stored :: rest ->
    NoDup (TargetNames BCu) ->
    (forall T, In T (TargetNames BCu) -> In T (TargetNames BC)) ->
    length (TargetNames BCu) = length (OutputFileNames BCu) ->
    (forall O, In O (OutputFileNames BCu) -> can_create O = true) ->
    Permutation (StringMap_order (TargetNames BCu)) (TargetNames BCu) ->
    compatible_with_own_only BCu (TargetNames BC) (TargetNames BCu) ->
    (HostInputIndex BCu = NoHostIndex
     \/ AllowMissingBundles BCu = true
     \/ exists T, In T (TargetNames BCu)
                  /\ hasHostKind (mkOffloadTargetInfo T BCu) = true) ->
    exists (file : bytes) (Files : Written),
      BundleFiles BC = Ok file
      /\ UnbundleFiles BCu = (Files, Ok tt)
      /\ forall O P,
           In (O, P) Files
           <-> exists T,
                 In (T, O) (combine (TargetNames BCu) (OutputFileNames BCu))
                 /\ In (T, P) (combine (TargetNames BC) Inputs).
Proof.
  intros C BC BCu H Output Stored Outputs rest Inputs HOut Hcan Hopen Hlen
         Hhost Hnd Hne Hfh Hsafe Hsize Hstored Htype HIn HndU Hsub HlenU
         HcanU HordU Hself Hhostu.
  pose proof (CreateFileHandler_Text _ _ _ (Hfh [])) as HH.
  set (Es := combine (TargetNames BC) Inputs) in *.
  set (FC := text_container H Es) in *.
  assert (Hkeys : map fst Es = TargetNames BC)
    by (apply map_fst_combine; lia).
  assert (HkeysU : map fst (combine (TargetNames BCu) (OutputFileNames BCu))
                   = TargetNames BCu)
    by (apply map_fst_combine; lia).
  assert (Hbundle : BundleFiles BC = Ok FC).
  { destruct HH as [->|[->| ->]]; eapply BundleFiles_Text; eassumption. }
  exists FC. eexists. split; [exact Hbundle|]. split.
  - apply UnbundleFiles_Scans
      with (Stored := Stored) (Input := FC) (rest := rest)
           (FH0 := Text H) (FH := Text H) (Bs := Es);
      rewrite ?Hkeys; try assumption.
    + now apply Hstored.
    + eapply CreateFileHandler_Text_type; [apply (Hfh []) | exact Htype].
    + reflexivity.
    + now apply Text_handler_Scans.
    + apply text_container_bound.
  - intros O P. rewrite <- HkeysU at 2.
    apply extracted_filter_In. now rewrite HkeysU.
Qed.

(** The theorem at the sample [.ll] container, unbundled for the GPU target
    only, with [allow_missing_bundles] set. *)
Lemma X18_witness :
  exists (file : bytes) (Files : Written),
    @BundleFiles Sample.ll_env
      (Sample.bundling (B "ll") [B "a.ll"; B "b.ll"] (B "bundle.ll"))
    = Ok file
    /\ @UnbundleFiles Sample.ll_env
         (Sample.allowing_missing_bundles
            (Sample.config (B "ll") [B "hip-amdgcn-amd-amdhsa--gfx906"]
                           [B "bundle.ll"] [B "gfx906.ll"]))
       = (Files, Ok tt)
    /\ forall O P,
         In (O, P) Files
         <-> exists T,
               In (T, O) [(B "hip-amdgcn-amd-amdhsa--gfx906", B "gfx906.ll")]
               /\ In (T, P) (combine Sample.targets
                                     [B "define1" ++ NL; B "define2" ++ NL]).
Proof.
  refine (X18_text_unbundling_of_requested_targets Sample.ll_env
            (Sample.bundling (B "ll") [B "a.ll"; B "b.ll"] (B "bundle.ll"))
            (Sample.allowing_missing_bundles
               (Sample.config (B "ll") [B "hip-amdgcn-amd-amdhsa--gfx906"]
                              [B "bundle.ll"] [B "gfx906.ll"]))
            (TextFileHandler.new (B ";"))
            (B "bundle.ll") (B "bundle.ll") [] []
            [B "define1" ++ NL; B "define2" ++ NL]
            eq_refl eq_refl eq_refl eq_refl _ _ _ _ _ _ _
            eq_refl eq_refl _ _ eq_refl _ _ _ _).
  - split; [intro Hx; discriminate Hx | vm_compute; lia].
  - repeat constructor; simpl; intuition discriminate.
  - intros T [<-|[<-|[]]]; discriminate.
  - intros FirstInput. reflexivity.
  - repeat constructor; try (apply newline_free_check; reflexivity);
      vm_compute; reflexivity.
  - vm_compute. reflexivity.
  - intros file Hf. vm_compute in Hf. injection Hf as <-.
    vm_compute. reflexivity.
  - repeat constructor; simpl; intuition discriminate.
  - intros T [<-|[]]. right. left. reflexivity.
  - intros O HO. reflexivity.
  - apply Permutation_refl.
  - intros T T' [<-|[<-|[]]] [<-|[]]; vm_compute; split; intros Hx;
      try reflexivity; discriminate Hx.
  - right. left. reflexivity.
Defined.

(** ** The target ID *)

Lemma split_fst_prefix (sep : ascii) (s : bytes) :
  exists r, s = fst (split sep s) ++ r.
Proof.
  induction s as [|c s [r IH]]; [now exists []|].
  cbn [split]. destruct (Ascii.eqb c sep).
  - now exists (c :: s).
  - destruct (split sep s) as [a b]. cbn [fst] in *.
    exists r. cbn [app]. now rewrite <- IH.
Qed.

Lemma rsplit_snd_suffix (sep : ascii) (s : bytes) :
  exists p, s = p ++ snd (rsplit sep s).
Proof.
  induction s as [|c s [p IH]]; [now exists []|].
  cbn [rsplit]. destruct (contains_char sep s).
  - destruct (rsplit sep s) as [a b]. cbn [snd] in *.
    exists (c :: p). cbn [app]. now rewrite <- IH.
  - destruct (Ascii.eqb c sep).
    + now exists [c].
    + exists (c :: s). now rewrite app_nil_r.
Qed.

Lemma find_first_occurs (needle : bytes) :
  forall a b : bytes, exists k, find_first needle (a ++ needle ++ b) = Some k.
Proof.
  induction a as [|c a IH]; intros b.
  - exists 0%nat. cbn [app]. apply find_first_starts, starts_with_app.
  - cbn [app find_first].
    destruct (starts_with needle (c :: a ++ needle ++ b));
      [now exists 0%nat|].
    destruct (IH b) as [k Hk]. rewrite Hk. now exists (S k).
Qed.

Lemma find_first_Some_starts (needle : bytes) :
  forall (hay : bytes) (k : nat),
    find_first needle hay = Some k ->
    starts_with needle (skipn k hay) = true.
Proof.
  induction hay as [|c hay IH]; intros k; cbn [find_first].
  - destruct (starts_with needle []) eqn:Hs; [|discriminate].
    intros [= <-]. exact Hs.
  - destruct (starts_with needle (c :: hay)) eqn:Hs.
    + intros [= <-]. exact Hs.
    + destruct (find_first needle hay) as [j|]; [|discriminate].
      cbn [option_map]. intros [= <-]. cbn [skipn]. now apply IH.
Qed.

(** X19.  Let [GPU] be what follows the last ['-'] in the part of a target
    before its first [':'].  When [GPU] is a known architecture, the target
    ID that the constructor of [OffloadTargetInfo] reads is the target from
    the first occurrence of [GPU] to its end: it starts with [GPU] and is a
    suffix of the target (so it holds the feature list after [':']).  When
    it is not, the target ID is empty. *)
Theorem X19_target_id_of_known_architecture :
  forall (C : Collaborators) (Target : bytes) (BC : OffloadBundlerConfig),
    let GPU := snd (rsplit dash (fst (split colon Target))) in
    if StringToCudaArch_known GPU
    then starts_with GPU (TargetID (mkOffloadTargetInfo Target BC)) = true
         /\ exists pre, Target = pre ++ TargetID (mkOffloadTargetInfo Target BC)
    else TargetID (mkOffloadTargetInfo Target BC) = [].
Proof.
  intros C Target BC GPU. unfold mkOffloadTargetInfo. fold GPU.
  destruct (StringToCudaArch_known GPU); cbn [TargetID]; [|reflexivity].
  destruct (split_fst_prefix colon Target) as [r Hr].
  destruct (rsplit_snd_suffix dash (fst (split colon Target))) as [p Hp].
  fold GPU in Hp.
  assert (HT : Target = p ++ GPU ++ r)
    by (rewrite Hr at 1; rewrite Hp at 1; now rewrite <- app_assoc).
  destruct (find_first_occurs GPU p r) as [k Hk]. rewrite <- HT in Hk.
  unfold substr, find. pose proof (len_nonneg Target) as Hl.
  replace (len Target <? 0) with false by (symmetry; apply Z.ltb_ge; lia).
  cbn [Z.to_nat skipn]. rewrite Hk. rewrite Z.add_0_l, Nat2Z.id.
  split.
  - now apply find_first_Some_starts.
  - exists (firstn k Target). now rewrite firstn_skipn.
Qed.

(** ** What the binary header reader records *)

Lemma sm_set_entries {V : Type} (P : V -> Prop) (m : StringMap V) (k : bytes)
  (v : V) :
  (forall E, In E m -> P (snd E)) -> P v ->
  forall E, In E (sm_set m k v) -> P (snd E).
Proof.
  intros Hm Hv E HE. apply sm_set_In in HE as [HE|HE];
    [now apply Hm | now rewrite HE].
Qed.

Lemma ReadHeader_loop_checked {C : Collaborators} (FC : bytes) :
  forall (fuel : nat) (i N ReadChars : Z) (H H' : BinaryFileHandler.t),
    (forall E, In E (BinaryFileHandler.BundlesInfo H) ->
               bundle_checked FC (snd E)) ->
    BinaryFileHandler.ReadHeader_loop fuel FC i N ReadChars H = Ok H' ->
    forall E, In E (BinaryFileHandler.BundlesInfo H') ->
              bundle_checked FC (snd E).
Proof.
  induction fuel as [|fuel IH]; intros i N ReadChars H H' HH;
    cbn [BinaryFileHandler.ReadHeader_loop];
    repeat match goal with
           | |- (if ?c then _ else _) = _ -> _ =>
               destruct c eqn:?; try (intros [= <-]; exact HH)
           | |- match ?x with Some _ => _ | None => _ end = _ -> _ =>
               destruct x; try discriminate
           end;
    unfold assert;
    match goal with
    | |- context [negb ?c] => destruct c; cbn [negb bind]; try discriminate
    end.
  apply IH.
  cbn [BinaryFileHandler.with_BundlesInfo BinaryFileHandler.BundlesInfo].
  apply sm_set_entries; [exact HH|].
  unfold bundle_checked. cbn [BinaryFileHandler.Offset BinaryFileHandler.Size].
  match goal with
  | Hc : (_ =? 0) || (_ <? _) = false |- _ =>
      apply orb_false_elim in Hc as [Hz Hs]
  end.
  apply Z.eqb_neq in Hz. apply Z.ltb_ge in Hs. split; assumption.
Qed.

(** X20.  Every bundle that [BinaryFileHandler::ReadHeader] records from an
    input has passed the check on its offset and size: the offset is not
    zero and offset plus size, as a 64-bit sum, is at most the size of the
    input. *)
Theorem X20_Binary_ReadHeader_records_checked_bundles :
  forall (C : Collaborators) (BC : OffloadBundlerConfig) (Input : bytes)
         (H : BinaryFileHandler.t) (T : bytes)
         (BI : BinaryFileHandler.BinaryBundleInfo),
    BinaryFileHandler.ReadHeader (BinaryFileHandler.new BC) Input = Ok H ->
    sm_lookup (BinaryFileHandler.BundlesInfo H) T = Some BI ->
    BinaryFileHandler.Offset BI <> 0
    /\ wrap64 (BinaryFileHandler.Offset BI + BinaryFileHandler.Size BI)
       <= len Input.
Proof.
  intros C BC Input H T BI Hhdr Hl.
  apply sm_lookup_Some_In in Hl.
  assert (Hall : forall E, In E (BinaryFileHandler.BundlesInfo H) ->
                           bundle_checked Input (snd E)).
  { revert Hhdr. unfold BinaryFileHandler.ReadHeader.
    repeat match goal with
           | |- (if ?c then _ else _) = _ -> _ =>
               destruct c; try (intros [= <-]; intros E [])
           end.
    apply ReadHeader_loop_checked. intros E []. }
  exact (Hall _ Hl).
Qed.

(** The theorem at the header of the sample [.bc] container: the bundle of
    the GPU target is at offset 141 and takes 4 bytes of the 145. *)
Lemma X20_witness :
  141 <> 0 /\ wrap64 (141 + 4) <= 145.
Proof.
  refine (X20_Binary_ReadHeader_records_checked_bundles Sample.bc_env
            (Sample.config (B "bc") [] [] [])
            (Sample.value
               (@BundleFiles Sample.bc_env
                  (Sample.bundling (B "bc") [B "a.bc"; B "b.bc"]
                                   (B "bundle.bc"))))
            _ (B "hip-amdgcn-amd-amdhsa--gfx906")
            {| BinaryFileHandler.Size := 4; BinaryFileHandler.Offset := 141 |}
            _ _).
  - vm_compute. reflexivity.
  - vm_compute. reflexivity.
Defined.

(** ** Unbundling when some requested targets have no bundle *)

Lemma missing_In (Ids : list bytes) (E : bytes * bytes) :
  missing Ids E = true <-> ~ In (fst E) Ids.
Proof.
  unfold missing. rewrite negb_true_iff, <- not_true_iff_false.
  now rewrite requested_In.
Qed.

Lemma filter_missing_erase (W : list (bytes * bytes)) (T : bytes)
  (Ids : list bytes) :
  NoDup (map fst W) ->
  filter (missing Ids) (Worklist_erase W T)
  = filter (missing (T :: Ids)) W.
Proof.
  induction W as [|[k o] W IH]; intros Hnd; [reflexivity|].
  inversion Hnd as [|? ? Hnotin Hnd']; subst.
  cbn [Worklist_erase fst filter].
  destruct (bytes_eqb k T) eqn:Hk.
  - apply bytes_eqb_eq in Hk. subst k.
    replace (missing (T :: Ids) (T, o)) with false.
    + apply filter_ext_in. intros E HE.
      apply eq_true_iff_eq. rewrite !missing_In. cbn [In].
      split; [|tauto]. intros Hn [Heq|Hin]; [|tauto].
      apply Hnotin. rewrite Heq. now apply in_map.
    + symmetry. apply not_true_iff_false. rewrite missing_In. cbn.
      tauto.
  - apply bytes_eqb_neq in Hk. cbn [filter].
    replace (missing (T :: Ids) (k, o)) with (missing Ids (k, o)).
    + rewrite IH by exact Hnd'. reflexivity.
    + apply eq_true_iff_eq. rewrite !missing_In. cbn [In fst].
      split; [intros Hn [Heq|Hin]; [congruence | tauto] | tauto].
Qed.

Lemma filter_missing_absent (W : list (bytes * bytes)) (T : bytes)
  (Ids : list bytes) :
  ~ In T (map fst W) ->
  filter (missing (T :: Ids)) W = filter (missing Ids) W.
Proof.
  intros Hnot. apply filter_ext_in. intros E HE.
  apply eq_true_iff_eq. rewrite !missing_In. cbn [In].
  split; [tauto|]. intros Hn [Heq|Hin]; [|tauto].
  apply Hnot. rewrite Heq. now apply in_map.
Qed.

Lemma filter_missing_nil (W : list (bytes * bytes)) :
  filter (missing []) W = W.
Proof.
  induction W as [|E W IH]; [reflexivity|]. cbn [filter].
  replace (missing [] E) with true by reflexivity. now rewrite IH.
Qed.

Lemma filter_requested_nil (Bs : list (bytes * bytes)) :
  filter (requested []) Bs = [].
Proof. induction Bs as [|B Bs IH]; [reflexivity | exact IH]. Qed.

Lemma Unbundle_loop_Scans_any {C : Collaborators} (BC : OffloadBundlerConfig)
  (Input : bytes) :
  forall (Bs : list (bytes * bytes)) (FH : FileHandler)
         (W : list (bytes * bytes)) (found : bool) (w : Written) (fuel : nat),
    Scans Input FH Bs ->
    NoDup (map fst W) ->
    NoDup (map fst Bs) ->
    compatible_with_own_only BC (map fst Bs) (map fst W) ->
    (forall T, In T (map fst Bs) -> T <> []) ->
    (forall E, In E W -> can_create (snd E) = true) ->
    (length Bs < fuel)%nat ->
    Unbundle_loop fuel BC Input FH W found w
    = (w ++ map (extracted W) (filter (requested (map fst W)) Bs),
       Ok (filter (missing (map fst Bs)) W,
           found
           || has_host_bundle BC (filter (requested (map fst W)) Bs))).
Proof.
  induction Bs as [|[T P] Bs IH];
    intros FH W found w fuel HS HndW HndB Hself Hne Hcan Hfuel.
  - inversion HS as [? FH' Hstart|]; subst.
    cbn [map filter]. unfold has_host_bundle. cbn [existsb].
    rewrite app_nil_r, orb_false_r, filter_missing_nil.
    destruct W as [|E0 W0]; [destruct fuel; reflexivity|].
    destruct fuel as [|fuel]; [simpl in Hfuel; lia|].
    cbn [Unbundle_loop]. unfold io_bind, io_lift. now rewrite Hstart.
  - inversion HS as [|? FH1 FH2 FH3 ? ? ? Hstart Hread Hend Hrest Hskip]; subst.
    destruct fuel as [|fuel]; [simpl in Hfuel; lia|].
    inversion HndB as [|? ? HTB HndB']; subst.
    destruct W as [|E0 W0] eqn:HW.
    { cbn [Unbundle_loop map filter]. unfold io_ret.
      rewrite filter_requested_nil.
      unfold has_host_bundle. cbn [map existsb].
      now rewrite app_nil_r, orb_false_r. }
    rewrite <- HW in *.
    cbn [filter map fst].
    destruct (requested (map fst W) (T, P)) eqn:Hreq.
    + apply requested_In in Hreq. cbn [fst] in Hreq.
      assert (Hloop : Unbundle_loop (S fuel) BC Input FH W found w
                      = Unbundle_loop fuel BC Input FH3
                          (Worklist_erase W T)
                          (if hasHostKind (mkOffloadTargetInfo T BC)
                           then true else found)
                          (w ++ [(output_of W T, P)])).
      { rewrite HW at 1. cbn [Unbundle_loop]. rewrite <- HW.
        unfold io_bind at 1. unfold io_lift at 1. rewrite Hstart.
        unfold io_bind at 1. unfold io_lift at 1.
        replace (bytes_eqb T []) with false
          by (symmetry; apply bytes_eqb_neq; apply Hne; now left).
        cbn [negb assert].
        rewrite (find_compatible_self BC T W Hreq).
        2:{ intros T' HT'. apply Hself; [now left | exact HT']. }
        cbn [fst snd].
        unfold io_bind at 1. unfold io_open.
        pose proof (Hcan _ (output_of_In W T Hreq)) as Hc. cbn [snd] in Hc.
        rewrite Hc.
        unfold io_bind at 1. unfold io_lift at 1. rewrite Hread.
        unfold io_bind at 1. unfold io_write.
        unfold io_bind at 1. unfold io_lift at 1. rewrite Hend.
        reflexivity. }
      rewrite Hloop.
      rewrite IH; try assumption.
      * rewrite filter_requested_erase by assumption.
        rewrite filter_missing_erase by assumption.
        rewrite <- app_assoc. cbn [map app]. f_equal.
        -- f_equal. f_equal.
           apply map_ext_in. intros [T' P'] HE. unfold extracted.
           cbn [fst snd]. f_equal. apply Worklist_erase_output.
           intros ->. apply HTB. apply filter_In in HE as [HE _].
           now apply (in_map fst) in HE.
        -- f_equal. f_equal. unfold has_host_bundle. cbn [existsb fst].
           destruct (hasHostKind (mkOffloadTargetInfo T BC)), found;
             reflexivity.
      * now apply Worklist_erase_NoDup.
      * intros T1 T2 H1 H2. apply Hself; [now right|].
        apply Worklist_erase_keys in H2; [tauto | assumption].
      * intros T' HT'. apply Hne. now right.
      * intros E HE. apply Hcan. now apply Worklist_erase_In in HE.
      * simpl in Hfuel. lia.
    + assert (Hnot : ~ In T (map fst W)).
      { intros Hin. apply (requested_In (map fst W) (T, P)) in Hin.
        congruence. }
      assert (Hloop : Unbundle_loop (S fuel) BC Input FH W found w
                      = Unbundle_loop fuel BC Input FH1 W found w).
      { rewrite HW at 1. cbn [Unbundle_loop]. rewrite <- HW.
        unfold io_bind at 1. unfold io_lift at 1. rewrite Hstart.
        unfold io_bind at 1. unfold io_lift at 1.
        replace (bytes_eqb T []) with false
          by (symmetry; apply bytes_eqb_neq; apply Hne; now left).
        cbn [negb assert].
        rewrite (find_compatible_none BC T W Hnot); [reflexivity|].
        intros T' HT'. apply Hself; [now left | exact HT']. }
      rewrite Hloop. rewrite filter_missing_absent by exact Hnot.
      apply IH; try assumption.
      * intros T1 T2 H1 H2. apply Hself; [now right | exact H2].
      * intros T' HT'. apply Hne. now right.
      * simpl in Hfuel. lia.
Qed.

Lemma write_empty_all {C : Collaborators} :
  forall (W : list (bytes * bytes)) (w : Written),
    (forall E, In E W -> can_create (snd E) = true) ->
    write_empty W w = (w ++ map empty_output W, Ok tt).
Proof.
  induction W as [|E W IH]; intros w Hcan.
  - cbn. now rewrite app_nil_r.
  - cbn [write_empty map]. unfold io_bind, io_open, io_write.
    rewrite (Hcan E (or_introl eq_refl)).
    rewrite IH by (intros; apply Hcan; now right).
    rewrite <- app_assoc. reflexivity.
Qed.

Lemma filter_length_lt {A : Type} (f : A -> bool) (x : A) :
  forall l : list A,
    In x l -> f x = false -> (length (filter f l) < length l)%nat.
Proof.
  induction l as [|a l IH]; intros Hin Hf; [destruct Hin|].
  pose proof (filter_length_le f l) as Hle.
  cbn [filter length]. destruct Hin as [->|Hin].
  - rewrite Hf. lia.
  - specialize (IH Hin Hf). destruct (f a); cbn [length]; lia.
Qed.

Lemma UnbundleFiles_Scans_missing {C : Collaborators}
  (BC : OffloadBundlerConfig)
  (Stored Input : bytes) (rest : list bytes) (FH0 FH : FileHandler)
  (Bs : list (bytes * bytes)) (Found : bytes) :
  InputFileNames BC = Stored :: rest ->
  getFileOrSTDIN Stored = Some Input ->
  CreateFileHandler Input BC = Ok FH0 ->
  ReadHeader FH0 Input = Ok FH ->
  Scans Input FH Bs ->
  NoDup (map fst Bs) ->
  (length Bs <= bundle_bound FH Input)%nat ->
  NoDup (TargetNames BC) ->
  length (TargetNames BC) = length (OutputFileNames BC) ->
  Permutation (StringMap_order (TargetNames BC)) (TargetNames BC) ->
  compatible_with_own_only BC (map fst Bs) (TargetNames BC) ->
  (forall T, In T (map fst Bs) -> T <> []) ->
  (forall O, In O (OutputFileNames BC) -> can_create O = true) ->
  AllowMissingBundles BC = true ->
  In Found (TargetNames BC) ->
  In Found (map fst Bs) ->
  exists Files : Written,
    UnbundleFiles BC = (Files, Ok tt)
    /\ forall O P,
         In (O, P) Files
         <-> (exists T,
                In (T, O) (combine (TargetNames BC) (OutputFileNames BC))
                /\ In (T, P) Bs)
             \/ (P = []
                 /\ exists T,
                      In (T, O) (combine (TargetNames BC) (OutputFileNames BC))
                      /\ ~ In T (map fst Bs)).
Proof.
  intros HIn Hfile Hfh Hhdr HS HndB Hbound Hnd Hlen Hord Hself Hne Hcan
         Hallow HF1 HF2.
  set (W := combine (TargetNames BC) (OutputFileNames BC)).
  assert (Hkeys : map fst W = TargetNames BC)
    by (apply map_fst_combine; lia).
  assert (Hperm : Permutation (sm_entries W) W).
  { apply sm_entries_Permutation; rewrite Hkeys; assumption. }
  assert (HW : forall T, In T (map fst (sm_entries W))
                         <-> In T (TargetNames BC)).
  { intros T. rewrite <- Hkeys. split; apply Permutation_in;
      [|apply Permutation_sym]; apply Permutation_map, Hperm. }
  assert (Hfilter : filter (requested (map fst (sm_entries W))) Bs
                    = filter (requested (TargetNames BC)) Bs).
  { apply filter_ext. intros E. apply eq_true_iff_eq.
    rewrite !requested_In. apply HW. }
  assert (HcanW : forall E, In E (sm_entries W) -> can_create (snd E) = true).
  { intros E HE. apply Hcan.
    apply (Permutation_in _ Hperm) in HE. destruct E as [T O].
    now apply in_combine_r in HE. }
  assert (Hloop :
    Unbundle_loop (S (bundle_bound FH Input)) BC Input FH (sm_entries W)
                  false []
    = (map (extracted W) (filter (requested (TargetNames BC)) Bs),
       Ok (filter (missing (map fst Bs)) (sm_entries W),
           has_host_bundle BC (filter (requested (TargetNames BC)) Bs)))).
  { rewrite (Unbundle_loop_Scans_any BC Input Bs); try assumption.
    - rewrite Hfilter. cbn [app orb]. f_equal. apply map_ext. intros [T P].
      unfold extracted, output_of. cbn [fst snd].
      rewrite sm_lookup_entries by (rewrite Hkeys; assumption).
      reflexivity.
    - eapply Permutation_NoDup; [|rewrite <- Hkeys in Hnd; exact Hnd].
      apply Permutation_map, Permutation_sym, Hperm.
    - intros T T' HT HT'. apply Hself; [exact HT | now apply HW].
    - lia. }
  assert (Hless : (length (filter (missing (map fst Bs)) (sm_entries W))
                   < length (TargetNames BC))%nat).
  { rewrite <- Hkeys, length_map, <- (Permutation_length Hperm).
    rewrite <- Hkeys in HF1. apply in_map_iff in HF1 as (E & HE & HEin).
    apply filter_length_lt with (x := E).
    - eapply Permutation_in; [apply Permutation_sym, Hperm | exact HEin].
    - apply not_true_iff_false. rewrite missing_In, HE. tauto. }
  eexists. split.
  - unfold UnbundleFiles, UnbundleFiles_io. rewrite HIn, Hfile.
    unfold io_bind at 1. unfold io_lift at 1. rewrite Hfh.
    unfold io_bind at 1. unfold io_lift at 1. rewrite Hhdr.
    unfold io_bind at 1. unfold io_lift at 1.
    rewrite Worklist_init_NoDup by (simpl; assumption || lia).
    cbn [app]. fold W.
    unfold io_bind at 1. rewrite Hloop.
    rewrite Hallow. cbn [negb andb].
    replace (Nat.eqb _ (length (TargetNames BC))) with false
      by (symmetry; apply Nat.eqb_neq; lia).
    rewrite orb_true_r. cbn [negb].
    apply write_empty_all.
    intros E HE. apply HcanW. now apply filter_In in HE.
  - intros O P. rewrite in_app_iff. fold W. rewrite <- Hkeys at 1.
    rewrite extracted_filter_In by (rewrite Hkeys; exact Hnd).
    apply or_iff_compat_l. rewrite in_map_iff. split.
    + intros ([T O'] & Heq & HE). unfold empty_output in Heq.
      cbn [snd] in Heq. injection Heq as -> <-.
      apply filter_In in HE as [HE Hm]. apply missing_In in Hm.
      split; [reflexivity|]. exists T. split; [|exact Hm].
      eapply Permutation_in; [exact Hperm | exact HE].
    + intros (-> & T & HT & Hm). exists (T, O). split; [reflexivity|].
      apply filter_In. split.
      * eapply Permutation_in; [apply Permutation_sym, Hperm | exact HT].
      * now apply missing_In.
Qed.

(** X21.  Bundling into a binary container and then unbundling the file
    that was written with [allow_missing_bundles] set, for targets of which
    at least one was bundled: both operations return success, and the files
    that unbundling writes are exactly these: at the output of each
    requested target that was bundled, the payload bundled for it; at the
    output of each requested target that was not bundled, an empty file.
    This holds provided that
    - for bundling: the output can be created, every input can be read,
      there is one input per target, the host input index is set and names
      one of the inputs (or [allow_no_host] is set and there is an input),
      the targets are pairwise distinct and not empty, the file type is one
      with the binary handler, [bundle_alignment] is positive, the sizes fit
      in 64 bits and the last payload is not empty;
    - for unbundling: the file type is the same, the first input file is the
      file that bundling wrote, the requested targets are pairwise distinct,
      there is one creatable output per requested target, and a bundled
      target is compatible with a requested target exactly when it equals
      it;
    - the string maps (of the bundles, of the work list) iterate over each
      of their keys once. *)
Theorem X21_binary_unbundling_with_missing_bundles :
  forall (C : Collaborators) (BC BCu : OffloadBundlerConfig)
         (Output Stored Found : bytes) (Outputs rest Inputs : list bytes),
    OutputFileNames BC = Output :: Outputs ->
    can_create Output = true ->
    open_inputs (InputFileNames BC) = Ok Inputs ->
    length (TargetNames BC) = length Inputs ->
    valid_host_input BC (length Inputs) ->
    NoDup (TargetNames BC) ->
    (forall T, In T (TargetNames BC) -> T <> []) ->
    (forall FirstInput,
        CreateFileHandler FirstInput BC
        = Ok (Binary (BinaryFileHandler.new BC))) ->
    0 < BundleAlignment BC ->
    fits_64_bits BC Inputs ->
    last_not_empty Inputs ->
    Permutation (StringMap_order (TargetNames BC)) (TargetNames BC) ->
    (forall file, BundleFiles BC = Ok file ->
                  getFileOrSTDIN Stored = Some file) ->
    FilesType BCu = FilesType BC ->
    InputFileNames BCu = Stored :: rest ->
    NoDup (TargetNames BCu) ->
    length (TargetNames BCu) = length (OutputFileNames BCu) ->
    (forall O, In O (OutputFileNames BCu) -> can_create O = true) ->
    Permutation (StringMap_order (TargetNames BCu)) (TargetNames BCu) ->
    compatible_with_own_only BCu (TargetNames BC) (TargetNames BCu) ->
    AllowMissingBundles BCu = true ->
    In Found (TargetNames BCu) ->
    In Found (TargetNames BC) ->
    exists (file : bytes) (Files : Written),
      BundleFiles BC = Ok file
      /\ UnbundleFiles BCu = (Files, Ok tt)
      /\ forall O P,
           In (O, P) Files
           <-> (exists T,
                  In (T, O) (combine (TargetNames BCu) (OutputFileNames BCu))
                  /\ In (T, P) (combine (TargetNames BC) Inputs))
               \/ (P = []
                   /\ exists T,
                        In (T, O) (combine (TargetNames BCu)
                                           (OutputFileNames BCu))
                        /\ ~ In T (TargetNames BC)).
Proof.
  intros C BC BCu Output Stored Found Outputs rest Inputs HOut Hcan Hopen Hlen
         Hhost Hnd Hne Hfh Ha Hfit Hlast Hord Hstored Htype HIn HndU HlenU
         HcanU HordU Hself Hallow HF1 HF2.
  set (FC := binary_container BC Inputs).
  set (Es := combine (TargetNames BC) Inputs).
  assert (Hkeys : map fst Es = TargetNames BC)
    by (apply map_fst_combine; lia).
  assert (Hbundle : BundleFiles BC = Ok FC)
    by (eapply BundleFiles_Binary; eassumption).
  destruct (Binary_container_Reads BC BCu Inputs Hlen Ha Hfit Hnd Hlast)
    as (H & Hhdr & HR).
  fold FC Es in Hhdr, HR.
  assert (Hperm : Permutation (sm_entries Es) Es)
    by (apply sm_entries_Permutation; rewrite Hkeys; assumption).
  assert (Hids : forall T, In T (map fst (sm_entries Es))
                           <-> In T (TargetNames BC)).
  { intros T. rewrite <- Hkeys. split; apply Permutation_in;
      [|apply Permutation_sym]; apply Permutation_map, Hperm. }
  destruct (UnbundleFiles_Scans_missing BCu Stored FC rest
              (Binary (BinaryFileHandler.new BCu)) (Binary H)
              (sm_entries Es) Found) as (Files & Hun & Hfiles);
    try assumption.
  - now apply Hstored.
  - eapply CreateFileHandler_Binary_type; [apply (Hfh FC) | exact Htype].
  - cbn [ReadHeader]. rewrite Hhdr. reflexivity.
  - apply Reads_Scans; [exact HR | reflexivity].
  - eapply Permutation_NoDup; [|rewrite <- Hkeys in Hnd; exact Hnd].
    apply Permutation_map, Permutation_sym, Hperm.
  - cbn [bundle_bound]. rewrite (Permutation_length Hperm).
    rewrite <- (length_map fst), Hkeys.
    now apply binary_container_bound.
  - intros T T' HT HT'. apply Hself; [now apply Hids | exact HT'].
  - intros T HT. apply Hne. now apply Hids.
  - now apply Hids.
  - exists FC, Files. split; [exact Hbundle|]. split; [exact Hun|].
    intros O P. rewrite Hfiles. split.
    + intros [(T & HW & HB)|(HP & T & HW & Hm)].
      * left. exists T. split; [exact HW|].
        eapply Permutation_in; [exact Hperm | exact HB].
      * right. split; [exact HP|]. exists T. split; [exact HW|].
        intros Hin. apply Hm. now apply Hids.
    + intros [(T & HW & HB)|(HP & T & HW & Hm)].
      * left. exists T. split; [exact HW|].
        eapply Permutation_in; [apply Permutation_sym, Hperm | exact HB].
      * right. split; [exact HP|]. exists T. split; [exact HW|].
        intros Hin. apply Hm. now apply Hids.
Qed.

(** The theorem at the sample [.bc] container, unbundled for the bundled GPU
    target and for a GPU target that was not bundled. *)
Lemma X21_witness :
  exists (file : bytes) (Files : Written),
    @BundleFiles Sample.bc_env
      (Sample.bundling (B "bc") [B "a.bc"; B "b.bc"] (B "bundle.bc"))
    = Ok file
    /\ @UnbundleFiles Sample.bc_env
         (Sample.allowing_missing_bundles
            (Sample.config (B "bc")
               [B "hip-amdgcn-amd-amdhsa--gfx906";
                B "hip-amdgcn-amd-amdhsa--gfx908"]
               [B "bundle.bc"] [B "gfx906.bc"; B "gfx908.bc"]))
       = (Files, Ok tt)
    /\ forall O P,
         In (O, P) Files
         <-> (exists T,
                In (T, O) [(B "hip-amdgcn-amd-amdhsa--gfx906", B "gfx906.bc");
                           (B "hip-amdgcn-amd-amdhsa--gfx908", B "gfx908.bc")]
                /\ In (T, P) (combine Sample.targets [B "BC1"; B "BC22"]))
            \/ (P = []
                /\ exists T,
                     In (T, O)
                        [(B "hip-amdgcn-amd-amdhsa--gfx906", B "gfx906.bc");
                         (B "hip-amdgcn-amd-amdhsa--gfx908", B "gfx908.bc")]
                     /\ ~ In T Sample.targets).
Proof.
  refine (X21_binary_unbundling_with_missing_bundles Sample.bc_env
            (Sample.bundling (B "bc") [B "a.bc"; B "b.bc"] (B "bundle.bc"))
            (Sample.allowing_missing_bundles
               (Sample.config (B "bc")
                  [B "hip-amdgcn-amd-amdhsa--gfx906";
                   B "hip-amdgcn-amd-amdhsa--gfx908"]
                  [B "bundle.bc"] [B "gfx906.bc"; B "gfx908.bc"]))
            (B "bundle.bc") (B "bundle.bc")
            (B "hip-amdgcn-amd-amdhsa--gfx906") [] [] [B "BC1"; B "BC22"]
            eq_refl eq_refl eq_refl eq_refl _ _ _ _ _ _ _ _ _
            eq_refl eq_refl _ eq_refl _ _ _ eq_refl _ _).
  - split; [intro Hx; discriminate Hx | vm_compute; lia].
  - repeat constructor; simpl; intuition discriminate.
  - intros T [<-|[<-|[]]]; discriminate.
  - intros FirstInput. reflexivity.
  - reflexivity.
  - vm_compute. intro Hx. discriminate Hx.
  - simpl. discriminate.
  - apply Permutation_refl.
  - intros file Hf. vm_compute in Hf. injection Hf as <-.
    vm_compute. reflexivity.
  - repeat constructor; simpl; intuition discriminate.
  - intros O HO. reflexivity.
  - apply Permutation_refl.
  - intros T T' [<-|[<-|[]]] [<-|[<-|[]]]; vm_compute; split; intros Hx;
      try reflexivity; discriminate Hx.
  - left. reflexivity.
  - right. left. reflexivity.
Defined.
